(** * HR automation: the screening engine and the recruitment orchestrator

    A shallow embedding of [agents/candidate_screener.py],
    [agents/interview_coordinator.py] (stage selection, schedule, status
    update), [config.py] (evaluation weights) and
    [recruitment_orchestrator.py], followed by the properties of the
    scoring engine, the candidate workflow and the summary aggregation.

    Conventions of the embedding.
    - Python numbers (int and float) are rationals [Q]; float arithmetic is
      taken exact, and [round(x, 2)] rounds to the nearest hundredth, ties
      to even.  Equality of numbers is [Qeq] ([==]).
    - Python [str] is [string]; case folding and white space are those of
      the ASCII range.
    - A [dict] used as a record is a [Record]; a [dict] used as a map is an
      association list that keeps insertion order, as Python does.
    - Exceptions are an error monad [Exc]; [try/except] is a [match].
    - [datetime.now()] is an explicit argument of every operation that
      reads the clock; a time stamp is a number of microseconds. *)

From Stdlib Require Import ZArith QArith Qround Qabs Lqa Lia.
From Stdlib Require Import List String Ascii Bool Permutation DecimalString.
From Stdlib Require Import Sorted.
Import ListNotations.

Local Open Scope string_scope.
Local Open Scope Q_scope.

(* ================================================================== *)
(** * Python primitives *)
(* ================================================================== *)

Module Py.

(** ** Exceptions *)

Inductive exn : Type :=
| ZeroDivisionError
| ValueError (msg : string)
| KeyError (key : string).

(** [str(e)]. *)
Definition str_exn (e : exn) : string :=
  match e with
  | ZeroDivisionError => "division by zero"
  | ValueError msg => msg
  | KeyError key => "'" ++ key ++ "'"
  end.

Inductive Exc (A : Type) : Type :=
| Return (a : A)
| Raise (e : exn).
Arguments Return {A} a.
Arguments Raise {A} e.

Definition bind {A B : Type} (m : Exc A) (k : A -> Exc B) : Exc B :=
  match m with
  | Return a => k a
  | Raise e => Raise e
  end.

(** ** Numbers *)

(** [a >= b] on numbers. *)
Definition ge (a b : Q) : bool := Qle_bool b a.

(** [a / b]: true division, raising on a zero divisor. *)
Definition truediv (a b : Q) : Exc Q :=
  if Qeq_bool b 0 then Raise ZeroDivisionError else Return (a / b).

Definition min (a b : Q) : Q := if Qle_bool a b then a else b.
Definition max (a b : Q) : Q := if Qle_bool a b then b else a.

(** [len(l)] as a number. *)
Definition len {A : Type} (l : list A) : Q := inject_Z (Z.of_nat (List.length l)).

(** [sum(l)] of a list of numbers. *)
Definition sum (l : list Q) : Q := fold_right Qplus 0 l.

(** Nearest integer, ties to even. *)
Definition round_half_even (x : Q) : Z :=
  let f := Qfloor x in
  match Qcompare (x - inject_Z f) (1 # 2) with
  | Lt => f
  | Gt => (f + 1)%Z
  | Eq => if Z.even f then f else (f + 1)%Z
  end.

(** [round(x, 2)]. *)
Definition round2 (x : Q) : Q := inject_Z (round_half_even (x * 100)) / 100.

(** ** Strings *)

(** Decimal numeral of a natural number. *)
Definition str_Z (z : Z) : string :=
  NilZero.string_of_uint (N.to_uint (Z.to_N z)).

(** [f"{x:.1f}"]: one decimal, the sign kept apart. *)
Definition format_f1 (x : Q) : string :=
  let t := round_half_even (Qabs x * 10) in
  (if Qlt_le_dec x 0 then "-" else EmptyString)
  ++ str_Z (t / 10) ++ "." ++ str_Z (t mod 10).

Definition is_upper (c : ascii) : bool :=
  let n := nat_of_ascii c in (65 <=? n)%nat && (n <=? 90)%nat.

Definition lower_char (c : ascii) : ascii :=
  if is_upper c then ascii_of_nat (nat_of_ascii c + 32) else c.

(** [s.lower()]. *)
Fixpoint lower (s : string) : string :=
  match s with
  | EmptyString => EmptyString
  | String c s' => String (lower_char c) (lower s')
  end.

(** [s.startswith(p)]. *)
Definition startswith (s p : string) : bool := String.prefix p s.

(** [sub in s]. *)
Fixpoint contains (sub s : string) : bool :=
  String.prefix sub s
  || match s with
     | EmptyString => false
     | String _ s' => contains sub s'
     end.

(** [s.replace(' ', '')]. *)
Fixpoint remove_spaces (s : string) : string :=
  match s with
  | EmptyString => EmptyString
  | String c s' =>
      if Ascii.eqb c " "%char then remove_spaces s'
      else String c (remove_spaces s')
  end.

(** White space of [str.split()] in the ASCII range: tab, line feed,
    vertical tab, form feed, carriage return, the four separators
    28 to 31, and the space. *)
Definition is_space (c : ascii) : bool :=
  let n := nat_of_ascii c in
  ((9 <=? n)%nat && (n <=? 13)%nat)
  || ((28 <=? n)%nat && (n <=? 32)%nat).

(** [s.split()]: the maximal runs of characters that are not white
    space.  [cur] is the word being read, reversed. *)
Fixpoint split_aux (s : string) (cur : list ascii) : list string :=
  let flush (rest : list string) : list string :=
    match cur with
    | [] => rest
    | _ => string_of_list_ascii (rev cur) :: rest
    end in
  match s with
  | EmptyString => flush []
  | String c s' =>
      if is_space c then flush (split_aux s' [])
      else split_aux s' (c :: cur)
  end.

Definition split (s : string) : list string := split_aux s [].

(** [sep.join(l)]. *)
Definition join (sep : string) (l : list string) : string :=
  String.concat sep l.

(** [a == b] on strings. *)
Definition str_eq (a b : string) : bool := String.eqb a b.

(** ** Dictionaries used as maps: insertion-ordered association lists *)

Definition dict (V : Type) : Type := list (string * V).

(** [d.get(k)]. *)
Fixpoint get {V : Type} (d : dict V) (k : string) : option V :=
  match d with
  | [] => None
  | (k', v) :: d' => if String.eqb k' k then Some v else get d' k
  end.

(** [d[k] = v]: an existing key keeps its place, a new key is appended. *)
Fixpoint set {V : Type} (d : dict V) (k : string) (v : V) : dict V :=
  match d with
  | [] => [(k, v)]
  | (k', v') :: d' =>
      if String.eqb k' k then (k', v) :: d' else (k', v') :: set d' k v
  end.

Definition keys {V : Type} (d : dict V) : list string := map fst d.
Definition values {V : Type} (d : dict V) : list V := map snd d.

(** ** Sorting *)

(** [l.sort(key=key, reverse=True)]: descending by key, elements of equal
    key in their original order. *)
Fixpoint insert_desc {A : Type} (key : A -> Q) (x : A) (l : list A)
  : list A :=
  match l with
  | [] => [x]
  | y :: l' =>
      if Qle_bool (key y) (key x) then x :: y :: l'
      else y :: insert_desc key x l'
  end.

Definition sort_desc {A : Type} (key : A -> Q) (l : list A) : list A :=
  fold_right (insert_desc key) [] l.

(** [a] may stand before [b] in a descending order. *)
Definition desc {A : Type} (key : A -> Q) (a b : A) : Prop :=
  key b <= key a.

(** ** More strings *)

(** [str(n)] of an integer. *)
Definition str_int (z : Z) : string :=
  if (z <? 0)%Z then "-" ++ str_Z (- z) else str_Z z.

(** [s.lstrip()], [s.rstrip()] and [s.strip()]. *)
Fixpoint lstrip (s : string) : string :=
  match s with
  | EmptyString => EmptyString
  | String c s' => if is_space c then lstrip s' else s
  end.

Definition rstrip (s : string) : string :=
  string_of_list_ascii
    (rev (list_ascii_of_string
            (lstrip (string_of_list_ascii
                       (rev (list_ascii_of_string s)))))).

Definition strip (s : string) : string := rstrip (lstrip s).

End Py.

Notation "x <- c1 ;; c2" := (Py.bind c1 (fun x => c2))
  (at level 61, c1 at next level, right associativity).


(* ================================================================== *)
(** * config.py *)
(* ================================================================== *)

Module Config.

(** The keys of [EVALUATION_CRITERIA]. *)
Record EvaluationCriteria : Type := {
  technical_skills : Q;
  communication : Q;
  experience : Q;
  cultural_fit : Q;
  problem_solving : Q
}.

Definition EVALUATION_CRITERIA : EvaluationCriteria := {|
  technical_skills := 3 # 10;
  communication := 2 # 10;
  experience := 2 # 10;
  cultural_fit := 15 # 100;
  problem_solving := 15 # 100
|}.

(** The five stage names, in the order of the pipeline. *)
Definition INTERVIEW_STAGES : list string :=
  ["Initial Screening"; "Technical Assessment"; "HR Interview";
   "Final Round"; "Reference Check"].

End Config.

(* ================================================================== *)
(** * Data model *)
(* ================================================================== *)

(** The application a caller hands in ([candidate_data]). *)
Record CandidateData : Type := {
  cd_candidate_id : string;
  cd_candidate_name : string;
  cd_position : string;
  cd_experience_years : Q;
  cd_resume_text : string;
  cd_cover_letter : string
}.

(** A job opening ([job_requirements]). *)
Record JobRequirements : Type := {
  job_position : string;
  job_department : string;
  job_required_skills : list string;
  job_experience_level : string;
  job_priority : string
}.

(** [opening['position']]. *)
Definition opening_position (opening : JobRequirements) : string :=
  job_position opening.

(** Result of [_analyze_skill_match].  The early return of the function
    has no ["match_percentage"] key. *)
Record SkillAnalysis : Type := {
  sa_score : Q;
  sa_matched_skills : list string;
  sa_missing_skills : list string;
  sa_match_percentage : option string
}.

(** Result of [_evaluate_experience]. *)
Record ExperienceAnalysis : Type := {
  ea_score : Q;
  ea_candidate_years : Q;
  ea_required_years : Q;
  ea_assessment : string;
  ea_experience_gap : Q
}.

(** Result of [_assess_cultural_fit]. *)
Record CulturalFitAnalysis : Type := {
  cf_score : Q;
  cf_category_scores : Py.dict Q;
  cf_assessment : string;
  cf_strengths : list string;
  cf_areas_for_growth : list string
}.

(** The completed result of [screen_candidate]. *)
Record ScreeningResult : Type := {
  sr_candidate_id : string;
  sr_candidate_name : string;
  sr_position : string;
  sr_overall_score : Q;
  sr_skill_match_score : Q;
  sr_experience_match_score : Q;
  sr_cultural_fit_score : Q;
  sr_recommendation : string;
  sr_ai_feedback : string;
  sr_skill_analysis : SkillAnalysis;
  sr_experience_analysis : ExperienceAnalysis;
  sr_cultural_fit_analysis : CulturalFitAnalysis
}.

(** What [screen_candidate] returns: ["screening_status"] is either
    ["completed"] or ["error"]. *)
Inductive Screening : Type :=
| ScreeningCompleted (r : ScreeningResult)
| ScreeningError (candidate_id : string) (error_message : string).

(* ================================================================== *)
(** * agents/candidate_screener.py *)
(* ================================================================== *)

Module CandidateScreener.
Section Screener.

(** The weights read from [config.EVALUATION_CRITERIA]. *)
Variable criteria : Config.EvaluationCriteria.

(** [self.client]: the chat completion call, absent without a plausible
    API key; the call may raise. *)
Variable client : option (string -> Py.Exc string).

(** The text of the feedback prompt, from the values it interpolates:
    candidate, job, match percentage, the two assessments, matched and
    missing skills. *)
Variable feedback_prompt :
  CandidateData -> JobRequirements -> string -> string -> string ->
  list string -> list string -> string.

(** The test of the loop of [_analyze_skill_match]: the phrase, the
    phrase without spaces, or any word of the phrase. *)
Definition skill_in_resume (resume_lower skill : string) : bool :=
  let skill_lower := Py.lower skill in
  Py.contains skill_lower resume_lower
  || Py.contains (Py.remove_spaces skill_lower)
                 (Py.remove_spaces resume_lower)
  || existsb (fun word => Py.contains word resume_lower)
             (Py.split skill_lower).

(** The loop of [_analyze_skill_match] over [required_skills], on the
    pair [(matched_skills, missing_skills)]. *)
Definition skill_loop (resume_lower : string) (required_skills : list string)
  : list string * list string :=
  fold_left
    (fun acc skill =>
       if skill_in_resume resume_lower skill
       then ((fst acc ++ [skill])%list, snd acc)
       else (fst acc, (snd acc ++ [skill])%list))
    required_skills ([], []).

Definition _analyze_skill_match (resume_text : string)
           (required_skills : list string) : Py.Exc SkillAnalysis :=
  if String.eqb resume_text EmptyString || (List.length required_skills =? 0)%nat
  then Py.Return {| sa_score := 0;
                    sa_matched_skills := [];
                    sa_missing_skills := required_skills;
                    sa_match_percentage := None |}
  else
    let resume_lower := Py.lower resume_text in
    let '(matched_skills, missing_skills) :=
      skill_loop resume_lower required_skills in
    score <- match required_skills with
             | [] => Py.Return 0
             | _ :: _ =>
                 q <- Py.truediv (Py.len matched_skills)
                                 (Py.len required_skills) ;;
                 Py.Return (q * 100)
             end ;;
    Py.Return {| sa_score := Py.round2 score;
                 sa_matched_skills := matched_skills;
                 sa_missing_skills := missing_skills;
                 sa_match_percentage := Some (Py.format_f1 score ++ "%") |}.

(** The years derived from the experience-level label. *)
Definition required_years_of (required_level : string) : Q :=
  if Py.contains "5+" required_level then 5
  else if Py.contains "0-2" required_level then 1
  else 35 # 10.

(** The score of [_evaluate_experience] before rounding. *)
Definition experience_raw (candidate_years required_years : Q) : Q :=
  if Py.ge candidate_years required_years
  then Py.min 100 (candidate_years / required_years * 100)
  else Py.max 0 (candidate_years / required_years * 100).

Definition _evaluate_experience (candidate_years : Q)
           (required_level : string) : Py.Exc ExperienceAnalysis :=
  let required_years := required_years_of required_level in
  score <- (if Py.ge candidate_years required_years
            then q <- Py.truediv candidate_years required_years ;;
                 Py.Return (Py.min 100 (q * 100))
            else q <- Py.truediv candidate_years required_years ;;
                 Py.Return (Py.max 0 (q * 100))) ;;
  let assessment :=
    if Py.ge candidate_years (required_years * (15 # 10))
    then "Overqualified"
    else if Py.ge candidate_years required_years
    then "Well Qualified"
    else if Py.ge candidate_years (required_years * (7 # 10))
    then "Moderately Qualified"
    else "Underqualified" in
  Py.Return {| ea_score := Py.round2 score;
               ea_candidate_years := candidate_years;
               ea_required_years := required_years;
               ea_assessment := assessment;
               ea_experience_gap := candidate_years - required_years |}.

Definition cultural_indicators : Py.dict (list string) :=
  [ ("teamwork", ["team"; "collaboration"; "cooperation"; "partnership"]);
    ("leadership", ["lead"; "manage"; "supervise"; "mentor"; "guide"]);
    ("innovation", ["innovate"; "creative"; "problem-solving"; "improve"]);
    ("communication",
      ["communicate"; "present"; "write"; "speak"; "explain"]);
    ("adaptability", ["adapt"; "flexible"; "change"; "learn"; "grow"]) ].

(** [sum(1 for keyword in keywords if keyword in combined_text)]. *)
Definition keyword_count (combined_text : string) (keywords : list string)
  : Q :=
  Py.len (filter (fun keyword => Py.contains keyword combined_text)
                 keywords).

Definition category_score (combined_text : string)
           (keywords : list string) : Q :=
  Py.min 100 (keyword_count combined_text keywords * 20).

Definition _assess_cultural_fit (cover_letter resume_text department : string)
  : Py.Exc CulturalFitAnalysis :=
  let combined_text := Py.lower (cover_letter ++ " " ++ resume_text) in
  let scores : Py.dict Q :=
    map (fun kv => (fst kv, category_score combined_text (snd kv)))
        cultural_indicators in
  overall_score <- Py.truediv (Py.sum (Py.values scores)) (Py.len scores) ;;
  let assessment :=
    if Py.ge overall_score 80 then "Excellent Cultural Fit"
    else if Py.ge overall_score 60 then "Good Cultural Fit"
    else if Py.ge overall_score 40 then "Moderate Cultural Fit"
    else "Limited Cultural Fit" in
  Py.Return
    {| cf_score := Py.round2 overall_score;
       cf_category_scores := scores;
       cf_assessment := assessment;
       cf_strengths :=
         Py.keys (filter (fun kv => Py.ge (snd kv) 60) scores);
       cf_areas_for_growth :=
         Py.keys (filter (fun kv => negb (Py.ge (snd kv) 40)) scores) |}.

Definition _calculate_overall_score (skill_match : SkillAnalysis)
           (experience_match : ExperienceAnalysis)
           (cultural_fit : CulturalFitAnalysis) : Q :=
  let skill_score := sa_score skill_match in
  let experience_score := ea_score experience_match in
  let cultural_score := cf_score cultural_fit in
  let overall_score :=
    skill_score * Config.technical_skills criteria
    + experience_score * Config.experience criteria
    + cultural_score * Config.cultural_fit criteria in
  Py.round2 overall_score.

Definition _generate_fallback_feedback (candidate_data : CandidateData)
           (job_requirements : JobRequirements)
           (skill_match : SkillAnalysis)
           (experience_match : ExperienceAnalysis)
           (cultural_fit : CulturalFitAnalysis) : string :=
  let strengths := sa_matched_skills skill_match in
  let missing := sa_missing_skills skill_match in
  let strengths_text :=
    match strengths with
    | [] => "Communication, Collaboration"
    | _ => Py.join ", " strengths
    end in
  let missing_text :=
    match missing with
    | [] => "Advanced system design"
    | _ => Py.join ", " missing
    end in
  let match_percentage :=
    match sa_match_percentage skill_match with
    | Some p => p
    | None => "moderate"
    end in
  let overall :=
    "Candidate " ++ cd_candidate_name candidate_data ++ " shows a "
    ++ match_percentage ++ " skills match for the "
    ++ job_position job_requirements ++ " role. "
    ++ "Experience is assessed as " ++ ea_assessment experience_match
    ++ " with cultural fit being " ++ cf_assessment cultural_fit ++ "." in
  let strengths_bullets := "- Strengths: " ++ strengths_text in
  let improvement_bullets := "- Areas to improve: " ++ missing_text in
  let recommendations :=
    "- Recommendation: Prepare concrete examples demonstrating impact, strengthen missing skills, and tailor the resume to highlight achievements aligned with the job requirements." in
  let next_steps :=
    "- Next steps: Proceed to HR interview if role requires, or assign a short technical assessment." in
  Py.join (String "010"%char EmptyString)
    [overall; strengths_bullets; improvement_bullets; recommendations;
     next_steps].

(** The prompt is built first, and reads [skill_match['match_percentage']]
    by index: a [KeyError] when the key is absent. *)
Definition _generate_ai_feedback (candidate_data : CandidateData)
           (job_requirements : JobRequirements)
           (skill_match : SkillAnalysis)
           (experience_match : ExperienceAnalysis)
           (cultural_fit : CulturalFitAnalysis) : Py.Exc string :=
  match_percentage <-
    match sa_match_percentage skill_match with
    | Some p => Py.Return p
    | None => Py.Raise (Py.KeyError "match_percentage")
    end ;;
  let prompt :=
    feedback_prompt candidate_data job_requirements match_percentage
      (ea_assessment experience_match) (cf_assessment cultural_fit)
      (sa_matched_skills skill_match) (sa_missing_skills skill_match) in
  match client with
  | None =>
      Py.Return (_generate_fallback_feedback candidate_data
                   job_requirements skill_match experience_match
                   cultural_fit)
  | Some create =>
      match create prompt with
      | Py.Return content => Py.Return content
      | Py.Raise _ =>
          Py.Return (_generate_fallback_feedback candidate_data
                       job_requirements skill_match experience_match
                       cultural_fit)
      end
  end.

Definition _determine_recommendation (overall_score : Q) : string :=
  if Py.ge overall_score 85
  then "Strongly Recommend - Move to Technical Assessment"
  else if Py.ge overall_score 70
  then "Recommend - Move to HR Interview"
  else if Py.ge overall_score 55
  then "Consider - Additional Screening Required"
  else "Not Recommended - Does Not Meet Requirements".

(** The body of the [try] of [screen_candidate]. *)
Definition screen_candidate_body (candidate_data : CandidateData)
           (job_requirements : JobRequirements) : Py.Exc ScreeningResult :=
  let resume_text := cd_resume_text candidate_data in
  let cover_letter := cd_cover_letter candidate_data in
  let experience_years := cd_experience_years candidate_data in
  let required_skills := job_required_skills job_requirements in
  let experience_level := job_experience_level job_requirements in
  let position := job_position job_requirements in
  let department := job_department job_requirements in
  skill_match <- _analyze_skill_match resume_text required_skills ;;
  experience_match <- _evaluate_experience experience_years
                                           experience_level ;;
  cultural_fit <- _assess_cultural_fit cover_letter resume_text
                                       department ;;
  let overall_score :=
    _calculate_overall_score skill_match experience_match cultural_fit in
  ai_feedback <- _generate_ai_feedback candidate_data job_requirements
                   skill_match experience_match cultural_fit ;;
  let recommendation := _determine_recommendation overall_score in
  Py.Return {| sr_candidate_id := cd_candidate_id candidate_data;
               sr_candidate_name := cd_candidate_name candidate_data;
               sr_position := position;
               sr_overall_score := overall_score;
               sr_skill_match_score := sa_score skill_match;
               sr_experience_match_score := ea_score experience_match;
               sr_cultural_fit_score := cf_score cultural_fit;
               sr_recommendation := recommendation;
               sr_ai_feedback := ai_feedback;
               sr_skill_analysis := skill_match;
               sr_experience_analysis := experience_match;
               sr_cultural_fit_analysis := cultural_fit |}.

Definition screen_candidate (candidate_data : CandidateData)
           (job_requirements : JobRequirements) : Screening :=
  match screen_candidate_body candidate_data job_requirements with
  | Py.Return r => ScreeningCompleted r
  | Py.Raise e =>
      ScreeningError (cd_candidate_id candidate_data) (Py.str_exn e)
  end.

(** The sort key of [batch_screen_candidates]:
    [x.get('overall_score', 0)]. *)
Definition sort_key (x : Screening) : Q :=
  match x with
  | ScreeningCompleted r => sr_overall_score r
  | ScreeningError _ _ => 0
  end.

Definition batch_screen_candidates (candidates : list CandidateData)
           (job_requirements : JobRequirements) : list Screening :=
  let results :=
    map (fun candidate => screen_candidate candidate job_requirements)
        candidates in
  Py.sort_desc sort_key results.

End Screener.

(** The screener as shipped: the weights of [config.py]. *)
Definition shipped_screen (client : option (string -> Py.Exc string))
           (feedback_prompt :
              CandidateData -> JobRequirements -> string -> string ->
              string -> list string -> list string -> string)
  : CandidateData -> JobRequirements -> Screening :=
  screen_candidate Config.EVALUATION_CRITERIA client feedback_prompt.

End CandidateScreener.

(* ================================================================== *)
(** * agents/interview_coordinator.py *)
(* ================================================================== *)

(** A time stamp: microseconds since the epoch. *)
Definition timestamp : Type := Z.

(** [timedelta(days=1)]. *)
Definition DAY : Z := 86400000000.

(** One entry of the ["schedule"] map; the date is the day number of the
    printed calendar date. *)
Record StageInfo : Type := {
  si_date : Z;
  si_duration_minutes : Q;
  si_type : string;
  si_participants : list string
}.

(** What [update_interview_status] returns. *)
Record StatusUpdate : Type := {
  su_candidate_id : string;
  su_stage : string;
  su_status : string;
  su_feedback : string;
  su_updated_at : timestamp
}.

Module InterviewCoordinator.
Section Coordinator.

(** The question set of one stage, and the generation of the question
    set of a stage from the stage, the position and the department
    (generated text with a static fallback). *)
Variable Questions : Type.
Variable _generate_interview_questions :
  string -> string -> string -> Questions.

Record InterviewSchedule : Type := {
  is_candidate_id : string;
  is_candidate_name : string;
  is_position : string;
  is_department : string;
  is_interview_stages : list string;
  is_schedule : Py.dict StageInfo;
  is_stage_questions : Py.dict Questions;
  is_total_duration : Q;
  is_status : string
}.

Definition technical_positions : list string :=
  ["Software Engineer"; "DevOps Engineer"; "Data Analyst";
   "QA Engineer"; "Cloud Architect"; "Network Engineer"].

Definition _determine_interview_stages (position department priority : string)
  : list string :=
  let base_stages := ["Initial Screening"] in
  let base_stages :=
    if existsb (String.eqb position) technical_positions
    then (base_stages ++ ["Technical Assessment"])%list
    else base_stages in
  let base_stages := (base_stages ++ ["HR Interview"])%list in
  let base_stages :=
    if Py.contains "Senior" position || Py.contains "Manager" position
       || String.eqb priority "High"
    then (base_stages ++ ["Final Round"])%list
    else base_stages in
  let base_stages := (base_stages ++ ["Reference Check"])%list in
  base_stages.

Definition _get_stage_duration (stage : string) : Q :=
  let durations : Py.dict Q :=
    [("Initial Screening", 30); ("Technical Assessment", 60);
     ("HR Interview", 45); ("Final Round", 90); ("Reference Check", 20)] in
  match Py.get durations stage with
  | Some d => d
  | None => 45
  end.

Definition _get_interview_type (stage : string) : string :=
  let types : Py.dict string :=
    [("Initial Screening", "Phone/Video Call");
     ("Technical Assessment", "Technical Test + Discussion");
     ("HR Interview", "In-person/Video Call");
     ("Final Round", "Panel Interview");
     ("Reference Check", "Phone Call")] in
  match Py.get types stage with
  | Some t => t
  | None => "Video Call"
  end.

Definition _get_stage_participants (stage : string) : list string :=
  let participants : Py.dict (list string) :=
    [("Initial Screening", ["HR Recruiter"]);
     ("Technical Assessment", ["Technical Lead"; "Team Member"]);
     ("HR Interview", ["HR Manager"]);
     ("Final Round", ["Department Head"; "HR Manager"; "Technical Lead"]);
     ("Reference Check", ["HR Recruiter"])] in
  match Py.get participants stage with
  | Some p => p
  | None => ["HR Recruiter"]
  end.

(** The loop of [_generate_schedule] from index [i] on. *)
Fixpoint schedule_loop (current_date : timestamp) (days_between : Z)
         (i : Z) (stages : list string) (schedule : Py.dict StageInfo)
  : Py.dict StageInfo :=
  match stages with
  | [] => schedule
  | stage :: rest =>
      let interview_date :=
        if (i =? 0)%Z then (current_date + 2 * DAY)%Z
        else (current_date + (2 + i * days_between) * DAY)%Z in
      let duration := _get_stage_duration stage in
      schedule_loop current_date days_between (i + 1) rest
        (Py.set schedule stage
           {| si_date := (interview_date / DAY)%Z;
              si_duration_minutes := duration;
              si_type := _get_interview_type stage;
              si_participants := _get_stage_participants stage |})
  end.

Definition _generate_schedule (now : timestamp) (stages : list string)
           (priority : string) : Py.dict StageInfo :=
  let current_date := now in
  let days_between :=
    if String.eqb priority "High" then 1%Z
    else if String.eqb priority "Medium" then 2%Z
    else 3%Z in
  schedule_loop current_date days_between 0 stages [].

Definition _calculate_total_duration (schedule : Py.dict StageInfo) : Q :=
  fold_left (fun total stage_info => total + si_duration_minutes stage_info)
            (Py.values schedule) 0.

Definition create_interview_schedule (now : timestamp)
           (candidate_data : CandidateData)
           (job_requirements : JobRequirements) : InterviewSchedule :=
  let position := job_position job_requirements in
  let department := job_department job_requirements in
  let priority := job_priority job_requirements in
  let interview_stages :=
    _determine_interview_stages position department priority in
  let schedule := _generate_schedule now interview_stages priority in
  let stage_questions :=
    fold_left
      (fun acc stage =>
         Py.set acc stage
           (_generate_interview_questions stage position department))
      interview_stages [] in
  {| is_candidate_id := cd_candidate_id candidate_data;
     is_candidate_name := cd_candidate_name candidate_data;
     is_position := position;
     is_department := department;
     is_interview_stages := interview_stages;
     is_schedule := schedule;
     is_stage_questions := stage_questions;
     is_total_duration := _calculate_total_duration schedule;
     is_status := "scheduled" |}.

Definition update_interview_status (now : timestamp)
           (candidate_id stage status feedback : string) : StatusUpdate :=
  {| su_candidate_id := candidate_id;
     su_stage := stage;
     su_status := status;
     su_feedback := feedback;
     su_updated_at := now |}.

End Coordinator.
End InterviewCoordinator.

(* ================================================================== *)
(** * recruitment_orchestrator.py *)
(* ================================================================== *)

Module RecruitmentOrchestrator.
Section Orchestrator.

(** [self.screener.screen_candidate]. *)
Variable screen_candidate : CandidateData -> JobRequirements -> Screening.

(** The question generation of [self.interview_coordinator]. *)
Variable Questions : Type.
Variable _generate_interview_questions :
  string -> string -> string -> Questions.

Definition InterviewSchedule : Type :=
  InterviewCoordinator.InterviewSchedule Questions.

(** What [_evaluate_final_candidate] returns. *)
Record FinalEvaluation : Type := {
  fe_final_score : Q;
  fe_interview_performance : list Q;
  fe_recommendation : string
}.

(** A stored candidate: the application, and the keys the workflow adds. *)
Record Candidate : Type := {
  c_data : CandidateData;
  c_screening_result : option ScreeningResult;
  c_interview_schedule : option InterviewSchedule;
  c_application_date : timestamp;
  c_status : string;
  c_interview_status : option (Py.dict StatusUpdate);
  c_final_evaluation : option FinalEvaluation;
  c_selection_notes : option string;
  c_selection_date : option timestamp
}.

(** An entry of [self.final_selections]. *)
Record Selection : Type := {
  sel_candidate_id : string;
  sel_candidate_name : string;
  sel_position : string;
  sel_hiring_date : timestamp;
  sel_notes : string
}.

(** The fields of the orchestrator that hold recruitment data. *)
Record State : Type := {
  job_openings : list JobRequirements;
  candidates : list Candidate;
  interviews : list StatusUpdate;
  final_selections : list Selection
}.

Definition set_candidates (self : State) (cs : list Candidate) : State :=
  {| job_openings := job_openings self;
     candidates := cs;
     interviews := interviews self;
     final_selections := final_selections self |}.

Definition set_final_selections (self : State) (fs : list Selection) : State :=
  {| job_openings := job_openings self;
     candidates := candidates self;
     interviews := interviews self;
     final_selections := fs |}.

(** [candidate["interview_status"] = d]. *)
Definition set_interview_status (c : Candidate) (d : Py.dict StatusUpdate)
  : Candidate :=
  {| c_data := c_data c;
     c_screening_result := c_screening_result c;
     c_interview_schedule := c_interview_schedule c;
     c_application_date := c_application_date c;
     c_status := c_status c;
     c_interview_status := Some d;
     c_final_evaluation := c_final_evaluation c;
     c_selection_notes := c_selection_notes c;
     c_selection_date := c_selection_date c |}.

(** [candidate["status"] = s]. *)
Definition set_status (c : Candidate) (s : string) : Candidate :=
  {| c_data := c_data c;
     c_screening_result := c_screening_result c;
     c_interview_schedule := c_interview_schedule c;
     c_application_date := c_application_date c;
     c_status := s;
     c_interview_status := c_interview_status c;
     c_final_evaluation := c_final_evaluation c;
     c_selection_notes := c_selection_notes c;
     c_selection_date := c_selection_date c |}.

(** [candidate["final_evaluation"] = e]. *)
Definition set_final_evaluation (c : Candidate) (e : FinalEvaluation)
  : Candidate :=
  {| c_data := c_data c;
     c_screening_result := c_screening_result c;
     c_interview_schedule := c_interview_schedule c;
     c_application_date := c_application_date c;
     c_status := c_status c;
     c_interview_status := c_interview_status c;
     c_final_evaluation := Some e;
     c_selection_notes := c_selection_notes c;
     c_selection_date := c_selection_date c |}.

(** [candidate["selection_notes"] = n; candidate["selection_date"] = d]. *)
Definition set_selection (c : Candidate) (n : string) (d : timestamp)
  : Candidate :=
  {| c_data := c_data c;
     c_screening_result := c_screening_result c;
     c_interview_schedule := c_interview_schedule c;
     c_application_date := c_application_date c;
     c_status := c_status c;
     c_interview_status := c_interview_status c;
     c_final_evaluation := c_final_evaluation c;
     c_selection_notes := Some n;
     c_selection_date := Some d |}.

Definition has_id (candidate_id : string) (c : Candidate) : bool :=
  String.eqb (cd_candidate_id (c_data c)) candidate_id.

Definition _find_job_requirements (self : State) (job_position : string)
  : option JobRequirements :=
  find (fun opening =>
          String.eqb (Py.lower (opening_position opening))
                     (Py.lower job_position))
       (job_openings self).

Definition _find_candidate (self : State) (candidate_id : string)
  : option Candidate :=
  find (has_id candidate_id) (candidates self).

(** The candidates are dictionaries changed in place: a change of the
    candidate that [_find_candidate] returned is a change of the first
    entry of the list with that id. *)
Fixpoint store (cs : list Candidate) (candidate_id : string)
         (c' : Candidate) : list Candidate :=
  match cs with
  | [] => []
  | c :: rest =>
      if has_id candidate_id c then c' :: rest
      else c :: store rest candidate_id c'
  end.

(** ** [process_candidate_application] *)

Inductive ApplicationResponse : Type :=
| ApplicationError (message : string)
| ApplicationScreeningError (candidate_id error_message : string)
| ApplicationSuccess (message : string)
                     (screening_result : ScreeningResult)
                     (interview_schedule : option InterviewSchedule).

(** [recommendation.startswith(("Strongly Recommend", "Recommend"))]. *)
Definition passes_screening (recommendation : string) : bool :=
  Py.startswith recommendation "Strongly Recommend"
  || Py.startswith recommendation "Recommend".

Definition process_candidate_application (now : timestamp) (self : State)
           (candidate_data : CandidateData) (job_position : string)
  : State * ApplicationResponse :=
  match _find_job_requirements self job_position with
  | None =>
      (self,
       ApplicationError ("Job position '" ++ job_position ++ "' not found"))
  | Some job_requirements =>
      match screen_candidate candidate_data job_requirements with
      | ScreeningError cid msg => (self, ApplicationScreeningError cid msg)
      | ScreeningCompleted screening_result =>
          if passes_screening (sr_recommendation screening_result)
          then
            let interview_schedule :=
              InterviewCoordinator.create_interview_schedule
                Questions _generate_interview_questions now
                candidate_data job_requirements in
            (set_candidates self
               (candidates self ++
                [{| c_data := candidate_data;
                    c_screening_result := Some screening_result;
                    c_interview_schedule := Some interview_schedule;
                    c_application_date := now;
                    c_status := "interview_scheduled";
                    c_interview_status := None;
                    c_final_evaluation := None;
                    c_selection_notes := None;
                    c_selection_date := None |}])%list,
             ApplicationSuccess
               "Candidate passed screening and interview scheduled"
               screening_result (Some interview_schedule))
          else
            (set_candidates self
               (candidates self ++
                [{| c_data := candidate_data;
                    c_screening_result := Some screening_result;
                    c_interview_schedule := None;
                    c_application_date := now;
                    c_status := "rejected";
                    c_interview_status := None;
                    c_final_evaluation := None;
                    c_selection_notes := None;
                    c_selection_date := None |}])%list,
             ApplicationSuccess
               "Candidate screened but did not meet requirements"
               screening_result None)
      end
  end.

(** ** [conduct_interview] *)

(** The stages of [interview_status] whose status is ["completed"]. *)
Definition completed_entries (interview_status : Py.dict StatusUpdate)
  : Py.dict StatusUpdate :=
  filter (fun kv => String.eqb (su_status (snd kv)) "completed")
         interview_status.

Definition interview_status_of (candidate : Candidate)
  : Py.dict StatusUpdate :=
  match c_interview_status candidate with
  | Some d => d
  | None => []
  end.

Definition _all_interviews_completed (candidate : Candidate) : bool :=
  let interview_status := interview_status_of candidate in
  match c_interview_schedule candidate with
  | None => false
  | Some interview_schedule =>
      let required_stages :=
        InterviewCoordinator.is_interview_stages Questions
          interview_schedule in
      let completed_stages := Py.keys (completed_entries interview_status) in
      (List.length completed_stages =? List.length required_stages)%nat
  end.

Definition _get_final_recommendation (final_score : Q) : string :=
  if Py.ge final_score 80 then "Strongly Recommend Hiring"
  else if Py.ge final_score 70 then "Recommend Hiring"
  else if Py.ge final_score 60 then "Consider Hiring"
  else "Do Not Recommend Hiring".

(** [min(100, len(feedback.split()) * 2)]. *)
Definition interview_score (feedback : string) : Q :=
  Py.min 100 (Py.len (Py.split feedback) * 2).

Definition _evaluate_final_candidate (candidate : Candidate)
  : Py.Exc FinalEvaluation :=
  let interview_status := interview_status_of candidate in
  let final_score :=
    match c_screening_result candidate with
    | Some screening_result => sr_overall_score screening_result
    | None => 0
    end in
  let interview_scores :=
    map (fun kv => interview_score (su_feedback (snd kv)))
        (completed_entries interview_status) in
  final_score <-
    match interview_scores with
    | [] => Py.Return final_score
    | _ :: _ =>
        interview_average <-
          Py.truediv (Py.sum interview_scores) (Py.len interview_scores) ;;
        Py.Return (final_score * (6 # 10) + interview_average * (4 # 10))
    end ;;
  Py.Return {| fe_final_score := Py.round2 final_score;
               fe_interview_performance := interview_scores;
               fe_recommendation := _get_final_recommendation final_score |}.

(** [stages.index(x)]. *)
Fixpoint index_of (stages : list string) (x : string) : option nat :=
  match stages with
  | [] => None
  | s :: rest =>
      if String.eqb s x then Some O
      else match index_of rest x with
           | Some i => Some (S i)
           | None => None
           end
  end.

Definition _get_next_steps (candidate : Candidate) (current_stage : string)
  : list string :=
  let stages :=
    match c_interview_schedule candidate with
    | Some interview_schedule =>
        InterviewCoordinator.is_interview_stages Questions
          interview_schedule
    | None => []
    end in
  match index_of stages current_stage with
  | Some current_index =>
      match nth_error stages (current_index + 1) with
      | Some next_stage => ["Schedule " ++ next_stage ++ " interview"]
      | None => ["Complete final evaluation"; "Make hiring decision"]
      end
  | None => ["Review interview schedule"]
  end.

Inductive InterviewResponse : Type :=
| InterviewError (message : string)
| InterviewSuccess (message : string) (candidate_status : string)
                   (next_steps : list string).

Definition conduct_interview (now : timestamp) (self : State)
           (candidate_id stage feedback : string)
  : State * InterviewResponse :=
  match _find_candidate self candidate_id with
  | None =>
      (self,
       InterviewError ("Candidate with ID " ++ candidate_id ++ " not found"))
  | Some candidate =>
      let status_update :=
        InterviewCoordinator.update_interview_status now
          candidate_id stage "completed" feedback in
      let candidate :=
        set_interview_status candidate
          (Py.set (interview_status_of candidate) stage status_update) in
      if _all_interviews_completed candidate
      then
        let candidate := set_status candidate "all_interviews_completed" in
        match _evaluate_final_candidate candidate with
        | Py.Return final_evaluation =>
            let candidate := set_final_evaluation candidate final_evaluation in
            (set_candidates self
               (store (candidates self) candidate_id candidate),
             InterviewSuccess
               ("Interview stage '" ++ stage ++ "' completed")
               (c_status candidate) (_get_next_steps candidate stage))
        | Py.Raise e =>
            (set_candidates self
               (store (candidates self) candidate_id candidate),
             InterviewError
               ("Error conducting interview: " ++ Py.str_exn e))
        end
      else
        (set_candidates self
           (store (candidates self) candidate_id candidate),
         InterviewSuccess
           ("Interview stage '" ++ stage ++ "' completed")
           (c_status candidate) (_get_next_steps candidate stage))
  end.

(** The stage and the feedback of a call [(now, stage, feedback)]. *)
Definition stage_of (call : timestamp * string * string) : string :=
  snd (fst call).

Definition feedback_of (call : timestamp * string * string) : string :=
  snd call.

(** The entry that a call of [conduct_interview] writes. *)
Definition status_entry (candidate_id : string)
           (call : timestamp * string * string) : string * StatusUpdate :=
  (stage_of call,
   InterviewCoordinator.update_interview_status (fst (fst call))
     candidate_id (stage_of call) "completed" (feedback_of call)).

(** The score that [_evaluate_final_candidate] starts from. *)
Definition screening_score (candidate : Candidate) : Q :=
  match c_screening_result candidate with
  | Some screening_result => sr_overall_score screening_result
  | None => 0
  end.

(** The candidate [ck] is the candidate [c] after the calls [done] of
    [conduct_interview], all on different stages: the application, the
    screening result and the schedule are those of [c], and the interview
    statuses are the entries of the calls, in order. *)
Definition progressed (c ck : Candidate) (candidate_id : string)
           (done : list (timestamp * string * string)) : Prop :=
  c_data ck = c_data c
  /\ c_screening_result ck = c_screening_result c
  /\ c_interview_schedule ck = c_interview_schedule c
  /\ interview_status_of ck = map (status_entry candidate_id) done.

(** A run of [conduct_interview] calls for one candidate, each with its
    clock, stage and feedback. *)
Fixpoint conduct_interviews (self : State) (candidate_id : string)
         (calls : list (timestamp * string * string)) : State :=
  match calls with
  | [] => self
  | (now, stage, feedback) :: rest =>
      conduct_interviews
        (fst (conduct_interview now self candidate_id stage feedback))
        candidate_id rest
  end.

(** ** [make_final_selection] *)

Inductive SelectionResponse : Type :=
| SelectionError (message : string)
| SelectionSuccess (message : string) (candidate_status : string).

Definition make_final_selection (now : timestamp) (self : State)
           (candidate_id decision notes : string)
  : State * SelectionResponse :=
  match _find_candidate self candidate_id with
  | None =>
      (self,
       SelectionError ("Candidate with ID " ++ candidate_id ++ " not found"))
  | Some candidate =>
      let candidate := set_status candidate decision in
      let candidate := set_selection candidate notes now in
      let self :=
        set_candidates self
          (store (candidates self) candidate_id candidate) in
      let self :=
        if String.eqb decision "hired"
        then set_final_selections self
               (final_selections self ++
                [{| sel_candidate_id := candidate_id;
                    sel_candidate_name :=
                      cd_candidate_name (c_data candidate);
                    sel_position := cd_position (c_data candidate);
                    sel_hiring_date := now;
                    sel_notes := notes |}])%list
        else self in
      (self,
       SelectionSuccess ("Final selection made: " ++ decision)
                        (c_status candidate))
  end.

(** ** Summary *)

(** [candidate.get("status") in ["all_interviews_completed", "hired"]]. *)
Definition interviews_done (c : Candidate) : bool :=
  String.eqb (c_status c) "all_interviews_completed"
  || String.eqb (c_status c) "hired".

Definition is_hired (c : Candidate) : bool := String.eqb (c_status c) "hired".

Definition _calculate_interview_completion_rate (self : State) : Py.Exc Q :=
  match candidates self with
  | [] => Py.Return 0
  | _ :: _ =>
      let completed_interviews :=
        Py.len (filter interviews_done (candidates self)) in
      q <- Py.truediv completed_interviews (Py.len (candidates self)) ;;
      Py.Return (Py.round2 (q * 100))
  end.

Definition _calculate_hiring_success_rate (self : State) : Py.Exc Q :=
  match candidates self with
  | [] => Py.Return 0
  | _ :: _ =>
      let hired_candidates := Py.len (filter is_hired (candidates self)) in
      q <- Py.truediv hired_candidates (Py.len (candidates self)) ;;
      Py.Return (Py.round2 (q * 100))
  end.

(** The loop of [_calculate_average_time_to_hire]; a candidate without a
    selection date makes [datetime.fromisoformat] on the empty string raise. *)
Fixpoint total_days_loop (hired_candidates : list Candidate) (total_days : Z)
  : Py.Exc Z :=
  match hired_candidates with
  | [] => Py.Return total_days
  | candidate :: rest =>
      let application_date := c_application_date candidate in
      selection_date <-
        match c_selection_date candidate with
        | Some d => Py.Return d
        | None => Py.Raise (Py.ValueError "Invalid isoformat string: ''")
        end ;;
      let days := ((selection_date - application_date) / DAY)%Z in
      total_days_loop rest (total_days + days)%Z
  end.

Definition _calculate_average_time_to_hire (self : State) : Py.Exc string :=
  let hired_candidates := filter is_hired (candidates self) in
  match hired_candidates with
  | [] => Py.Return "N/A"
  | _ :: _ =>
      total_days <- total_days_loop hired_candidates 0%Z ;;
      average_days <-
        Py.truediv (inject_Z total_days) (Py.len hired_candidates) ;;
      Py.Return (Py.format_f1 average_days ++ " days")
  end.

(** ** More of the summary *)

(** The loop of [_count_candidates_by_status]. *)
Definition _count_candidates_by_status (self : State) : Py.dict Z :=
  fold_left
    (fun status_counts candidate =>
       let status := c_status candidate in
       Py.set status_counts status
         (match Py.get status_counts status with
          | Some n => n
          | None => 0%Z
          end + 1)%Z)
    (candidates self) [].

(** An entry of [_get_top_performing_candidates]. *)
Record TopCandidate : Type := {
  tc_candidate_id : string;
  tc_candidate_name : string;
  tc_position : string;
  tc_score : Q;
  tc_status : string
}.

Definition top_entry (candidate : Candidate) : TopCandidate :=
  {| tc_candidate_id := cd_candidate_id (c_data candidate);
     tc_candidate_name := cd_candidate_name (c_data candidate);
     tc_position := cd_position (c_data candidate);
     tc_score := screening_score candidate;
     tc_status := c_status candidate |}.

Definition _get_top_performing_candidates (self : State)
  : list TopCandidate :=
  let candidates_with_scores := map top_entry (candidates self) in
  firstn 5 (Py.sort_desc tc_score candidates_with_scores).

(** ** [score_candidate_resume] and [add_candidate_from_scoring] *)

(** What [score_candidate_resume] returns. *)
Record ResumeScore : Type := {
  rs_overall_score : Q;
  rs_skill_match_score : Q;
  rs_experience_match_score : Q;
  rs_cultural_fit_score : Q;
  rs_ai_feedback : string;
  rs_recommendation : string
}.

(** The requirements used when the position has no opening; they carry no
    experience level, which the screener reads as the empty label. *)
Definition default_job_requirements : JobRequirements := {|
  job_position := "Senior Software Engineer";
  job_department := "Engineering";
  job_required_skills :=
    ["Python"; "JavaScript"; "SQL"; "Git"; "Agile"; "System Design"];
  job_experience_level := EmptyString;
  job_priority := "Normal"
|}.

Definition score_candidate_resume (self : State)
           (candidate_data : CandidateData) : ResumeScore :=
  let job_requirements :=
    match _find_job_requirements self (cd_position candidate_data) with
    | Some job_requirements => job_requirements
    | None => default_job_requirements
    end in
  match screen_candidate candidate_data job_requirements with
  | ScreeningCompleted screening_result =>
      {| rs_overall_score := sr_overall_score screening_result;
         rs_skill_match_score := sr_skill_match_score screening_result;
         rs_experience_match_score :=
           sr_experience_match_score screening_result;
         rs_cultural_fit_score := sr_cultural_fit_score screening_result;
         rs_ai_feedback := sr_ai_feedback screening_result;
         rs_recommendation := sr_recommendation screening_result |}
  | ScreeningError _ _ =>
      {| rs_overall_score := 0;
         rs_skill_match_score := 0;
         rs_experience_match_score := 0;
         rs_cultural_fit_score := 0;
         rs_ai_feedback := "No feedback available";
         rs_recommendation := "No recommendation" |}
  end.

Inductive AddResponse : Type :=
| AddSuccess (message : string) (candidate_id : string).

(** The two clock readings are those of ["application_date"] and of
    ["selection_date"]. *)
Definition add_candidate_from_scoring (now now' : timestamp) (self : State)
           (candidate_id decision notes : string) : State * AddResponse :=
  let candidate_data :=
    {| c_data :=
         {| cd_candidate_id := candidate_id;
            cd_candidate_name := "Candidate " ++ candidate_id;
            cd_position := "Senior Software Engineer";
            cd_experience_years := 3;
            cd_resume_text := "Resume from scoring process";
            cd_cover_letter := "Not provided" |};
       c_screening_result := None;
       c_interview_schedule := None;
       c_application_date := now;
       c_status := decision;
       c_interview_status := None;
       c_final_evaluation := None;
       c_selection_notes := Some notes;
       c_selection_date := Some now' |} in
  (set_candidates self (candidates self ++ [candidate_data])%list,
   AddSuccess ("Candidate " ++ candidate_id ++ " has been " ++ decision)
              candidate_id).

(** ** The states the operations reach *)

(** [self.job_openings = openings], as [start_recruitment_process] does. *)
Definition set_job_openings (self : State) (openings : list JobRequirements)
  : State :=
  {| job_openings := openings;
     candidates := candidates self;
     interviews := interviews self;
     final_selections := final_selections self |}.

(** The orchestrator as [__init__] leaves it. *)
Definition initial_state : State :=
  {| job_openings := [];
     candidates := [];
     interviews := [];
     final_selections := [] |}.

(** The states reached from the initial one by the operations that write
    recruitment data. *)
Inductive Reachable : State -> Prop :=
| reach_init : Reachable initial_state
| reach_openings (self : State) (openings : list JobRequirements) :
    Reachable self -> Reachable (set_job_openings self openings)
| reach_application (now : timestamp) (self : State)
                    (candidate_data : CandidateData) (job_position : string) :
    Reachable self ->
    Reachable (fst (process_candidate_application now self candidate_data
                      job_position))
| reach_interview (now : timestamp) (self : State)
                  (candidate_id stage feedback : string) :
    Reachable self ->
    Reachable (fst (conduct_interview now self candidate_id stage feedback))
| reach_selection (now : timestamp) (self : State)
                  (candidate_id decision notes : string) :
    Reachable self ->
    Reachable (fst (make_final_selection now self candidate_id decision
                      notes))
| reach_add (now now' : timestamp) (self : State)
            (candidate_id decision notes : string) :
    Reachable self ->
    Reachable (fst (add_candidate_from_scoring now now' self candidate_id
                      decision notes)).

End Orchestrator.

Arguments c_data {Questions} _.
Arguments c_screening_result {Questions} _.
Arguments c_interview_schedule {Questions} _.
Arguments c_application_date {Questions} _.
Arguments c_status {Questions} _.
Arguments c_interview_status {Questions} _.
Arguments c_final_evaluation {Questions} _.
Arguments c_selection_notes {Questions} _.
Arguments c_selection_date {Questions} _.
Arguments job_openings {Questions} _.
Arguments candidates {Questions} _.
Arguments interviews {Questions} _.
Arguments final_selections {Questions} _.
Arguments set_candidates {Questions} _ _.
Arguments set_final_selections {Questions} _ _.
Arguments set_interview_status {Questions} _ _.
Arguments set_status {Questions} _ _.
Arguments set_final_evaluation {Questions} _ _.
Arguments set_selection {Questions} _ _ _.
Arguments has_id {Questions} _ _.
Arguments _find_job_requirements {Questions} _ _.
Arguments _find_candidate {Questions} _ _.
Arguments store {Questions} _ _ _.
Arguments ApplicationError {Questions} _.
Arguments ApplicationScreeningError {Questions} _ _.
Arguments ApplicationSuccess {Questions} _ _ _.
Arguments process_candidate_application _ {Questions} _ _ _ _ _.
Arguments interview_status_of {Questions} _.
Arguments _all_interviews_completed {Questions} _.
Arguments _evaluate_final_candidate {Questions} _.
Arguments _get_next_steps {Questions} _ _.
Arguments conduct_interview {Questions} _ _ _ _ _.
Arguments conduct_interviews {Questions} _ _ _.
Arguments screening_score {Questions} _.
Arguments progressed {Questions} _ _ _ _.
Arguments make_final_selection {Questions} _ _ _ _ _.
Arguments interviews_done {Questions} _.
Arguments is_hired {Questions} _.
Arguments _calculate_interview_completion_rate {Questions} _.
Arguments _calculate_hiring_success_rate {Questions} _.
Arguments total_days_loop {Questions} _ _.
Arguments _calculate_average_time_to_hire {Questions} _.
Arguments _count_candidates_by_status {Questions} _.
Arguments top_entry {Questions} _.
Arguments _get_top_performing_candidates {Questions} _.
Arguments score_candidate_resume _ {Questions} _ _.
Arguments add_candidate_from_scoring {Questions} _ _ _ _ _ _.
Arguments set_job_openings {Questions} _ _.
Arguments initial_state {Questions}.
Arguments Reachable _ {Questions} _ _.

End RecruitmentOrchestrator.

(* ================================================================== *)
(** * agents/recruitment_analyzer.py *)
(* ================================================================== *)

Module RecruitmentAnalyzer.

(** The salary bands, in lakh rupees a year, by role keyword. *)
Definition role_bands_lpa : list (string * (Z * Z)) :=
  [("Intern", (3, 6)%Z); ("Junior", (4, 8)%Z); ("Associate", (6, 12)%Z);
   ("Engineer", (8, 18)%Z); ("Senior", (18, 35)%Z); ("Lead", (28, 45)%Z);
   ("Manager", (30, 55)%Z); ("Architect", (35, 60)%Z);
   ("Director", (55, 90)%Z)].

(** The loop over the bands: the band of the first keyword found in the
    position, whatever the case, else the band given. *)
Fixpoint select_band (normalized_position : string)
         (bands : list (string * (Z * Z))) (selected_band : Z * Z)
  : Z * Z :=
  match bands with
  | [] => selected_band
  | (keyword, band) :: rest =>
      if Py.contains (Py.lower keyword) (Py.lower normalized_position)
      then band
      else select_band normalized_position rest selected_band
  end.

(** The two bounds that [_calculate_salary_range] prints. *)
Definition salary_bounds (position : string) (current_salary_usd : Q)
  : Z * Z :=
  let normalized_position := Py.strip position in
  let selected_band :=
    select_band normalized_position role_bands_lpa (8, 18)%Z in
  let '(min_lpa, max_lpa) := selected_band in
  let usd := current_salary_usd in
  if Qlt_le_dec 0 usd
  then
    let influence :=
      Py.min (15 # 100) (Py.max (- (15 # 100)) ((usd - 60000) / 400000)) in
    let min_lpa := Py.round_half_even (inject_Z min_lpa * (1 + influence)) in
    let max_lpa := Py.round_half_even (inject_Z max_lpa * (1 + influence)) in
    if (max_lpa <? min_lpa)%Z then ((max_lpa - 1)%Z, max_lpa)
    else (min_lpa, max_lpa)
  else (min_lpa, max_lpa).

(** The two markers of the printed range, as the bytes of the source. *)
Definition rupee_marker : string := "â‚¹".
Definition dash_marker : string := "â€“".

Definition _calculate_salary_range (position : string)
           (current_salary_usd : Q) : string :=
  let '(min_lpa, max_lpa) := salary_bounds position current_salary_usd in
  rupee_marker ++ Py.str_int min_lpa ++ dash_marker ++ Py.str_int max_lpa
  ++ " LPA".

Definition _determine_experience_level (position : string) : string :=
  if Py.contains "Senior" position || Py.contains "Manager" position
  then "5+ years"
  else if Py.contains "Junior" position
  then "0-2 years"
  else "2-5 years".

Definition _determine_priority (department position : string) : string :=
  let critical_departments := ["Engineering"; "IT"; "Finance"] in
  let critical_positions := ["Manager"; "Senior"; "Lead"; "Architect"] in
  if existsb (String.eqb department) critical_departments
     || existsb (fun crit => Py.contains crit position) critical_positions
  then "High"
  else if existsb (String.eqb department) ["Marketing"; "Sales"]
  then "Medium"
  else "Normal".

End RecruitmentAnalyzer.

(* ================================================================== *)
(** * Sample data *)
(* ================================================================== *)

Module Sample.


Definition full_skill : SkillAnalysis := {|
  sa_score := 100;
  sa_matched_skills := ["Python"];
  sa_missing_skills := [];
  sa_match_percentage := Some "100.0%"
|}.

Definition full_experience : ExperienceAnalysis := {|
  ea_score := 100;
  ea_candidate_years := 5;
  ea_required_years := 5;
  ea_assessment := "Well Qualified";
  ea_experience_gap := 0
|}.

Definition full_cultural_fit : CulturalFitAnalysis := {|
  cf_score := 100;
  cf_category_scores :=
    [("teamwork", 100); ("leadership", 100); ("innovation", 100);
     ("communication", 100); ("adaptability", 100)];
  cf_assessment := "Excellent Cultural Fit";
  cf_strengths :=
    ["teamwork"; "leadership"; "innovation"; "communication";
     "adaptability"];
  cf_areas_for_growth := []
|}.

(** The example scenario: three required skills, five years. *)
Definition analyst_job : JobRequirements := {|
  job_position := "Data Analyst";
  job_department := "Analytics";
  job_required_skills := ["Python"; "SQL"; "Git"];
  job_experience_level := "2-5 years";
  job_priority := "Normal"
|}.

Definition ann : CandidateData := {|
  cd_candidate_id := "candidate_1";
  cd_candidate_name := "Ann";
  cd_position := "Data Analyst";
  cd_experience_years := 5;
  cd_resume_text := "5 years building Python services with Git workflows";
  cd_cover_letter := "Not provided"
|}.

(** No prompt text is needed without a client. *)
Definition no_prompt (_ : CandidateData) (_ : JobRequirements)
           (_ _ _ : string) (_ _ : list string) : string := EmptyString.

Definition no_questions (_ _ _ : string) : unit := tt.

(** A position that is not technical: three interview stages. *)
Definition clerk_job : JobRequirements := {|
  job_position := "Office Clerk";
  job_department := "Operations";
  job_required_skills := ["Filing"];
  job_experience_level := "0-2 years";
  job_priority := "Normal"
|}.

(** An orchestrator with two openings and no candidate yet. *)
Definition office : RecruitmentOrchestrator.State unit := {|
  RecruitmentOrchestrator.job_openings := [analyst_job; clerk_job];
  RecruitmentOrchestrator.candidates := [];
  RecruitmentOrchestrator.interviews := [];
  RecruitmentOrchestrator.final_selections := []
|}.

(** The office after Ann applied, screened with the shipped weights and
    without a text-generation client. *)
Definition office_after_ann : RecruitmentOrchestrator.State unit :=
  fst (RecruitmentOrchestrator.process_candidate_application
         (CandidateScreener.shipped_screen None no_prompt)
         no_questions 0%Z office ann "data analyst").

(** A screening result of the first tier, with an overall score of 90,
    and a screener that hands it out. *)
Definition keen_result : ScreeningResult := {|
  sr_candidate_id := "candidate_1";
  sr_candidate_name := "Ann";
  sr_position := "Office Clerk";
  sr_overall_score := 90;
  sr_skill_match_score := 100;
  sr_experience_match_score := 100;
  sr_cultural_fit_score := 100;
  sr_recommendation := "Strongly Recommend - Move to Technical Assessment";
  sr_ai_feedback := EmptyString;
  sr_skill_analysis := full_skill;
  sr_experience_analysis := full_experience;
  sr_cultural_fit_analysis := full_cultural_fit
|}.

Definition keen_screen (_ : CandidateData) (_ : JobRequirements)
  : Screening := ScreeningCompleted keen_result.

(** The office after Ann applied for the clerk position and passed. *)
Definition office_scheduled : RecruitmentOrchestrator.State unit :=
  fst (RecruitmentOrchestrator.process_candidate_application
         keen_screen no_questions 0%Z office ann "Office Clerk").

(** Ann as she is stored then. *)
Definition ann_schedule : RecruitmentOrchestrator.InterviewSchedule unit :=
  InterviewCoordinator.create_interview_schedule unit no_questions 0%Z
    ann clerk_job.

Definition ann_scheduled : RecruitmentOrchestrator.Candidate unit := {|
  RecruitmentOrchestrator.c_data := ann;
  RecruitmentOrchestrator.c_screening_result := Some keen_result;
  RecruitmentOrchestrator.c_interview_schedule := Some ann_schedule;
  RecruitmentOrchestrator.c_application_date := 0%Z;
  RecruitmentOrchestrator.c_status := "interview_scheduled";
  RecruitmentOrchestrator.c_interview_status := None;
  RecruitmentOrchestrator.c_final_evaluation := None;
  RecruitmentOrchestrator.c_selection_notes := None;
  RecruitmentOrchestrator.c_selection_date := None
|}.

(** One call for each of the three stages: one, one and two words of
    feedback. *)
Definition three_calls : list (timestamp * string * string) :=
  [(1%Z, "Initial Screening", "Good");
   (2%Z, "HR Interview", "Good");
   (3%Z, "Reference Check", "Very good")].

(** A candidate who hands in an empty resume. *)
Definition bob : CandidateData := {|
  cd_candidate_id := "candidate_2";
  cd_candidate_name := "Bob";
  cd_position := "Data Analyst";
  cd_experience_years := 2;
  cd_resume_text := EmptyString;
  cd_cover_letter := "Not provided"
|}.

(** The office after Ann, rejected at screening, was hired all the same,
    three days after her application. *)
Definition office_with_hire : RecruitmentOrchestrator.State unit :=
  fst (RecruitmentOrchestrator.make_final_selection (3 * DAY)%Z
         office_after_ann "candidate_1" "hired" "Strong potential").

End Sample.

(* ================================================================== *)
(** * Properties of the Python primitives *)
(* ================================================================== *)

(** Linear arithmetic over [Q] with the injected integers kept abstract. *)
Ltac hide_inject :=
  repeat match goal with
         | |- context [inject_Z ?z] =>
             let q := fresh "q" in
             set (q := inject_Z z) in *; clearbody q
         | H : context [inject_Z ?z] |- _ =>
             let q := fresh "q" in
             set (q := inject_Z z) in *; clearbody q
         end.
Ltac qlra := hide_inject; lra.

Section Rounding.

Lemma Qcompare_Lt_inv (x y : Q) : Qcompare x y = Lt -> x < y.
Proof. apply Qlt_alt. Qed.

Lemma Qcompare_Gt_inv (x y : Q) : Qcompare x y = Gt -> y < x.
Proof. apply Qgt_alt. Qed.

Lemma Qcompare_Eq_inv (x y : Q) : Qcompare x y = Eq -> x == y.
Proof. apply Qeq_alt. Qed.

Lemma Qcompare_Lt_intro (x y : Q) : x < y -> Qcompare x y = Lt.
Proof. apply Qlt_alt. Qed.

Lemma floor_spec (x : Q) :
  inject_Z (Qfloor x) <= x /\ x < inject_Z (Qfloor x) + 1.
Proof.
  split; [apply Qfloor_le|].
  pose proof (Qlt_floor x) as H.
  rewrite inject_Z_plus in H. exact H.
Qed.

(** The rounded value is the floor or its successor. *)
Lemma round_half_even_cases (x : Q) :
  let f := Qfloor x in
  (Py.round_half_even x = f /\ x - inject_Z f <= 1 # 2)
  \/ (Py.round_half_even x = (f + 1)%Z /\ 1 # 2 <= x - inject_Z f).
Proof.
  unfold Py.round_half_even; cbv zeta.
  destruct (Qcompare (x - inject_Z (Qfloor x)) (1 # 2)) eqn:E.
  - apply Qcompare_Eq_inv in E.
    destruct (Z.even (Qfloor x)); [left | right]; split; auto; qlra.
  - apply Qcompare_Lt_inv in E. left; split; auto; qlra.
  - apply Qcompare_Gt_inv in E. right; split; auto; qlra.
Qed.

Lemma round_half_even_comp (x y : Q) :
  x == y -> Py.round_half_even x = Py.round_half_even y.
Proof.
  intros E. unfold Py.round_half_even.
  rewrite (Qfloor_comp _ _ E).
  assert (C : Qcompare (x - inject_Z (Qfloor y)) (1 # 2)
              = Qcompare (y - inject_Z (Qfloor y)) (1 # 2)).
  { apply Qcompare_comp; [rewrite E|]; reflexivity. }
  rewrite C. reflexivity.
Qed.

Lemma round_half_even_mono (x y : Q) :
  x <= y -> (Py.round_half_even x <= Py.round_half_even y)%Z.
Proof.
  intros Hxy.
  pose proof (Qfloor_resp_le _ _ Hxy) as Hf.
  destruct (Z.eq_dec (Qfloor x) (Qfloor y)) as [Ef | Nf].
  - unfold Py.round_half_even. rewrite Ef.
    destruct (Qcompare (x - inject_Z (Qfloor y)) (1 # 2)) eqn:Ex;
      destruct (Qcompare (y - inject_Z (Qfloor y)) (1 # 2)) eqn:Ey;
      try apply Qcompare_Eq_inv in Ex; try apply Qcompare_Lt_inv in Ex;
      try apply Qcompare_Gt_inv in Ex;
      try apply Qcompare_Eq_inv in Ey; try apply Qcompare_Lt_inv in Ey;
      try apply Qcompare_Gt_inv in Ey;
      destruct (Z.even (Qfloor y)); try lia; exfalso; qlra.
  - destruct (round_half_even_cases x) as [[Rx _] | [Rx _]];
      destruct (round_half_even_cases y) as [[Ry _] | [Ry _]];
      rewrite Rx, Ry; lia.
Qed.

Lemma round_half_even_Z (n : Z) : Py.round_half_even (inject_Z n) = n.
Proof.
  unfold Py.round_half_even. rewrite Qfloor_Z.
  assert (C : Qcompare (inject_Z n - inject_Z n) (1 # 2) = Lt).
  { apply Qcompare_Lt_intro. qlra. }
  rewrite C. reflexivity.
Qed.

Lemma round2_comp (x y : Q) : x == y -> Py.round2 x == Py.round2 y.
Proof.
  intros E. unfold Py.round2.
  rewrite (round_half_even_comp (x * 100) (y * 100)); [reflexivity|].
  rewrite E; reflexivity.
Qed.

Lemma round2_mono (x y : Q) : x <= y -> Py.round2 x <= Py.round2 y.
Proof.
  intros H. unfold Py.round2.
  assert (Hz : (Py.round_half_even (x * 100)
                <= Py.round_half_even (y * 100))%Z).
  { apply round_half_even_mono. lra. }
  rewrite Zle_Qle in Hz.
  apply Qmult_le_compat_r; [exact Hz | ].
  apply Qinv_le_0_compat. lra.
Qed.

(** A number of hundredths is left unchanged. *)
Lemma round2_hundredths (n : Z) : Py.round2 (inject_Z n / 100) == inject_Z n / 100.
Proof.
  unfold Py.round2.
  rewrite (round_half_even_comp (inject_Z n / 100 * 100) (inject_Z n)).
  - rewrite round_half_even_Z. reflexivity.
  - field.
Qed.

Lemma round2_bounds (x : Q) (lo hi : Z) :
  inject_Z lo <= x -> x <= inject_Z hi ->
  inject_Z lo <= Py.round2 x /\ Py.round2 x <= inject_Z hi.
Proof.
  intros Hlo Hhi. split.
  - apply Qle_trans with (Py.round2 (inject_Z (lo * 100) / 100)).
    + rewrite round2_hundredths. rewrite inject_Z_mult.
      apply Qle_lteq; right. field.
    + apply round2_mono. rewrite inject_Z_mult.
      apply Qle_trans with (inject_Z lo); [|exact Hlo].
      apply Qle_lteq; right. field.
  - apply Qle_trans with (Py.round2 (inject_Z (hi * 100) / 100)).
    + apply round2_mono. rewrite inject_Z_mult.
      apply Qle_trans with (inject_Z hi); [exact Hhi|].
      apply Qle_lteq; right. field.
    + rewrite round2_hundredths. rewrite inject_Z_mult.
      apply Qle_lteq; right. field.
Qed.

(** A percentage stays a percentage. *)
Lemma round2_percent (x : Q) :
  0 <= x -> x <= 100 -> 0 <= Py.round2 x /\ Py.round2 x <= 100.
Proof. intros H0 H1. exact (round2_bounds x 0 100 H0 H1). Qed.

End Rounding.

Section Numbers.

Lemma ge_true (a b : Q) : Py.ge a b = true <-> b <= a.
Proof. unfold Py.ge. apply Qle_bool_iff. Qed.

Lemma ge_false (a b : Q) : Py.ge a b = false <-> a < b.
Proof.
  unfold Py.ge. split; intros H.
  - apply Qnot_le_lt. intros L. apply Qle_bool_iff in L. congruence.
  - destruct (Qle_bool b a) eqn:E; [|reflexivity].
    apply Qle_bool_iff in E. exfalso. qlra.
Qed.

(** Case analysis on a comparison [a >= b]. *)
Lemma ge_spec (a b : Q) :
  (Py.ge a b = true /\ b <= a) \/ (Py.ge a b = false /\ a < b).
Proof.
  destruct (Py.ge a b) eqn:E; [left | right]; split; auto.
  - now apply ge_true.
  - now apply ge_false.
Qed.

Lemma min_spec (a b : Q) :
  (a <= b /\ Py.min a b = a) \/ (b < a /\ Py.min a b = b).
Proof.
  unfold Py.min. destruct (ge_spec b a) as [[E H] | [E H]];
    unfold Py.ge in E; rewrite E; auto.
Qed.

Lemma max_spec (a b : Q) :
  (a <= b /\ Py.max a b = b) \/ (b < a /\ Py.max a b = a).
Proof.
  unfold Py.max. destruct (ge_spec b a) as [[E H] | [E H]];
    unfold Py.ge in E; rewrite E; auto.
Qed.

Lemma truediv_nonzero (a b : Q) :
  ~ b == 0 -> Py.truediv a b = Py.Return (a / b).
Proof.
  intros H. unfold Py.truediv.
  destruct (Qeq_bool b 0) eqn:E; [|reflexivity].
  apply Qeq_bool_iff in E. contradiction.
Qed.

Lemma len_nonneg {A : Type} (l : list A) : 0 <= Py.len l.
Proof.
  unfold Py.len. change 0 with (inject_Z 0). rewrite <- Zle_Qle. lia.
Qed.

Lemma len_cons_nonzero {A : Type} (x : A) (l : list A) :
  ~ Py.len (x :: l) == 0.
Proof.
  unfold Py.len. change 0 with (inject_Z 0). rewrite inject_Z_injective.
  simpl List.length. lia.
Qed.

Lemma len_pos {A : Type} (x : A) (l : list A) : 0 < Py.len (x :: l).
Proof.
  unfold Py.len. change 0 with (inject_Z 0). rewrite <- Zlt_Qlt.
  simpl List.length. lia.
Qed.

Lemma len_le {A B : Type} (l : list A) (l' : list B) :
  (List.length l <= List.length l')%nat -> Py.len l <= Py.len l'.
Proof. intros H. unfold Py.len. rewrite <- Zle_Qle. lia. Qed.

End Numbers.

(* ================================================================== *)
(** * The scoring engine *)
(* ================================================================== *)

Section Scoring.

Import CandidateScreener.

(** ** Recommendation tiers *)

(** C4. The tiers of [_determine_recommendation] are closed on the lower
    bound: a score of at least 85 is in the "Strongly Recommend" tier, a
    score in [70, 85) in the "Recommend" tier, a score in [55, 70) in the
    "Consider" tier and a score under 55 in the "Not Recommended" tier; so
    85.00 gives "Strongly Recommend" and 84.99 gives "Recommend". *)
Theorem recommendation_tiers (s : Q) :
  (85 <= s ->
   _determine_recommendation s
   = "Strongly Recommend - Move to Technical Assessment")
  /\ (70 <= s -> s < 85 ->
      _determine_recommendation s = "Recommend - Move to HR Interview")
  /\ (55 <= s -> s < 70 ->
      _determine_recommendation s
      = "Consider - Additional Screening Required")
  /\ (s < 55 ->
      _determine_recommendation s
      = "Not Recommended - Does Not Meet Requirements")
  /\ _determine_recommendation 85
     = "Strongly Recommend - Move to Technical Assessment"
  /\ _determine_recommendation (8499 # 100)
     = "Recommend - Move to HR Interview".
Proof.
  unfold _determine_recommendation.
  repeat split; try reflexivity; intros;
    destruct (ge_spec s 85) as [[E1 H1] | [E1 H1]]; rewrite E1;
    try reflexivity; try (exfalso; lra);
    destruct (ge_spec s 70) as [[E2 H2] | [E2 H2]]; rewrite E2;
    try reflexivity; try (exfalso; lra);
    destruct (ge_spec s 55) as [[E3 H3] | [E3 H3]]; rewrite E3;
    try reflexivity; exfalso; lra.
Qed.

Lemma recommendation_tiers_witness :
  _determine_recommendation 90
  = "Strongly Recommend - Move to Technical Assessment"
  /\ _determine_recommendation 70 = "Recommend - Move to HR Interview"
  /\ _determine_recommendation (6999 # 100)
     = "Consider - Additional Screening Required"
  /\ _determine_recommendation (5499 # 100)
     = "Not Recommended - Does Not Meet Requirements".
Proof.
  split; [| split; [| split]].
  - apply (proj1 (recommendation_tiers 90)). discriminate.
  - apply (proj1 (proj2 (recommendation_tiers 70)));
      [discriminate | reflexivity].
  - apply (proj1 (proj2 (proj2 (recommendation_tiers (6999 # 100)))));
      [discriminate | reflexivity].
  - apply (proj1 (proj2 (proj2 (proj2 (recommendation_tiers (5499 # 100)))))).
    reflexivity.
Defined.

(** A score under 70 is in neither of the two passing tiers. *)
Lemma recommendation_below_70 (s : Q) :
  s < 70 ->
  _determine_recommendation s = "Consider - Additional Screening Required"
  \/ _determine_recommendation s
     = "Not Recommended - Does Not Meet Requirements".
Proof.
  intros H. unfold _determine_recommendation.
  destruct (ge_spec s 85) as [[E1 H1] | [E1 H1]]; rewrite E1;
    [exfalso; lra|].
  destruct (ge_spec s 70) as [[E2 H2] | [E2 H2]]; rewrite E2;
    [exfalso; lra|].
  destruct (Py.ge s 55); auto.
Qed.

(** ** Experience match *)

Lemma required_years_cases (required_level : string) :
  required_years_of required_level = 5
  \/ required_years_of required_level = 1
  \/ required_years_of required_level = 35 # 10.
Proof.
  unfold required_years_of.
  destruct (Py.contains "5+" required_level); auto.
  destruct (Py.contains "0-2" required_level); auto.
Qed.

Lemma required_years_pos (required_level : string) :
  0 < required_years_of required_level.
Proof.
  destruct (required_years_cases required_level) as [E | [E | E]];
    rewrite E; reflexivity.
Qed.

(** [_evaluate_experience] raises nothing, and its score is the rounded
    raw score. *)
Lemma _evaluate_experience_returns (candidate_years : Q)
      (required_level : string) :
  exists e,
    _evaluate_experience candidate_years required_level = Py.Return e
    /\ ea_score e
       = Py.round2 (experience_raw candidate_years
                      (required_years_of required_level))
    /\ ea_required_years e = required_years_of required_level
    /\ ea_candidate_years e = candidate_years.
Proof.
  unfold _evaluate_experience, experience_raw.
  pose proof (required_years_pos required_level) as Hpos.
  set (ry := required_years_of required_level) in *.
  assert (Hnz : ~ ry == 0) by (intros E; rewrite E in Hpos; discriminate).
  rewrite (truediv_nonzero candidate_years ry Hnz).
  destruct (Py.ge candidate_years ry); cbn; eexists; repeat split.
Qed.

Lemma ratio_ge_100 (cy ry : Q) :
  0 < ry -> ry <= cy -> 100 <= cy / ry * 100.
Proof.
  intros Hry H.
  apply Qle_trans with (1 * 100); [lra|].
  apply Qmult_le_compat_r; [|lra].
  apply Qle_shift_div_l; lra.
Qed.

Lemma ratio_le_100 (cy ry : Q) :
  0 < ry -> cy <= ry -> cy / ry * 100 <= 100.
Proof.
  intros Hry H.
  apply Qle_trans with (1 * 100); [|lra].
  apply Qmult_le_compat_r; [|lra].
  apply Qle_shift_div_r; lra.
Qed.

Lemma ratio_mono (a b r : Q) :
  0 < r -> a <= b -> a / r * 100 <= b / r * 100.
Proof.
  intros Hr Hab.
  apply Qmult_le_compat_r; [|lra].
  unfold Qdiv. apply Qmult_le_compat_r; [exact Hab|].
  apply Qinv_le_0_compat. lra.
Qed.

Lemma experience_raw_bounds (cy ry : Q) :
  0 < ry -> 0 <= experience_raw cy ry /\ experience_raw cy ry <= 100.
Proof.
  intros Hry. unfold experience_raw.
  destruct (ge_spec cy ry) as [[E H] | [E H]]; rewrite E.
  - pose proof (ratio_ge_100 cy ry Hry H) as R.
    set (v := cy / ry * 100) in *; clearbody v.
    destruct (min_spec 100 v) as [[A M] | [A M]]; rewrite M; split; lra.
  - assert (L : cy <= ry) by lra.
    pose proof (ratio_le_100 cy ry Hry L) as R.
    set (v := cy / ry * 100) in *; clearbody v.
    destruct (max_spec 0 v) as [[M' M] | [M' M]]; rewrite M; split; lra.
Qed.




End Scoring.

Section SkillMatch.

Import CandidateScreener.

Lemma skill_loop_acc (resume_lower : string) (required_skills : list string)
      (acc : list string * list string) :
  fold_left
    (fun acc skill =>
       if skill_in_resume resume_lower skill
       then ((fst acc ++ [skill])%list, snd acc)
       else (fst acc, (snd acc ++ [skill])%list))
    required_skills acc
  = ((fst acc ++ filter (skill_in_resume resume_lower) required_skills)%list,
     (snd acc
      ++ filter (fun s => negb (skill_in_resume resume_lower s))
                required_skills)%list).
Proof.
  revert acc. induction required_skills as [| skill rest IH]; intros acc.
  - simpl. rewrite !app_nil_r. now destruct acc.
  - simpl. rewrite IH.
    destruct (skill_in_resume resume_lower skill); simpl;
      rewrite <- ?app_assoc; reflexivity.
Qed.

(** The loop splits the required skills by the test, in order. *)
Lemma skill_loop_filter (resume_lower : string)
      (required_skills : list string) :
  skill_loop resume_lower required_skills
  = (filter (skill_in_resume resume_lower) required_skills,
     filter (fun s => negb (skill_in_resume resume_lower s))
            required_skills).
Proof. unfold skill_loop. now rewrite skill_loop_acc. Qed.

Lemma filter_split_perm {A : Type} (p : A -> bool) (l : list A) :
  Permutation (filter p l ++ filter (fun x => negb (p x)) l) l.
Proof.
  induction l as [| x l IH]; simpl; [constructor|].
  destruct (p x); simpl.
  - now constructor.
  - apply Permutation_sym, Permutation_cons_app, Permutation_sym, IH.
Qed.

Lemma filter_split_length {A : Type} (p : A -> bool) (l : list A) :
  (List.length (filter p l) + List.length (filter (fun x => negb (p x)) l)
   = List.length l)%nat.
Proof.
  induction l as [| x l IH]; simpl; [reflexivity|].
  destruct (p x); simpl; lia.
Qed.

Lemma filter_split_disjoint {A : Type} (p : A -> bool) (l : list A) (x : A) :
  In x (filter p l) -> ~ In x (filter (fun x => negb (p x)) l).
Proof.
  intros H1 H2. apply filter_In in H1, H2.
  destruct H1 as [_ H1]. destruct H2 as [_ H2].
  rewrite H1 in H2. discriminate.
Qed.

Lemma round2_zero : Py.round2 0 == 0.
Proof. reflexivity. Qed.

(** The explicit result of [_analyze_skill_match]. *)
Lemma _analyze_skill_match_returns (resume_text : string)
      (required_skills : list string) :
  required_skills <> [] ->
  exists sa,
    _analyze_skill_match resume_text required_skills = Py.Return sa
    /\ (resume_text = EmptyString ->
        sa_score sa = 0 /\ sa_matched_skills sa = []
        /\ sa_missing_skills sa = required_skills)
    /\ (resume_text <> EmptyString ->
        sa_matched_skills sa
        = filter (skill_in_resume (Py.lower resume_text)) required_skills
        /\ sa_missing_skills sa
           = filter (fun s => negb (skill_in_resume (Py.lower resume_text) s))
                    required_skills
        /\ sa_score sa
           = Py.round2 (Py.len (sa_matched_skills sa)
                        / Py.len required_skills * 100)).
Proof.
  intros Hne. unfold _analyze_skill_match.
  destruct required_skills as [| skill rest]; [congruence|].
  destruct (String.eqb resume_text EmptyString) eqn:E.
  - apply String.eqb_eq in E. simpl. eexists. split; [reflexivity|].
    split; [intros _; simpl; auto | intros N; congruence].
  - apply String.eqb_neq in E.
    change (false || (List.length (skill :: rest) =? 0)%nat) with false.
    cbv iota. rewrite skill_loop_filter.
    rewrite (truediv_nonzero _ _ (len_cons_nonzero skill rest)).
    cbn [Py.bind]. eexists. split; [reflexivity|].
    split; [intros N; congruence | intros _; simpl; auto].
Qed.

(** C1. For a job with a non-empty list of required skills and any
    candidate, the skill analysis that [screen_candidate] runs returns a
    result whose matched and missing skills partition the required skills
    (together a permutation of them, lengths adding up to N, no skill in
    both), and whose score is [len(matched) / N * 100] rounded to two
    decimals; with an empty resume text the score is 0, nothing is matched
    and every required skill is missing.  This analysis is the one a
    completed screening carries. *)
Theorem skill_analysis_partition
        (criteria : Config.EvaluationCriteria)
        (client : option (string -> Py.Exc string))
        (feedback_prompt :
           CandidateData -> JobRequirements -> string -> string -> string ->
           list string -> list string -> string)
        (candidate_data : CandidateData) (job_requirements : JobRequirements) :
  let required_skills := job_required_skills job_requirements in
  let resume_text := cd_resume_text candidate_data in
  required_skills <> [] ->
  exists sa,
    _analyze_skill_match resume_text required_skills = Py.Return sa
    /\ Permutation (sa_matched_skills sa ++ sa_missing_skills sa)
                   required_skills
    /\ (List.length (sa_matched_skills sa)
        + List.length (sa_missing_skills sa)
        = List.length required_skills)%nat
    /\ (forall skill,
          In skill (sa_matched_skills sa) ->
          ~ In skill (sa_missing_skills sa))
    /\ sa_score sa
       == Py.round2 (Py.len (sa_matched_skills sa)
                     / Py.len required_skills * 100)
    /\ (resume_text = EmptyString ->
        sa_score sa == 0 /\ sa_matched_skills sa = []
        /\ sa_missing_skills sa = required_skills)
    /\ (forall r,
          screen_candidate criteria client feedback_prompt
            candidate_data job_requirements = ScreeningCompleted r ->
          sr_skill_analysis r = sa /\ sr_skill_match_score r = sa_score sa).
Proof.
  intros required_skills resume_text Hne.
  destruct (_analyze_skill_match_returns resume_text required_skills Hne)
    as (sa & R & Hempty & Hfull).
  exists sa. split; [exact R|].
  assert (Hcases : resume_text = EmptyString \/ resume_text <> EmptyString).
  { destruct (string_dec resume_text EmptyString); auto. }
  assert (Hscreen : forall r,
            screen_candidate criteria client feedback_prompt
              candidate_data job_requirements = ScreeningCompleted r ->
            sr_skill_analysis r = sa /\ sr_skill_match_score r = sa_score sa).
  { intros r. unfold screen_candidate, screen_candidate_body.
    fold required_skills resume_text. rewrite R. cbn [Py.bind].
    destruct (_evaluate_experience _ _); cbn [Py.bind]; [|discriminate].
    destruct (_assess_cultural_fit _ _ _); cbn [Py.bind]; [|discriminate].
    destruct (_generate_ai_feedback _ _ _ _ _ _ _); cbn [Py.bind];
      [|discriminate].
    intros H; inversion H; subst; simpl; auto. }
  destruct Hcases as [E | N].
  - destruct (Hempty E) as (S0 & M0 & X0).
    split; [rewrite M0, X0; apply Permutation_refl|].
    split; [rewrite M0, X0; reflexivity|].
    split; [intros skill HI; rewrite M0 in HI; destruct HI|].
    split.
    { rewrite S0, M0. symmetry.
      rewrite (round2_comp _ 0); [apply round2_zero|].
      unfold Py.len at 1. simpl List.length. unfold Qdiv.
      change (inject_Z (Z.of_nat 0)) with 0. rewrite !Qmult_0_l.
      reflexivity. }
    split; [|exact Hscreen].
    intros _. rewrite S0. repeat split; auto.
  - destruct (Hfull N) as (M1 & X1 & S1).
    split; [rewrite M1, X1; apply filter_split_perm|].
    split; [rewrite M1, X1; apply filter_split_length|].
    split; [rewrite M1, X1; apply filter_split_disjoint|].
    split; [rewrite S1; reflexivity|].
    split; [|exact Hscreen].
    intros E. congruence.
Qed.

End SkillMatch.

Section OverallScore.

Import CandidateScreener.

Lemma weighted_bounds (s w : Q) :
  0 <= s -> s <= 100 -> 0 <= w -> 0 <= s * w /\ s * w <= 100 * w.
Proof.
  intros H0 H1 Hw. split.
  - now apply Qmult_le_0_compat.
  - now apply Qmult_le_compat_r.
Qed.

(** The overall score under weights whose hundredfold sum is at most an
    integer [B] lies between 0 and [B]. *)
Lemma overall_score_bound (criteria : Config.EvaluationCriteria)
      (skill_match : SkillAnalysis) (experience_match : ExperienceAnalysis)
      (cultural_fit : CulturalFitAnalysis) (B : Z) :
  0 <= Config.technical_skills criteria ->
  0 <= Config.experience criteria ->
  0 <= Config.cultural_fit criteria ->
  100 * (Config.technical_skills criteria + Config.experience criteria
         + Config.cultural_fit criteria) <= inject_Z B ->
  0 <= sa_score skill_match -> sa_score skill_match <= 100 ->
  0 <= ea_score experience_match -> ea_score experience_match <= 100 ->
  0 <= cf_score cultural_fit -> cf_score cultural_fit <= 100 ->
  0 <= _calculate_overall_score criteria skill_match experience_match
         cultural_fit
  /\ _calculate_overall_score criteria skill_match experience_match
       cultural_fit <= inject_Z B.
Proof.
  intros W1 W2 W3 HB S0 S1 E0 E1 C0 C1.
  unfold _calculate_overall_score. cbv zeta.
  destruct (weighted_bounds _ _ S0 S1 W1) as [A1 A2].
  destruct (weighted_bounds _ _ E0 E1 W2) as [A3 A4].
  destruct (weighted_bounds _ _ C0 C1 W3) as [A5 A6].
  apply (round2_bounds _ 0 B).
  - change (inject_Z 0) with 0.
    set (a := sa_score skill_match * Config.technical_skills criteria) in *.
    set (b := ea_score experience_match * Config.experience criteria) in *.
    set (c := cf_score cultural_fit * Config.cultural_fit criteria) in *.
    clearbody a b c. lra.
  - set (a := sa_score skill_match * Config.technical_skills criteria) in *.
    set (b := ea_score experience_match * Config.experience criteria) in *.
    set (c := cf_score cultural_fit * Config.cultural_fit criteria) in *.
    clearbody a b c. qlra.
Qed.

(** ** Bounds of the three sub-scores *)

Lemma skill_score_bounds (resume_text : string)
      (required_skills : list string) :
  exists sa,
    _analyze_skill_match resume_text required_skills = Py.Return sa
    /\ 0 <= sa_score sa /\ sa_score sa <= 100
    /\ (resume_text = EmptyString \/ required_skills = [] <->
        sa_match_percentage sa = None).
Proof.
  destruct required_skills as [| skill rest].
  - unfold _analyze_skill_match. rewrite orb_true_r.
    eexists; split; [reflexivity|]. simpl.
    repeat split; auto; discriminate.
  - destruct (string_dec resume_text EmptyString) as [E | N].
    + subst. eexists; split; [reflexivity|]. simpl.
      repeat split; auto; discriminate.
    + unfold _analyze_skill_match.
      apply String.eqb_neq in N. rewrite N.
      change (false || (List.length (skill :: rest) =? 0)%nat) with false.
      cbv iota. rewrite skill_loop_filter.
      rewrite (truediv_nonzero _ _ (len_cons_nonzero skill rest)).
      cbn [Py.bind]. eexists; split; [reflexivity|].
      cbn [sa_score sa_match_percentage].
      set (m := filter _ (skill :: rest)).
      assert (Hm : Py.len m <= Py.len (skill :: rest)).
      { apply len_le. subst m. apply filter_length_le. }
      pose proof (len_nonneg m) as Hm0.
      pose proof (len_pos skill rest) as Hp.
      assert (R0 : 0 <= Py.len m / Py.len (skill :: rest) * 100).
      { apply Qmult_le_0_compat; [|lra].
        apply Qle_shift_div_l; [exact Hp|]. lra. }
      assert (R1 : Py.len m / Py.len (skill :: rest) * 100 <= 100).
      { apply ratio_le_100; assumption. }
      destruct (round2_percent _ R0 R1) as [B0 B1].
      split; [exact B0|]. split; [exact B1|].
      apply String.eqb_neq in N.
      split; [intros [E | E]; congruence | discriminate].
Qed.

Lemma experience_score_bounds (candidate_years : Q)
      (required_level : string) :
  exists e,
    _evaluate_experience candidate_years required_level = Py.Return e
    /\ 0 <= ea_score e /\ ea_score e <= 100.
Proof.
  destruct (_evaluate_experience_returns candidate_years required_level)
    as (e & R & S & _).
  exists e. split; [exact R|]. rewrite S.
  destruct (experience_raw_bounds candidate_years
              (required_years_of required_level)
              (required_years_pos required_level)) as [B0 B1].
  apply round2_percent; assumption.
Qed.

Lemma category_score_bounds (combined_text : string)
      (keywords : list string) :
  0 <= category_score combined_text keywords
  /\ category_score combined_text keywords <= 100.
Proof.
  unfold category_score, keyword_count.
  pose proof (len_nonneg
                (filter (fun keyword => Py.contains keyword combined_text)
                        keywords)) as H.
  set (n := Py.len _) in *. clearbody n.
  destruct (min_spec 100 (n * 20)) as [[A M] | [A M]]; rewrite M;
    split; lra.
Qed.

Lemma cultural_fit_bounds (cover_letter resume_text department : string) :
  exists cf,
    _assess_cultural_fit cover_letter resume_text department = Py.Return cf
    /\ 0 <= cf_score cf /\ cf_score cf <= 100.
Proof.
  unfold _assess_cultural_fit. cbv zeta.
  set (text := Py.lower (cover_letter ++ " " ++ resume_text)).
  unfold cultural_indicators.
  cbn [map fst snd Py.values Py.sum fold_right].
  set (k1 := ["team"; "collaboration"; "cooperation"; "partnership"]).
  set (k2 := ["lead"; "manage"; "supervise"; "mentor"; "guide"]).
  set (k3 := ["innovate"; "creative"; "problem-solving"; "improve"]).
  set (k4 := ["communicate"; "present"; "write"; "speak"; "explain"]).
  set (k5 := ["adapt"; "flexible"; "change"; "learn"; "grow"]).
  destruct (category_score_bounds text k1) as [L1 U1].
  destruct (category_score_bounds text k2) as [L2 U2].
  destruct (category_score_bounds text k3) as [L3 U3].
  destruct (category_score_bounds text k4) as [L4 U4].
  destruct (category_score_bounds text k5) as [L5 U5].
  set (c1 := category_score text k1) in *.
  set (c2 := category_score text k2) in *.
  set (c3 := category_score text k3) in *.
  set (c4 := category_score text k4) in *.
  set (c5 := category_score text k5) in *.
  clearbody c1 c2 c3 c4 c5.
  change (Py.len [("teamwork", c1); ("leadership", c2); ("innovation", c3);
                  ("communication", c4); ("adaptability", c5)]) with 5.
  rewrite truediv_nonzero by discriminate.
  cbn [Py.bind]. eexists; split; [reflexivity|].
  cbn [cf_score].
  apply round2_percent.
  - apply Qle_shift_div_l; [reflexivity|]. lra.
  - apply Qle_shift_div_r; [reflexivity|]. lra.
Qed.

End OverallScore.

Section OverallScoreClaims.

Import CandidateScreener.




End OverallScoreClaims.

Section Screening.

Import CandidateScreener.

Variable criteria : Config.EvaluationCriteria.
Variable client : option (string -> Py.Exc string).
Variable feedback_prompt :
  CandidateData -> JobRequirements -> string -> string -> string ->
  list string -> list string -> string.

(** A completed screening carries the three analyses, each with a score
    in [0,100], the weighted overall score and its recommendation. *)
Lemma screening_completed_inv (candidate_data : CandidateData)
      (job_requirements : JobRequirements) (r : ScreeningResult) :
  screen_candidate criteria client feedback_prompt candidate_data
    job_requirements = ScreeningCompleted r ->
  (0 <= sa_score (sr_skill_analysis r)
   /\ sa_score (sr_skill_analysis r) <= 100)
  /\ (0 <= ea_score (sr_experience_analysis r)
      /\ ea_score (sr_experience_analysis r) <= 100)
  /\ (0 <= cf_score (sr_cultural_fit_analysis r)
      /\ cf_score (sr_cultural_fit_analysis r) <= 100)
  /\ sr_overall_score r
     = _calculate_overall_score criteria (sr_skill_analysis r)
         (sr_experience_analysis r) (sr_cultural_fit_analysis r)
  /\ sr_recommendation r = _determine_recommendation (sr_overall_score r).
Proof.
  unfold screen_candidate, screen_candidate_body. cbv zeta.
  destruct (skill_score_bounds (cd_resume_text candidate_data)
              (job_required_skills job_requirements))
    as (sa & Rs & S0 & S1 & _).
  destruct (experience_score_bounds (cd_experience_years candidate_data)
              (job_experience_level job_requirements))
    as (ea & Re & E0 & E1).
  destruct (cultural_fit_bounds (cd_cover_letter candidate_data)
              (cd_resume_text candidate_data)
              (job_department job_requirements))
    as (cf & Rc & C0 & C1).
  rewrite Rs, Re, Rc. cbn [Py.bind].
  destruct (_generate_ai_feedback _ _ _ _ _ _ _); cbn [Py.bind];
    [|discriminate].
  intros H; inversion H; subst; clear H. simpl. auto 10.
Qed.

(** The screening raises exactly when the skill analysis took its early
    return: the feedback prompt then misses the match percentage. *)
Lemma screening_error_iff (candidate_data : CandidateData)
      (job_requirements : JobRequirements) :
  (cd_resume_text candidate_data = EmptyString
   \/ job_required_skills job_requirements = [])
  <-> screen_candidate criteria client feedback_prompt candidate_data
        job_requirements
      = ScreeningError (cd_candidate_id candidate_data) "'match_percentage'".
Proof.
  unfold screen_candidate, screen_candidate_body. cbv zeta.
  destruct (skill_score_bounds (cd_resume_text candidate_data)
              (job_required_skills job_requirements))
    as (sa & Rs & _ & _ & Hp).
  destruct (experience_score_bounds (cd_experience_years candidate_data)
              (job_experience_level job_requirements))
    as (ea & Re & _).
  destruct (cultural_fit_bounds (cd_cover_letter candidate_data)
              (cd_resume_text candidate_data)
              (job_department job_requirements))
    as (cf & Rc & _).
  rewrite Rs, Re, Rc. cbn [Py.bind].
  unfold _generate_ai_feedback.
  destruct (sa_match_percentage sa) as [p |] eqn:P; cbn [Py.bind].
  - split.
    + intros H. apply Hp in H. discriminate.
    + destruct client as [create |]; [destruct (create _)|]; discriminate.
  - split; [reflexivity | intros _; now apply Hp].
Qed.

End Screening.

Section ShippedWeights.

Import CandidateScreener.
Import RecruitmentOrchestrator.

Variable client : option (string -> Py.Exc string).
Variable feedback_prompt :
  CandidateData -> JobRequirements -> string -> string -> string ->
  list string -> list string -> string.
Variable Questions : Type.
Variable _generate_interview_questions :
  string -> string -> string -> Questions.


Lemma shipped_overall_at_most_65 (candidate_data : CandidateData)
      (job_requirements : JobRequirements) (r : ScreeningResult) :
  shipped_screen client feedback_prompt candidate_data job_requirements
  = ScreeningCompleted r ->
  0 <= sr_overall_score r /\ sr_overall_score r <= 65.
Proof.
  unfold shipped_screen. intros H.
  destruct (screening_completed_inv _ _ _ _ _ _ H)
    as ((S0 & S1) & (E0 & E1) & (C0 & C1) & O & _).
  rewrite O.
  apply (overall_score_bound Config.EVALUATION_CRITERIA _ _ _ 65);
    auto; simpl; discriminate.
Qed.

Lemma shipped_never_passes (candidate_data : CandidateData)
      (job_requirements : JobRequirements) (r : ScreeningResult) :
  shipped_screen client feedback_prompt candidate_data job_requirements
  = ScreeningCompleted r ->
  Py.startswith (sr_recommendation r) "Strongly Recommend" = false
  /\ Py.startswith (sr_recommendation r) "Recommend" = false.
Proof.
  intros H.
  destruct (shipped_overall_at_most_65 _ _ _ H) as [_ B].
  unfold shipped_screen in H.
  destruct (screening_completed_inv _ _ _ _ _ _ H) as (_ & _ & _ & _ & R).
  rewrite R.
  destruct (recommendation_below_70 (sr_overall_score r)) as [E | E];
    [lra | |]; rewrite E; split; reflexivity.
Qed.

(** C3. With the shipped weights (0.3, 0.2, 0.15) the overall score of
    every completed screening is at most 65, its recommendation starts
    with neither "Strongly Recommend" nor "Recommend", and
    [process_candidate_application] never creates an interview schedule:
    a successful application stores the candidate with status "rejected"
    and no schedule. *)
Theorem shipped_weights_reject_all (now : timestamp) (self : State Questions)
        (candidate_data : CandidateData) (job_position : string) :
  (forall job_requirements r,
      shipped_screen client feedback_prompt candidate_data job_requirements
  = ScreeningCompleted r ->
      sr_overall_score r <= 65
      /\ Py.startswith (sr_recommendation r) "Strongly Recommend" = false
      /\ Py.startswith (sr_recommendation r) "Recommend" = false)
  /\ (forall self' message r schedule,
         process_candidate_application (shipped_screen client feedback_prompt)
           _generate_interview_questions now self candidate_data job_position
         = (self', ApplicationSuccess message r schedule) ->
         schedule = None
         /\ exists c,
             candidates self'
             = (candidates self ++ [c])%list
             /\ c_data c = candidate_data
             /\ c_screening_result c = Some r
             /\ c_status c = "rejected"
             /\ c_interview_schedule c = None).
Proof.
  split.
  - intros job r H.
    destruct (shipped_overall_at_most_65 _ _ _ H) as [_ B].
    destruct (shipped_never_passes _ _ _ H) as [P1 P2]. auto.
  - intros self' message r schedule.
    unfold process_candidate_application.
    destruct (_find_job_requirements self job_position)
      as [job |]; [|discriminate].
    destruct (shipped_screen client feedback_prompt candidate_data job) as [r' | cid msg] eqn:S;
      [|discriminate].
    destruct (shipped_never_passes _ _ _ S) as [P1 P2].
    unfold passes_screening. rewrite P1, P2. simpl.
    intros H; inversion H; subst; clear H.
    split; [reflexivity|]. eexists. split; [reflexivity|]. simpl. auto.
Qed.

End ShippedWeights.

(* ================================================================== *)
(** * The candidate workflow *)
(* ================================================================== *)

Section Workflow.

Import RecruitmentOrchestrator.

Variable screen_candidate : CandidateData -> JobRequirements -> Screening.
Variable Questions : Type.
Variable _generate_interview_questions :
  string -> string -> string -> Questions.

(** C5. For a successfully screened candidate,
    [process_candidate_application] stores the candidate with an interview
    schedule and status "interview_scheduled" if and only if the
    recommendation of the screening result starts with "Strongly
    Recommend" or "Recommend" (a test on the string, whatever the score);
    otherwise the candidate is stored with status "rejected" and no
    schedule. *)
Theorem schedule_iff_prefix (now : timestamp) (self : State Questions)
        (candidate_data : CandidateData) (job_position : string)
        (job_requirements : JobRequirements) (r : ScreeningResult) :
  _find_job_requirements self job_position
  = Some job_requirements ->
  screen_candidate candidate_data job_requirements = ScreeningCompleted r ->
  let passes :=
    Py.startswith (sr_recommendation r) "Strongly Recommend"
    || Py.startswith (sr_recommendation r) "Recommend" in
  exists (c : Candidate Questions) message schedule,
    process_candidate_application screen_candidate
      _generate_interview_questions now self candidate_data job_position
    = (set_candidates self (candidates self ++ [c])%list,
       ApplicationSuccess message r schedule)
    /\ c_interview_schedule c = schedule
    /\ c_data c = candidate_data
    /\ c_screening_result c = Some r
    /\ (passes = true <->
        c_status c = "interview_scheduled"
        /\ c_interview_schedule c <> None)
    /\ (passes = false ->
        c_status c = "rejected"
        /\ c_interview_schedule c = None).
Proof.
  intros Hjob Hscreen passes.
  unfold process_candidate_application. rewrite Hjob, Hscreen.
  unfold passes_screening. fold passes.
  destruct passes eqn:P.
  - do 3 eexists. split; [reflexivity|]. simpl.
    repeat split; auto; discriminate.
  - do 3 eexists. split; [reflexivity|]. simpl.
    repeat split; auto; try discriminate.
    intros [H _]; discriminate.
Qed.

(** ** Looking candidates up and storing them back *)

Lemma find_none_iff (cs : list (Candidate Questions)) (candidate_id : string) :
  find (has_id candidate_id) cs = None
  <-> forall c, In c cs -> cd_candidate_id (c_data c) <> candidate_id.
Proof.
  split.
  - intros H c Hin E.
    apply (find_none _ _ H) in Hin. unfold has_id in Hin.
    rewrite E, String.eqb_refl in Hin. discriminate.
  - intros H. induction cs as [| c cs IH]; [reflexivity|].
    simpl. unfold has_id at 1.
    destruct (String.eqb_spec (cd_candidate_id (c_data c))
                              candidate_id) as [E | N].
    + exfalso. apply (H c); [now left | exact E].
    + apply IH. intros c' Hin. apply H. now right.
Qed.

Lemma find_store_same (cs : list (Candidate Questions)) (candidate_id : string)
      (c c' : Candidate Questions) :
  find (has_id candidate_id) cs = Some c ->
  has_id candidate_id c' = true ->
  find (has_id candidate_id) (store cs candidate_id c')
  = Some c'.
Proof.
  intros Hf Hc'. induction cs as [| x cs IH]; [discriminate|].
  simpl in *. destruct (has_id candidate_id x) eqn:E.
  - simpl. now rewrite Hc'.
  - simpl. rewrite E. now apply IH.
Qed.

Lemma has_id_other (candidate_id other : string) (c : Candidate Questions) :
  other <> candidate_id ->
  has_id candidate_id c = true ->
  has_id other c = false.
Proof.
  unfold has_id. intros N H. apply String.eqb_eq in H.
  apply String.eqb_neq. congruence.
Qed.

Lemma find_store_other (cs : list (Candidate Questions)) (candidate_id other : string)
      (c' : Candidate Questions) :
  other <> candidate_id ->
  has_id candidate_id c' = true ->
  find (has_id other) (store cs candidate_id c')
  = find (has_id other) cs.
Proof.
  intros N Hc'. induction cs as [| x cs IH]; [reflexivity|].
  simpl. destruct (has_id candidate_id x) eqn:E.
  - simpl. rewrite (has_id_other _ _ _ N Hc'), (has_id_other _ _ _ N E).
    reflexivity.
  - simpl. rewrite IH. reflexivity.
Qed.

Lemma find_has_id (cs : list (Candidate Questions)) (candidate_id : string)
      (c : Candidate Questions) :
  find (has_id candidate_id) cs = Some c ->
  has_id candidate_id c = true.
Proof. intros H. now apply find_some in H. Qed.

(** C8. For a candidate id that no stored candidate has,
    [conduct_interview] returns an error result with the message
    "Candidate with ID <id> not found" and leaves the whole state
    (candidates with their interview statuses, selections) unchanged. *)
Theorem conduct_interview_unknown (now : timestamp) (self : State Questions)
        (candidate_id stage feedback : string) :
  (forall c, In c (candidates self) ->
             cd_candidate_id (c_data c) <> candidate_id) ->
  conduct_interview now self candidate_id stage feedback
  = (self,
     InterviewError ("Candidate with ID " ++ candidate_id ++ " not found")).
Proof.
  intros H. unfold conduct_interview, _find_candidate.
  apply find_none_iff in H. rewrite H. reflexivity.
Qed.

(** ** Summary of an empty collection *)

(** C10. With no candidate, the interview-completion rate is 0, the
    hiring-success rate is 0 and the average time to hire is "N/A"; none
    of the three computations raises (no division by zero). *)
Theorem summary_of_no_candidates (self : State Questions) :
  candidates self = [] ->
  _calculate_interview_completion_rate self = Py.Return 0
  /\ _calculate_hiring_success_rate self = Py.Return 0
  /\ _calculate_average_time_to_hire self = Py.Return "N/A".
Proof.
  intros H.
  unfold _calculate_interview_completion_rate,
    _calculate_hiring_success_rate, _calculate_average_time_to_hire.
  rewrite H. simpl. auto.
Qed.

End Workflow.

Section Finality.

Import RecruitmentOrchestrator.

Variable Questions : Type.

(** C7, as amended.  The status of a stored candidate is not protected by
    its current value: [make_final_selection] sets the status of the
    candidate with the given id to the decision, whatever the status was;
    [conduct_interview] either leaves the status as it was or sets it to
    "all_interviews_completed", and leaves it as it was for a candidate
    without an interview schedule (so a candidate rejected at screening
    stays rejected under [conduct_interview]); both leave the candidates
    found under other ids as they were. *)
Theorem status_transitions (now : timestamp) (self : State Questions)
        (candidate_id : string) (c : Candidate Questions) :
  _find_candidate self candidate_id = Some c ->
  (forall decision notes,
      exists c',
        _find_candidate
          (fst (make_final_selection now self candidate_id decision notes))
          candidate_id = Some c'
        /\ c_status c' = decision)
  /\ (forall stage feedback,
         exists c',
           _find_candidate
             (fst (conduct_interview now self candidate_id stage feedback))
             candidate_id = Some c'
           /\ (c_status c' = c_status c
               \/ c_status c' = "all_interviews_completed")
           /\ (c_interview_schedule c = None -> c_status c' = c_status c))
  /\ (forall other decision notes stage feedback,
         other <> candidate_id ->
         _find_candidate
           (fst (make_final_selection now self candidate_id decision notes))
           other = _find_candidate self other
         /\ _find_candidate
              (fst (conduct_interview now self candidate_id stage feedback))
              other = _find_candidate self other).
Proof.
  intros Hf.
  pose proof (find_has_id _ _ _ _ Hf) as Hid.
  split; [|split].
  - intros decision notes. unfold make_final_selection. rewrite Hf.
    eexists. split.
    + destruct (String.eqb decision "hired"); cbn [fst];
        unfold _find_candidate; cbn [candidates set_final_selections
                                       set_candidates];
        apply (find_store_same _ _ _ c); auto.
    + reflexivity.
  - intros stage feedback. unfold conduct_interview. rewrite Hf.
    unfold _all_interviews_completed at 1.
    cbn [c_interview_schedule set_interview_status].
    destruct (c_interview_schedule c) as [sched |] eqn:Hs.
    + match goal with
      | |- context [if ?b then _ else _] => destruct b
      end.
      * destruct (_evaluate_final_candidate _) as [fe | e]; cbn [fst];
          eexists; (split; [apply (find_store_same _ _ _ c); auto|]);
          cbn [c_status set_status set_final_evaluation
                 set_interview_status];
          (split; [now right | discriminate]).
      * cbn [fst]. eexists.
        split; [apply (find_store_same _ _ _ c); auto|].
        cbn [c_status set_interview_status]. split; [now left | discriminate].
    + cbn [fst]. eexists.
      split; [apply (find_store_same _ _ _ c); auto|].
      cbn [c_status set_interview_status]. split; [now left | reflexivity].
  - intros other decision notes stage feedback N. split.
    + unfold make_final_selection. rewrite Hf.
      destruct (String.eqb decision "hired"); cbn [fst];
        unfold _find_candidate; cbn [candidates set_final_selections
                                       set_candidates];
        apply find_store_other; auto.
    + unfold conduct_interview. rewrite Hf.
      destruct (_all_interviews_completed _);
        [destruct (_evaluate_final_candidate _)|]; cbn [fst];
        unfold _find_candidate; cbn [candidates set_candidates];
        apply find_store_other; auto.
Qed.

End Finality.

(** C7, as stated, fails: Ann is rejected at screening, a terminal status,
    and [make_final_selection] then makes her "hired". *)
Lemma rejected_then_hired :
  let rejected := Sample.office_after_ann in
  let hired :=
    fst (RecruitmentOrchestrator.make_final_selection 1%Z rejected
           "candidate_1" "hired" EmptyString) in
  option_map RecruitmentOrchestrator.c_status
    (RecruitmentOrchestrator._find_candidate rejected "candidate_1")
  = Some "rejected"
  /\ option_map RecruitmentOrchestrator.c_status
       (RecruitmentOrchestrator._find_candidate hired "candidate_1")
     = Some "hired".
Proof. vm_compute. split; reflexivity. Qed.

(* ================================================================== *)
(** * Interview completion and the final evaluation *)
(* ================================================================== *)

Section StageLists.

Import InterviewCoordinator.

(** The coordinator plans three to five stages, all different. *)
Lemma _determine_interview_stages_nodup (position department priority : string) :
  NoDup (_determine_interview_stages position department priority)
  /\ _determine_interview_stages position department priority <> [].
Proof.
  unfold _determine_interview_stages.
  destruct (existsb (String.eqb position) technical_positions);
    destruct (Py.contains "Senior" position || Py.contains "Manager" position
              || String.eqb priority "High");
    cbn [app]; (split; [|discriminate]);
    repeat (constructor; [simpl; intuition discriminate|]); constructor.
Qed.

End StageLists.

Section Dictionaries.

Context {V : Type}.

Lemma set_fresh (d : Py.dict V) (k : string) (v : V) :
  ~ In k (Py.keys d) -> Py.set d k v = (d ++ [(k, v)])%list.
Proof.
  induction d as [| [k' v'] d IH]; intros H; [reflexivity|].
  simpl in *. destruct (String.eqb_spec k' k) as [E | N].
  - exfalso. apply H. now left.
  - rewrite IH; [reflexivity|]. intros Hin. apply H. now right.
Qed.

End Dictionaries.

Section Means.

Lemma len_cons {A : Type} (x : A) (l : list A) :
  Py.len (x :: l) == Py.len l + 1.
Proof.
  unfold Py.len. simpl List.length. rewrite Nat2Z.inj_succ.
  unfold Z.succ. rewrite inject_Z_plus. reflexivity.
Qed.

Lemma sum_bounds (l : list Q) :
  (forall x, In x l -> 0 <= x /\ x <= 100) ->
  0 <= Py.sum l /\ Py.sum l <= 100 * Py.len l.
Proof.
  induction l as [| x l IH]; intros H.
  - simpl. split; [apply Qle_refl|]. unfold Py.len. simpl. discriminate.
  - destruct (H x (or_introl eq_refl)) as [H0 H1].
    destruct IH as [I0 I1]; [intros y Hy; apply H; now right|].
    cbn [Py.sum fold_right]. fold (Py.sum l).
    rewrite len_cons.
    set (s := Py.sum l) in *. set (n := Py.len l) in *.
    clearbody s n. split; lra.
Qed.

(** The mean of a non-empty list of percentages is a percentage. *)
Lemma mean_bounds (x : Q) (l : list Q) :
  (forall y, In y (x :: l) -> 0 <= y /\ y <= 100) ->
  0 <= Py.sum (x :: l) / Py.len (x :: l)
  /\ Py.sum (x :: l) / Py.len (x :: l) <= 100.
Proof.
  intros H. destruct (sum_bounds _ H) as [S0 S1].
  pose proof (len_pos x l) as Hp.
  set (s := Py.sum (x :: l)) in *. set (n := Py.len (x :: l)) in *.
  clearbody s n. split.
  - apply Qle_shift_div_l; [exact Hp|]. lra.
  - apply Qle_shift_div_r; [exact Hp|]. lra.
Qed.

End Means.

Section FinalEvaluation.

Import RecruitmentOrchestrator.

Variable Questions : Type.

Lemma interview_score_bounds (feedback : string) :
  0 <= interview_score feedback /\ interview_score feedback <= 100.
Proof.
  unfold interview_score.
  pose proof (len_nonneg (Py.split feedback)) as H.
  set (n := Py.len _) in *. clearbody n.
  destruct (min_spec 100 (n * 2)) as [[A M] | [A M]]; rewrite M; split; lra.
Qed.

(** The scores that [_evaluate_final_candidate] collects. *)
Lemma interview_scores_bounds (d : Py.dict StatusUpdate) (x : Q) :
  In x (map (fun kv => interview_score (su_feedback (snd kv))) d) ->
  0 <= x /\ x <= 100.
Proof.
  intros H. apply in_map_iff in H. destruct H as (kv & E & _).
  subst x. apply interview_score_bounds.
Qed.

(** [_evaluate_final_candidate] raises nothing; its score is the blend of
    the screening score and the mean interview score, rounded. *)
Lemma _evaluate_final_candidate_returns (candidate : Candidate Questions) :
  let scores :=
    map (fun kv => interview_score (su_feedback (snd kv)))
        (completed_entries (interview_status_of candidate)) in
  exists fe,
    _evaluate_final_candidate candidate = Py.Return fe
    /\ fe_interview_performance fe = scores
    /\ fe_final_score fe
       = Py.round2
           match scores with
           | [] => screening_score candidate
           | _ :: _ =>
               screening_score candidate * (6 # 10)
               + Py.sum scores / Py.len scores * (4 # 10)
           end.
Proof.
  intros scores. unfold _evaluate_final_candidate. cbv zeta.
  fold (screening_score candidate). fold scores.
  destruct scores as [| x l] eqn:E.
  - cbn [Py.bind]. eexists. repeat split.
  - rewrite (truediv_nonzero _ _ (len_cons_nonzero x l)).
    cbn [Py.bind]. eexists. repeat split.
Qed.

Lemma blend_bounds (overall mean : Q) :
  0 <= overall -> overall <= 100 -> 0 <= mean -> mean <= 100 ->
  0 <= Py.round2 (overall * (6 # 10) + mean * (4 # 10))
  /\ Py.round2 (overall * (6 # 10) + mean * (4 # 10)) <= 100.
Proof. intros. apply round2_percent; lra. Qed.

(** ** One call of [conduct_interview] on a fresh stage *)

Lemma completed_entries_status_entry (candidate_id : string)
      (calls : list (timestamp * string * string)) :
  completed_entries (map (status_entry candidate_id) calls)
  = map (status_entry candidate_id) calls.
Proof.
  unfold completed_entries.
  induction calls as [| call calls IH]; [reflexivity|].
  simpl. now rewrite IH.
Qed.

Lemma keys_status_entry (candidate_id : string)
      (calls : list (timestamp * string * string)) :
  Py.keys (map (status_entry candidate_id) calls) = map stage_of calls.
Proof. unfold Py.keys. rewrite map_map. reflexivity. Qed.

Lemma conduct_interview_step (self : State Questions)
      (candidate_id : string) (c ck : Candidate Questions)
      (sched : InterviewSchedule Questions)
      (done : list (timestamp * string * string))
      (call : timestamp * string * string) :
  _find_candidate self candidate_id = Some ck ->
  progressed c ck candidate_id done ->
  c_interview_schedule c = Some sched ->
  ~ In (stage_of call) (map stage_of done) ->
  let self' :=
    fst (conduct_interview (fst (fst call)) self candidate_id
           (stage_of call) (feedback_of call)) in
  exists ck',
    _find_candidate self' candidate_id = Some ck'
    /\ progressed c ck' candidate_id (done ++ [call])
    /\ (if (List.length (done ++ [call])
            =? List.length
                 (InterviewCoordinator.is_interview_stages Questions sched))%nat
        then c_status ck' = "all_interviews_completed"
             /\ exists fe,
                 c_final_evaluation ck' = Some fe
                 /\ _evaluate_final_candidate ck' = Py.Return fe
        else c_status ck' = c_status ck
             /\ c_final_evaluation ck' = c_final_evaluation ck).
Proof.
  intros Hf (Hd & Hr & Hs & Hi) Hsched Hfresh self'.
  pose proof (find_has_id _ _ _ _ Hf) as Hid.
  subst self'. unfold conduct_interview. rewrite Hf.
  rewrite Hi.
  rewrite set_fresh by (rewrite keys_status_entry; exact Hfresh).
  change [(stage_of call,
           InterviewCoordinator.update_interview_status (fst (fst call))
             candidate_id (stage_of call) "completed" (feedback_of call))]
    with (map (status_entry candidate_id) [call]).
  rewrite <- map_app.
  set (d' := map (status_entry candidate_id) (done ++ [call])).
  unfold _all_interviews_completed at 1.
  cbn [c_interview_schedule set_interview_status interview_status_of
         c_interview_status].
  rewrite Hs, Hsched.
  unfold d' at 1. rewrite completed_entries_status_entry, keys_status_entry.
  rewrite length_map.
  destruct (List.length (done ++ [call])
            =? List.length
                 (InterviewCoordinator.is_interview_stages Questions sched))%nat.
  - destruct (_evaluate_final_candidate_returns
                (set_status (set_interview_status ck d')
                            "all_interviews_completed"))
      as (fe & Rfe & _).
    rewrite Rfe. cbn [fst]. eexists.
    split; [apply (find_store_same _ _ _ ck); auto|].
    split; [repeat split; auto|].
    split; [reflexivity|].
    exists fe. split; [reflexivity|]. exact Rfe.
  - cbn [fst]. eexists.
    split; [apply (find_store_same _ _ _ ck); auto|].
    split; [repeat split; auto|].
    split; reflexivity.
Qed.

End FinalEvaluation.

Section InterviewRun.

Import RecruitmentOrchestrator.

Variable Questions : Type.
Variable candidate_id : string.
Variable c : Candidate Questions.
Variable sched : InterviewSchedule Questions.
Hypothesis Hsched : c_interview_schedule c = Some sched.

(** After the calls [done], a run of the calls [todo] that exhausts the
    stages completes the interviews at its last call and not before. *)
Lemma conduct_interviews_run (todo done : list (timestamp * string * string)) :
  forall (self : State Questions) (ck : Candidate Questions),
    todo <> [] ->
    _find_candidate self candidate_id = Some ck ->
    progressed c ck candidate_id done ->
    c_status ck = c_status c ->
    c_final_evaluation ck = c_final_evaluation c ->
    NoDup (map stage_of (done ++ todo)) ->
    List.length (done ++ todo) = List.length
        (InterviewCoordinator.is_interview_stages Questions sched) ->
    (forall k, (k < List.length todo)%nat ->
       exists ck',
         _find_candidate (conduct_interviews self candidate_id
                            (firstn k todo)) candidate_id = Some ck'
         /\ c_status ck' = c_status c
         /\ c_final_evaluation ck' = c_final_evaluation c)
    /\ exists cn fe,
        _find_candidate (conduct_interviews self candidate_id todo)
                        candidate_id = Some cn
        /\ progressed c cn candidate_id (done ++ todo)
        /\ c_status cn = "all_interviews_completed"
        /\ c_final_evaluation cn = Some fe
        /\ _evaluate_final_candidate cn = Py.Return fe.
Proof.
  revert done.
  induction todo as [| call rest IH]; intros done self ck Hne Hf Hp Hst Hfe
                                             Hnd Hlen;
    [congruence|].
  assert (Hfresh : ~ In (stage_of call) (map stage_of done)).
  { rewrite map_app in Hnd. cbn [map] in Hnd.
    apply NoDup_remove_2 in Hnd. intros Hin. apply Hnd.
    apply in_or_app. now left. }
  destruct (conduct_interview_step Questions self candidate_id c ck sched
              done call Hf Hp Hsched Hfresh) as (ck' & Hf' & Hp' & Hstep).
  destruct call as [[now stage] feedback].
  cbn [fst snd stage_of feedback_of] in Hf', Hstep.
  destruct rest as [| call2 rest'].
  - (* the last call *)
    rewrite Hlen, Nat.eqb_refl in Hstep.
    destruct Hstep as (Hs' & fe & Hfe' & Hev).
    split.
    + intros k Hk. simpl in Hk.
      assert (k = 0)%nat by lia. subst k. cbn [firstn conduct_interviews].
      exists ck. auto.
    + exists ck', fe. cbn [conduct_interviews]. auto.
  - (* a call before the last *)
    assert (Hlt : (List.length (done ++ [(now, stage, feedback)])
                   =? List.length
        (InterviewCoordinator.is_interview_stages Questions sched))%nat = false).
    { apply Nat.eqb_neq. rewrite <- Hlen, !length_app. simpl. lia. }
    rewrite Hlt in Hstep. destruct Hstep as [Hs' Hfe'].
    destruct (IH (done ++ [(now, stage, feedback)])%list
                 (fst (conduct_interview now self candidate_id stage
                         feedback)) ck')
      as [Hprefix Hfinal]; auto; try congruence.
    + rewrite <- app_assoc. exact Hnd.
    + rewrite <- app_assoc. exact Hlen.
    + split.
      * intros k Hk. destruct k as [| k].
        -- cbn [firstn conduct_interviews]. exists ck. auto.
        -- cbn [firstn conduct_interviews]. apply Hprefix.
           simpl in Hk |- *. lia.
      * rewrite <- app_assoc in Hfinal. exact Hfinal.
Qed.

End InterviewRun.

Section InterviewCompletion.

Import RecruitmentOrchestrator.

Variable Questions : Type.

(** One call for each stage of a stage list planned by the coordinator,
    in any order, is a non-empty run of calls on pairwise different
    stages, as many as there are stages. *)
Lemma one_call_per_stage (sched : InterviewSchedule Questions)
      (position department priority : string)
      (calls : list (timestamp * string * string)) :
  InterviewCoordinator.is_interview_stages Questions sched
  = InterviewCoordinator._determine_interview_stages position department
      priority ->
  Permutation (map stage_of calls)
              (InterviewCoordinator.is_interview_stages Questions sched) ->
  calls <> []
  /\ NoDup (map stage_of calls)
  /\ List.length calls
     = List.length (InterviewCoordinator.is_interview_stages Questions sched).
Proof.
  intros Hstages Hperm.
  destruct (_determine_interview_stages_nodup position department priority)
    as [Hnd Hne].
  rewrite <- Hstages in Hnd, Hne.
  split; [|split].
  - intros E. subst calls. apply Hne.
    apply Permutation_nil in Hperm. exact Hperm.
  - apply (Permutation_NoDup (Permutation_sym Hperm) Hnd).
  - rewrite <- (Permutation_length Hperm). now rewrite length_map.
Qed.

(** C6, as amended.  Take a candidate that holds an interview schedule
    with stage list S, no interview recorded yet and a screening score in
    [0,100].  A run of [conduct_interview] calls on pairwise different
    stages, as many as S has stages (so: one call for each stage of S, in
    any order), leaves status and final evaluation untouched after every
    proper prefix of the run and, at its last call, sets the status to
    "all_interviews_completed" and attaches a final evaluation: the
    transition happens exactly once, when the number of completed stages
    reaches the number of required stages, whatever the stage names.  The
    final score is [overall * 0.6 + mean(min(100, 2 * words)) * 0.4]
    rounded to two decimals, and lies in [0,100]. *)
Theorem interviews_complete_once (self : State Questions)
        (candidate_id : string) (c : Candidate Questions)
        (sched : InterviewSchedule Questions) (r : ScreeningResult)
        (calls : list (timestamp * string * string)) :
  _find_candidate self candidate_id = Some c ->
  c_interview_schedule c = Some sched ->
  c_interview_status c = None ->
  c_screening_result c = Some r ->
  0 <= sr_overall_score r -> sr_overall_score r <= 100 ->
  calls <> [] ->
  NoDup (map stage_of calls) ->
  List.length calls
  = List.length (InterviewCoordinator.is_interview_stages Questions sched) ->
  let scores := map (fun call => interview_score (feedback_of call)) calls in
  (forall k, (k < List.length calls)%nat ->
     exists ck,
       _find_candidate (conduct_interviews self candidate_id
                          (firstn k calls)) candidate_id = Some ck
       /\ c_status ck = c_status c
       /\ c_final_evaluation ck = c_final_evaluation c)
  /\ exists cn fe,
      _find_candidate (conduct_interviews self candidate_id calls)
                      candidate_id = Some cn
      /\ c_status cn = "all_interviews_completed"
      /\ c_final_evaluation cn = Some fe
      /\ fe_interview_performance fe = scores
      /\ fe_final_score fe
         == Py.round2 (sr_overall_score r * (6 # 10)
                       + Py.sum scores / Py.len scores * (4 # 10))
      /\ 0 <= fe_final_score fe /\ fe_final_score fe <= 100.
Proof.
  intros Hf Hs Hfresh Hr R0 R1 Hcalls Hnd' Hlen scores.
  assert (Hp : progressed c c candidate_id []).
  { repeat split. unfold interview_status_of. now rewrite Hfresh. }
  destruct (conduct_interviews_run Questions candidate_id c sched Hs
              calls [] self c Hcalls Hf Hp eq_refl eq_refl Hnd' Hlen)
    as [Hprefix (cn & fe & Hfn & Hpn & Hsn & Hfen & Hev)].
  split; [exact Hprefix|].
  exists cn, fe. split; [exact Hfn|]. split; [exact Hsn|].
  split; [exact Hfen|].
  destruct (_evaluate_final_candidate_returns Questions cn)
    as (fe' & Hev' & Hperf & Hscore).
  rewrite Hev in Hev'. inversion Hev'; subst fe'; clear Hev'.
  destruct Hpn as (Hd & Hsr & _ & Hi).
  cbn [app] in Hi. rewrite Hi, completed_entries_status_entry in Hperf, Hscore.
  rewrite map_map in Hperf, Hscore.
  change (map (fun x => interview_score
                          (su_feedback (snd (status_entry candidate_id x))))
              calls) with scores in Hperf, Hscore.
  assert (Hov : screening_score cn = sr_overall_score r).
  { unfold screening_score. now rewrite Hsr, Hr. }
  rewrite Hov in Hscore.
  split; [exact Hperf|].
  assert (Hsc : exists x l, scores = x :: l).
  { subst scores. destruct calls as [| call rest]; [congruence|].
    simpl. eauto. }
  destruct Hsc as (x & l & Hsc). rewrite Hsc in Hscore. rewrite Hscore.
  split; [rewrite Hsc; reflexivity|].
  apply blend_bounds; auto;
    apply mean_bounds; intros y Hy; rewrite <- Hsc in Hy;
    subst scores; apply in_map_iff in Hy; destruct Hy as (call & E & _);
    subst y; apply interview_score_bounds.
Qed.

End InterviewCompletion.

(* ================================================================== *)
(** * The properties at the sample data *)
(* ================================================================== *)

(** The example scenario of the screening: Python and Git are found in
    the resume, SQL is not; five years against the 2-5 band. *)
Example screening_scenario :
  exists r,
    CandidateScreener.shipped_screen None Sample.no_prompt Sample.ann
      Sample.analyst_job = ScreeningCompleted r
    /\ sa_matched_skills (sr_skill_analysis r) = ["Python"; "Git"]
    /\ sa_missing_skills (sr_skill_analysis r) = ["SQL"]
    /\ sr_skill_match_score r == 6667 # 100
    /\ ea_required_years (sr_experience_analysis r) == 35 # 10
    /\ sr_experience_match_score r == 100
    /\ ea_assessment (sr_experience_analysis r) = "Well Qualified"
    /\ sr_overall_score r == 40
    /\ sr_recommendation r = "Not Recommended - Does Not Meet Requirements".
Proof. eexists. split; [vm_compute; reflexivity|]. repeat split. Qed.

(** With an empty resume the screening ends in its error result. *)
Example screening_of_empty_resume :
  CandidateScreener.shipped_screen None Sample.no_prompt
    {| cd_candidate_id := "candidate_2";
       cd_candidate_name := "Bob";
       cd_position := "Data Analyst";
       cd_experience_years := 2;
       cd_resume_text := EmptyString;
       cd_cover_letter := "Not provided" |}
    Sample.analyst_job
  = ScreeningError "candidate_2" "'match_percentage'".
Proof. reflexivity. Qed.

Example split_words :
  Py.split "  machine   learning " = ["machine"; "learning"].
Proof. reflexivity. Qed.

Example format_one_decimal :
  Py.format_f1 (200 / 3) = "66.7" /\ Py.format_f1 (- (4 # 100)) = "-0.0".
Proof. split; reflexivity. Qed.

(** C6, as stated, fails on the score: after the three interviews of Ann
    the attached final score is 55.07, not the blend
    [90 * 0.6 + (2 + 2 + 4) / 3 * 0.4]. *)
Lemma final_score_is_rounded :
  exists cn fe,
    RecruitmentOrchestrator._find_candidate
      (RecruitmentOrchestrator.conduct_interviews Sample.office_scheduled
         "candidate_1" Sample.three_calls) "candidate_1" = Some cn
    /\ RecruitmentOrchestrator.c_status cn = "all_interviews_completed"
    /\ RecruitmentOrchestrator.c_final_evaluation cn = Some fe
    /\ RecruitmentOrchestrator.fe_interview_performance fe = [2; 2; 4]
    /\ RecruitmentOrchestrator.fe_final_score fe == 5507 # 100
    /\ ~ RecruitmentOrchestrator.fe_final_score fe
         == 90 * (6 # 10) + (2 + 2 + 4) / 3 * (4 # 10).
Proof.
  do 2 eexists. split; [vm_compute; reflexivity|].
  split; [reflexivity|]. split; [reflexivity|].
  split; [reflexivity|]. split; [reflexivity|].
  intros H. vm_compute in H. discriminate.
Qed.

Lemma skill_analysis_partition_witness :
  job_required_skills Sample.analyst_job <> []
  /\ exists sa,
      CandidateScreener._analyze_skill_match
        (cd_resume_text Sample.ann) (job_required_skills Sample.analyst_job)
      = Py.Return sa
      /\ Permutation (sa_matched_skills sa ++ sa_missing_skills sa)
                     ["Python"; "SQL"; "Git"].
Proof.
  assert (H : job_required_skills Sample.analyst_job <> [])
    by discriminate.
  split; [exact H|].
  destruct (skill_analysis_partition Config.EVALUATION_CRITERIA None
              Sample.no_prompt Sample.ann Sample.analyst_job H)
    as (sa & R & P & _).
  exists sa. split; [exact R | exact P].
Defined.


Lemma shipped_weights_reject_all_witness :
  exists self' message r,
    RecruitmentOrchestrator.process_candidate_application
      (CandidateScreener.shipped_screen None Sample.no_prompt)
      Sample.no_questions 0%Z Sample.office Sample.ann "data analyst"
    = (self', RecruitmentOrchestrator.ApplicationSuccess message r None)
    /\ sr_overall_score r <= 65.
Proof.
  destruct (RecruitmentOrchestrator.process_candidate_application
              (CandidateScreener.shipped_screen None Sample.no_prompt)
              Sample.no_questions 0%Z Sample.office Sample.ann
              "data analyst") as [self' resp] eqn:E.
  destruct resp as [msg | cid msg | message r schedule];
    [vm_compute in E; discriminate E | vm_compute in E; discriminate E |].
  destruct (shipped_weights_reject_all None Sample.no_prompt unit
              Sample.no_questions 0%Z Sample.office Sample.ann
              "data analyst") as [Hscore Hstore].
  destruct (Hstore self' message r schedule E) as [Hnone _].
  subst schedule.
  exists self', message, r. split; [reflexivity|].
  assert (S : CandidateScreener.shipped_screen None Sample.no_prompt
                Sample.ann Sample.analyst_job = ScreeningCompleted r).
  { vm_compute in E. injection E as _ _ Er. rewrite <- Er.
    vm_compute. reflexivity. }
  exact (proj1 (Hscore Sample.analyst_job r S)).
Defined.

Lemma schedule_iff_prefix_witness :
  exists c message schedule,
    RecruitmentOrchestrator.process_candidate_application
      Sample.keen_screen Sample.no_questions 0%Z Sample.office Sample.ann
      "Office Clerk"
    = (RecruitmentOrchestrator.set_candidates Sample.office
         (RecruitmentOrchestrator.candidates Sample.office ++ [c])%list,
       RecruitmentOrchestrator.ApplicationSuccess message Sample.keen_result
         schedule)
    /\ RecruitmentOrchestrator.c_interview_schedule c = schedule.
Proof.
  destruct (schedule_iff_prefix Sample.keen_screen unit Sample.no_questions
              0%Z Sample.office Sample.ann "Office Clerk" Sample.clerk_job
              Sample.keen_result eq_refl eq_refl)
    as (c & message & schedule & E & S & _).
  exists c, message, schedule. split; [exact E | exact S].
Defined.

Lemma interviews_complete_once_witness :
  exists cn fe,
    RecruitmentOrchestrator._find_candidate
      (RecruitmentOrchestrator.conduct_interviews Sample.office_scheduled
         "candidate_1" Sample.three_calls) "candidate_1" = Some cn
    /\ RecruitmentOrchestrator.c_status cn = "all_interviews_completed"
    /\ RecruitmentOrchestrator.c_final_evaluation cn = Some fe
    /\ 0 <= RecruitmentOrchestrator.fe_final_score fe
    /\ RecruitmentOrchestrator.fe_final_score fe <= 100.
Proof.
  assert (P : Permutation
                (map RecruitmentOrchestrator.stage_of Sample.three_calls)
                (InterviewCoordinator.is_interview_stages unit
                   Sample.ann_schedule)) by apply Permutation_refl.
  destruct (one_call_per_stage unit Sample.ann_schedule "Office Clerk"
              "Operations" "Normal" Sample.three_calls eq_refl P)
    as (Hne & Hnd & Hlen).
  assert (B0 : 0 <= sr_overall_score Sample.keen_result) by discriminate.
  assert (B1 : sr_overall_score Sample.keen_result <= 100) by discriminate.
  destruct (interviews_complete_once unit Sample.office_scheduled
              "candidate_1" Sample.ann_scheduled Sample.ann_schedule
              Sample.keen_result Sample.three_calls eq_refl eq_refl eq_refl
              eq_refl B0 B1 Hne Hnd Hlen)
    as [_ (cn & fe & F & S & E & _ & _ & L & U)].
  exists cn, fe. auto.
Defined.

Lemma status_transitions_witness :
  exists c',
    RecruitmentOrchestrator._find_candidate
      (fst (RecruitmentOrchestrator.make_final_selection 1%Z
              Sample.office_scheduled "candidate_1" "not_hired" EmptyString))
      "candidate_1" = Some c'
    /\ RecruitmentOrchestrator.c_status c' = "not_hired".
Proof.
  destruct (status_transitions unit 1%Z Sample.office_scheduled
              "candidate_1" Sample.ann_scheduled eq_refl) as [H _].
  exact (H "not_hired" EmptyString).
Defined.

Lemma conduct_interview_unknown_witness :
  RecruitmentOrchestrator.conduct_interview 1%Z Sample.office "candidate_9"
    "HR Interview" "Good"
  = (Sample.office,
     RecruitmentOrchestrator.InterviewError
       "Candidate with ID candidate_9 not found").
Proof.
  apply (conduct_interview_unknown unit 1%Z Sample.office "candidate_9"
           "HR Interview" "Good").
  intros c [].
Defined.

Lemma summary_of_no_candidates_witness :
  RecruitmentOrchestrator._calculate_interview_completion_rate Sample.office
  = Py.Return 0
  /\ RecruitmentOrchestrator._calculate_hiring_success_rate Sample.office
     = Py.Return 0
  /\ RecruitmentOrchestrator._calculate_average_time_to_hire Sample.office
     = Py.Return "N/A".
Proof. apply (summary_of_no_candidates unit Sample.office). reflexivity. Defined.

(* ================================================================== *)
(** * More of the screening engine *)
(* ================================================================== *)

Section ScreeningOutcome.

Import CandidateScreener.

Variable criteria : Config.EvaluationCriteria.
Variable client : option (string -> Py.Exc string).
Variable feedback_prompt :
  CandidateData -> JobRequirements -> string -> string -> string ->
  list string -> list string -> string.



End ScreeningOutcome.


Section RecommendationGate.

Import CandidateScreener.
Import RecruitmentOrchestrator.

(** X3. The recommendation of an overall score passes the prefix test of
    [process_candidate_application] exactly when the score is at least
    70. *)
Theorem recommendation_passes_iff (overall_score : Q) :
  passes_screening (_determine_recommendation overall_score) = true
  <-> 70 <= overall_score.
Proof.
  unfold _determine_recommendation.
  destruct (ge_spec overall_score 85) as [[E1 H1] | [E1 H1]]; rewrite E1.
  - split; [intros _; lra | reflexivity].
  - destruct (ge_spec overall_score 70) as [[E2 H2] | [E2 H2]]; rewrite E2.
    + split; [intros _; lra | reflexivity].
    + destruct (Py.ge overall_score 55);
        (split; [discriminate | intros H; exfalso; lra]).
Qed.

End RecommendationGate.

Section CulturalFit.

Import CandidateScreener.

Lemma round2_Z (n : Z) : Py.round2 (inject_Z n) == inject_Z n.
Proof.
  unfold Py.round2.
  rewrite (round_half_even_comp (inject_Z n * 100) (inject_Z (n * 100))).
  - rewrite round_half_even_Z, inject_Z_mult. field.
  - rewrite inject_Z_mult. reflexivity.
Qed.

(** A category scores 20 points for each keyword found, five keywords at
    most. *)
Lemma category_score_steps (combined_text : string)
      (keywords : list string) :
  exists j : Z,
    (0 <= j)%Z /\ (j <= 5)%Z /\ (j <= Z.of_nat (List.length keywords))%Z
    /\ category_score combined_text keywords == inject_Z (20 * j).
Proof.
  unfold category_score, keyword_count, Py.len.
  set (found := filter (fun keyword => Py.contains keyword combined_text)
                       keywords).
  assert (Hle : (List.length found <= List.length keywords)%nat)
    by apply filter_length_le.
  set (m := Z.of_nat (List.length found)).
  assert (Hm : (0 <= m)%Z) by lia.
  destruct (min_spec 100 (inject_Z m * 20)) as [[A M] | [A M]]; rewrite M.
  - assert (H : (100 <= m * 20)%Z).
    { rewrite Zle_Qle, inject_Z_mult. exact A. }
    exists 5%Z.
    split; [lia|]. split; [lia|]. split; [lia|]. reflexivity.
  - assert (H : (m * 20 < 100)%Z).
    { rewrite Zlt_Qlt, inject_Z_mult. exact A. }
    exists m.
    split; [lia|]. split; [lia|]. split; [lia|].
    rewrite inject_Z_mult. change (inject_Z 20) with 20. ring.
Qed.

Lemma dict_value_unique {V : Type} (d : Py.dict V) (k : string) (v v' : V) :
  NoDup (Py.keys d) -> In (k, v) d -> In (k, v') d -> v = v'.
Proof.
  induction d as [| [k0 v0] d IH]; intros Hnd H1 H2; [destruct H1|].
  simpl in Hnd. inversion Hnd as [| ? ? Hnot Hnd']; subst.
  destruct H1 as [H1 | H1]; destruct H2 as [H2 | H2].
  - congruence.
  - inversion H1; subst. exfalso. apply Hnot.
    apply in_map_iff. now exists (k, v').
  - inversion H2; subst. exfalso. apply Hnot.
    apply in_map_iff. now exists (k, v).
  - now apply IH.
Qed.

Lemma filter_keys_disjoint {V : Type} (d : Py.dict V)
      (p q : string * V -> bool) (k : string) :
  NoDup (Py.keys d) ->
  (forall kv, p kv = true -> q kv = true -> False) ->
  In k (Py.keys (filter p d)) -> ~ In k (Py.keys (filter q d)).
Proof.
  intros Hnd Hpq Hp Hq.
  apply in_map_iff in Hp. destruct Hp as ([k1 v1] & E1 & I1).
  apply in_map_iff in Hq. destruct Hq as ([k2 v2] & E2 & I2).
  simpl in E1, E2. subst k1 k2.
  apply filter_In in I1. destruct I1 as [I1 P1].
  apply filter_In in I2. destruct I2 as [I2 P2].
  pose proof (dict_value_unique d k v1 v2 Hnd I1 I2). subst v2.
  exact (Hpq _ P1 P2).
Qed.

Lemma filter_keys_incl {V : Type} (d : Py.dict V) (p : string * V -> bool) :
  incl (Py.keys (filter p d)) (Py.keys d).
Proof.
  intros k H. apply in_map_iff in H. destruct H as (kv & E & I).
  apply filter_In in I. apply in_map_iff. exists kv. tauto.
Qed.

(** The cultural-fit score is at most 92. *)
Lemma cultural_fit_at_most_92 (cover_letter resume_text department : string) :
  exists cf,
    _assess_cultural_fit cover_letter resume_text department = Py.Return cf
    /\ 0 <= cf_score cf /\ cf_score cf <= 92.
Proof.
  unfold _assess_cultural_fit. cbv zeta.
  set (text := Py.lower (cover_letter ++ " " ++ resume_text)).
  unfold cultural_indicators.
  cbn [map fst snd Py.values Py.sum fold_right].
  set (k1 := ["team"; "collaboration"; "cooperation"; "partnership"]).
  set (k2 := ["lead"; "manage"; "supervise"; "mentor"; "guide"]).
  set (k3 := ["innovate"; "creative"; "problem-solving"; "improve"]).
  set (k4 := ["communicate"; "present"; "write"; "speak"; "explain"]).
  set (k5 := ["adapt"; "flexible"; "change"; "learn"; "grow"]).
  destruct (category_score_steps text k1) as (j1 & L1 & _ & U1 & E1).
  destruct (category_score_steps text k2) as (j2 & L2 & U2 & _ & E2).
  destruct (category_score_steps text k3) as (j3 & L3 & _ & U3 & E3).
  destruct (category_score_steps text k4) as (j4 & L4 & U4 & _ & E4).
  destruct (category_score_steps text k5) as (j5 & L5 & U5 & _ & E5).
  simpl in U1, U3.
  set (c1 := category_score text k1) in *.
  set (c2 := category_score text k2) in *.
  set (c3 := category_score text k3) in *.
  set (c4 := category_score text k4) in *.
  set (c5 := category_score text k5) in *.
  clearbody c1 c2 c3 c4 c5.
  change (Py.len [("teamwork", c1); ("leadership", c2); ("innovation", c3);
                  ("communication", c4); ("adaptability", c5)]) with 5.
  rewrite truediv_nonzero by discriminate.
  cbn [Py.bind]. eexists. split; [reflexivity|]. cbn [cf_score].
  assert (B1 : 0 <= c1 /\ c1 <= 80).
  { rewrite E1. change 0 with (inject_Z 0). change 80 with (inject_Z 80).
    rewrite <- !Zle_Qle. lia. }
  assert (B3 : 0 <= c3 /\ c3 <= 80).
  { rewrite E3. change 0 with (inject_Z 0). change 80 with (inject_Z 80).
    rewrite <- !Zle_Qle. lia. }
  assert (B2 : 0 <= c2 /\ c2 <= 100).
  { rewrite E2. change 0 with (inject_Z 0). change 100 with (inject_Z 100).
    rewrite <- !Zle_Qle. lia. }
  assert (B4 : 0 <= c4 /\ c4 <= 100).
  { rewrite E4. change 0 with (inject_Z 0). change 100 with (inject_Z 100).
    rewrite <- !Zle_Qle. lia. }
  assert (B5 : 0 <= c5 /\ c5 <= 100).
  { rewrite E5. change 0 with (inject_Z 0). change 100 with (inject_Z 100).
    rewrite <- !Zle_Qle. lia. }
  clear E1 E2 E3 E4 E5.
  apply (round2_bounds _ 0 92).
  - change (inject_Z 0) with 0.
    apply Qle_shift_div_l; [reflexivity|]. lra.
  - change (inject_Z 92) with 92.
    apply Qle_shift_div_r; [reflexivity|]. lra.
Qed.

(** X4. [_assess_cultural_fit] never raises.  Its score is a multiple of 4
    between 0 and 92: two of the five categories have four keywords only,
    so 100 is out of reach.  Strengths and areas for growth are taken
    from the five categories and share none. *)
Theorem cultural_fit_score_steps (cover_letter resume_text department : string) :
  exists cf (n : Z),
    _assess_cultural_fit cover_letter resume_text department = Py.Return cf
    /\ (0 <= n)%Z /\ (n <= 23)%Z
    /\ cf_score cf == inject_Z (4 * n)
    /\ cf_score cf <= 92
    /\ Py.keys (cf_category_scores cf)
       = ["teamwork"; "leadership"; "innovation"; "communication";
          "adaptability"]
    /\ incl (cf_strengths cf) (Py.keys (cf_category_scores cf))
    /\ incl (cf_areas_for_growth cf) (Py.keys (cf_category_scores cf))
    /\ (forall category,
          In category (cf_strengths cf) ->
          ~ In category (cf_areas_for_growth cf)).
Proof.
  unfold _assess_cultural_fit. cbv zeta.
  set (text := Py.lower (cover_letter ++ " " ++ resume_text)).
  unfold cultural_indicators.
  cbn [map fst snd Py.values Py.sum fold_right].
  set (k1 := ["team"; "collaboration"; "cooperation"; "partnership"]).
  set (k2 := ["lead"; "manage"; "supervise"; "mentor"; "guide"]).
  set (k3 := ["innovate"; "creative"; "problem-solving"; "improve"]).
  set (k4 := ["communicate"; "present"; "write"; "speak"; "explain"]).
  set (k5 := ["adapt"; "flexible"; "change"; "learn"; "grow"]).
  destruct (category_score_steps text k1) as (j1 & L1 & _ & U1 & E1).
  destruct (category_score_steps text k2) as (j2 & L2 & U2 & _ & E2).
  destruct (category_score_steps text k3) as (j3 & L3 & _ & U3 & E3).
  destruct (category_score_steps text k4) as (j4 & L4 & U4 & _ & E4).
  destruct (category_score_steps text k5) as (j5 & L5 & U5 & _ & E5).
  simpl in U1, U3.
  set (c1 := category_score text k1) in *.
  set (c2 := category_score text k2) in *.
  set (c3 := category_score text k3) in *.
  set (c4 := category_score text k4) in *.
  set (c5 := category_score text k5) in *.
  clearbody c1 c2 c3 c4 c5.
  set (scores := [("teamwork", c1); ("leadership", c2); ("innovation", c3);
                  ("communication", c4); ("adaptability", c5)]).
  change (Py.len scores) with 5.
  rewrite truediv_nonzero by discriminate.
  cbn [Py.bind].
  eexists. exists (j1 + j2 + j3 + j4 + j5)%Z.
  split; [reflexivity|].
  cbn [cf_score cf_category_scores cf_strengths cf_areas_for_growth].
  assert (Hscore : Py.round2 ((c1 + (c2 + (c3 + (c4 + (c5 + 0))))) / 5)
                   == inject_Z (4 * (j1 + j2 + j3 + j4 + j5))).
  { rewrite <- round2_Z. apply round2_comp.
    rewrite E1, E2, E3, E4, E5.
    rewrite !inject_Z_mult, !inject_Z_plus.
    change (inject_Z 20) with 20. change (inject_Z 4) with 4. field. }
  assert (Hnd : NoDup (Py.keys scores)).
  { subst scores. cbn [Py.keys map fst].
    repeat (constructor; [simpl; intuition discriminate|]). constructor. }
  split; [lia|]. split; [lia|]. split; [exact Hscore|].
  split.
  { rewrite Hscore. change 92 with (inject_Z 92). rewrite <- Zle_Qle. lia. }
  split; [reflexivity|].
  split; [apply filter_keys_incl|].
  split; [apply filter_keys_incl|].
  intros category. apply filter_keys_disjoint; [exact Hnd|].
  intros [k v] Hp Hq. cbn [snd] in Hp, Hq.
  apply ge_true in Hp. apply negb_true_iff in Hq. apply ge_false in Hq.
  lra.
Qed.


End CulturalFit.

(* ================================================================== *)
(** * Sorting by score *)
(* ================================================================== *)

Section SortDesc.

Context {A : Type}.
Variable key : A -> Q.

Lemma insert_desc_perm (x : A) (l : list A) :
  Permutation (Py.insert_desc key x l) (x :: l).
Proof.
  induction l as [| y l IH]; simpl; [reflexivity|].
  destruct (Qle_bool (key y) (key x)); [reflexivity|].
  rewrite IH. apply perm_swap.
Qed.

Lemma sort_desc_perm (l : list A) : Permutation (Py.sort_desc key l) l.
Proof.
  induction l as [| x l IH]; simpl; [reflexivity|].
  rewrite insert_desc_perm. now constructor.
Qed.

Lemma insert_desc_hd (x y : A) (l : list A) :
  key x <= key y -> HdRel (Py.desc key) y l -> HdRel (Py.desc key) y (Py.insert_desc key x l).
Proof.
  intros Hxy Hl. destruct l as [| z l]; simpl.
  - now constructor.
  - destruct (Qle_bool (key z) (key x)); constructor; auto.
    now inversion Hl.
Qed.

Lemma insert_desc_sorted (x : A) (l : list A) :
  Sorted (Py.desc key) l -> Sorted (Py.desc key) (Py.insert_desc key x l).
Proof.
  induction l as [| y l IH]; intros Hs; simpl.
  - repeat constructor.
  - inversion Hs as [| ? ? Hs' Hhd]; subst.
    destruct (Qle_bool (key y) (key x)) eqn:E.
    + apply Qle_bool_iff in E. constructor; [exact Hs|].
      constructor. exact E.
    + constructor; [now apply IH|].
      apply insert_desc_hd; [|exact Hhd].
      apply Qlt_le_weak, Qnot_le_lt. intros L.
      apply Qle_bool_iff in L. congruence.
Qed.

Lemma sort_desc_sorted (l : list A) :
  StronglySorted (Py.desc key) (Py.sort_desc key l).
Proof.
  apply Sorted_StronglySorted.
  - intros a b c Hab Hbc. unfold Py.desc in *. eapply Qle_trans; eauto.
  - induction l as [| x l IH]; simpl; [constructor|].
    now apply insert_desc_sorted.
Qed.

(** The elements of one key keep their order. *)
Lemma insert_desc_stable (q : Q) (x : A) (l : list A) :
  filter (fun y => Qeq_bool (key y) q) (Py.insert_desc key x l)
  = filter (fun y => Qeq_bool (key y) q) (x :: l).
Proof.
  induction l as [| y l IH]; [reflexivity|].
  cbn [Py.insert_desc].
  destruct (Qle_bool (key y) (key x)) eqn:E; [reflexivity|].
  cbn [filter] in *. rewrite IH.
  destruct (Qeq_bool (key x) q) eqn:Ex; [|reflexivity].
  destruct (Qeq_bool (key y) q) eqn:Ey; [|reflexivity].
  exfalso. apply Qeq_bool_iff in Ex, Ey.
  assert (L : Qle_bool (key y) (key x) = true).
  { apply Qle_bool_iff. rewrite Ex, Ey. apply Qle_refl. }
  congruence.
Qed.

Lemma sort_desc_stable (q : Q) (l : list A) :
  filter (fun y => Qeq_bool (key y) q) (Py.sort_desc key l)
  = filter (fun y => Qeq_bool (key y) q) l.
Proof.
  induction l as [| x l IH]; [reflexivity|].
  cbn [Py.sort_desc fold_right]. fold (Py.sort_desc key l).
  rewrite insert_desc_stable. cbn [filter]. now rewrite IH.
Qed.

(** The first [n] elements of a sorted list dominate the others. *)
Lemma sorted_firstn_dominates (n : nat) (l : list A) :
  StronglySorted (Py.desc key) l ->
  forall a b, In a (firstn n l) -> In b (skipn n l) -> key b <= key a.
Proof.
  revert l. induction n as [| n IH]; intros l Hs a b Ha Hb.
  - destruct Ha.
  - destruct l as [| x l]; [destruct Ha|].
    inversion Hs as [| ? ? Hs' Hall]; subst.
    cbn [firstn skipn] in Ha, Hb. destruct Ha as [Ha | Ha].
    + subst a. rewrite Forall_forall in Hall. apply Hall.
      rewrite <- (firstn_skipn n l). apply in_or_app. now right.
    + now apply (IH l).
Qed.

End SortDesc.

Section BatchScreening.

Import CandidateScreener.

Variable criteria : Config.EvaluationCriteria.
Variable client : option (string -> Py.Exc string).
Variable feedback_prompt :
  CandidateData -> JobRequirements -> string -> string -> string ->
  list string -> list string -> string.

(** X6. [batch_screen_candidates] returns one result for each candidate,
    failed screenings included: the results are the individual screenings
    in another order, descending by overall score with a failed screening
    counted as 0, and results of equal score in the order of the
    candidates. *)
Theorem batch_screening_sorted (candidates : list CandidateData)
        (job_requirements : JobRequirements) :
  let screenings :=
    map (fun candidate =>
           screen_candidate criteria client feedback_prompt candidate
             job_requirements) candidates in
  let results :=
    batch_screen_candidates criteria client feedback_prompt candidates
      job_requirements in
  Permutation results screenings
  /\ List.length results = List.length candidates
  /\ StronglySorted (fun a b => sort_key b <= sort_key a) results
  /\ (forall q,
        filter (fun x => Qeq_bool (sort_key x) q) results
        = filter (fun x => Qeq_bool (sort_key x) q) screenings).
Proof.
  intros screenings results. subst results. unfold batch_screen_candidates.
  fold screenings.
  split; [apply sort_desc_perm|].
  split.
  { rewrite (Permutation_length (sort_desc_perm sort_key screenings)).
    subst screenings. apply length_map. }
  split; [apply sort_desc_sorted|].
  intros q. apply sort_desc_stable.
Qed.

End BatchScreening.

(* ================================================================== *)
(** * The interview plan *)
(* ================================================================== *)

Section InterviewPlan.

Import InterviewCoordinator.

Lemma technical_position_plain (position : string) :
  existsb (String.eqb position) technical_positions = true ->
  Py.contains "Senior" position || Py.contains "Manager" position = false.
Proof.
  unfold technical_positions. cbn [existsb].
  repeat match goal with
         | |- context [String.eqb position ?x] =>
             destruct (String.eqb_spec position x) as [E | _];
             [subst position; intros _; reflexivity | cbn [orb]]
         end.
  discriminate.
Qed.

(** X7. The stages that the coordinator plans are the stage names of the
    configuration that it selects, in the order of the configuration and
    without repetition: always "Initial Screening" first, "HR Interview"
    and "Reference Check" last, between three and five stages.  The
    "Technical Assessment" is planned exactly for the positions of the
    technical list, and all five stages are planned only for such a
    position at priority "High", as no technical position is senior or
    managing. *)
Theorem interview_stages_structure (position department priority : string) :
  let stages := _determine_interview_stages position department priority in
  stages
  = filter (fun stage => existsb (String.eqb stage) stages)
           Config.INTERVIEW_STAGES
  /\ hd_error stages = Some "Initial Screening"
  /\ last stages EmptyString = "Reference Check"
  /\ In "HR Interview" stages
  /\ (3 <= List.length stages <= 5)%nat
  /\ (In "Technical Assessment" stages
      <-> In position technical_positions)
  /\ (In "Final Round" stages
      <-> Py.contains "Senior" position || Py.contains "Manager" position
          || String.eqb priority "High" = true)
  /\ (List.length stages = 5%nat ->
      priority = "High" /\ In position technical_positions).
Proof.
  intros stages. subst stages. unfold _determine_interview_stages.
  destruct (existsb (String.eqb position) technical_positions) eqn:T.
  - pose proof (technical_position_plain position T) as Hplain.
    rewrite Hplain. cbn [orb].
    assert (HT : In position technical_positions).
    { apply existsb_exists in T. destruct T as (x & Hin & E).
      apply String.eqb_eq in E. now subst x. }
    destruct (String.eqb_spec priority "High") as [P | P]; cbn [app];
      repeat split; auto; try (simpl; tauto); try (simpl; lia);
      try discriminate; try (simpl; intuition discriminate).
  - assert (HT : ~ In position technical_positions).
    { intros Hin.
      assert (E : existsb (String.eqb position) technical_positions = true).
      { apply existsb_exists. exists position.
        split; [exact Hin | apply String.eqb_refl]. }
      congruence. }
    destruct (Py.contains "Senior" position || Py.contains "Manager" position
              || String.eqb priority "High") eqn:F; cbn [app];
      repeat split; auto; try (simpl; tauto); try (simpl; lia);
      try discriminate; try (intros; contradiction);
      try (simpl; intuition discriminate).
Qed.

End InterviewPlan.

Section DictionaryLaws.

Context {V : Type}.

Lemma get_set_same (d : Py.dict V) (k : string) (v : V) :
  Py.get (Py.set d k v) k = Some v.
Proof.
  induction d as [| [k' v'] d IH]; simpl.
  - now rewrite String.eqb_refl.
  - destruct (String.eqb k' k) eqn:E; simpl; rewrite E; auto.
Qed.

Lemma get_set_other (d : Py.dict V) (k k' : string) (v : V) :
  k' <> k -> Py.get (Py.set d k v) k' = Py.get d k'.
Proof.
  intros N. induction d as [| [k0 v0] d IH]; simpl.
  - destruct (String.eqb_spec k k'); [congruence | reflexivity].
  - destruct (String.eqb_spec k0 k) as [E | E]; simpl.
    + subst k0. destruct (String.eqb_spec k k'); [congruence | reflexivity].
    + destruct (String.eqb k0 k'); auto.
Qed.

Lemma keys_set (d : Py.dict V) (k : string) (v : V) :
  Py.keys (Py.set d k v)
  = if existsb (String.eqb k) (Py.keys d) then Py.keys d
    else (Py.keys d ++ [k])%list.
Proof.
  induction d as [| [k' v'] d IH]; simpl; [reflexivity|].
  rewrite (String.eqb_sym k k').
  destruct (String.eqb_spec k' k) as [E | E]; simpl.
  - now subst k'.
  - rewrite IH. destruct (existsb (String.eqb k) (Py.keys d)); reflexivity.
Qed.

Lemma get_none_iff (d : Py.dict V) (k : string) :
  Py.get d k = None <-> ~ In k (Py.keys d).
Proof.
  induction d as [| [k' v'] d IH]; simpl; [tauto|].
  destruct (String.eqb_spec k' k) as [E | E].
  - split; [discriminate | intros H; exfalso; apply H; now left].
  - rewrite IH. split; [intros H [F | F]; auto | tauto].
Qed.

End DictionaryLaws.

Section Schedule.

Import InterviewCoordinator.

Lemma day_offset (now k : Z) : ((now + k * DAY) / DAY = now / DAY + k)%Z.
Proof. apply Z.div_add. discriminate. Qed.

Lemma fold_left_durations (l : list StageInfo) (total : Q) :
  fold_left (fun total stage_info => total + si_duration_minutes stage_info)
            l total
  == total + Py.sum (map si_duration_minutes l).
Proof.
  revert total. induction l as [| x l IH]; intros total; simpl.
  - ring.
  - rewrite IH. fold (Py.sum (map si_duration_minutes l)). ring.
Qed.

(** The loop of [_generate_schedule] on stages that are new to the
    schedule and all different. *)
Lemma schedule_loop_spec (now days_between : Z) (stages : list string) :
  forall (i : Z) (schedule : Py.dict StageInfo),
    NoDup stages ->
    (forall s, In s stages -> ~ In s (Py.keys schedule)) ->
    let result := schedule_loop now days_between i stages schedule in
    Py.keys result = (Py.keys schedule ++ stages)%list
    /\ map si_duration_minutes (Py.values result)
       = (map si_duration_minutes (Py.values schedule)
          ++ map _get_stage_duration stages)%list
    /\ (forall s, In s (Py.keys schedule) ->
                  Py.get result s = Py.get schedule s)
    /\ (forall k stage,
          nth_error stages k = Some stage ->
          exists info,
            Py.get result stage = Some info
            /\ si_date info
               = (now / DAY + 2 + (i + Z.of_nat k) * days_between)%Z
            /\ si_duration_minutes info = _get_stage_duration stage
            /\ si_type info = _get_interview_type stage
            /\ si_participants info = _get_stage_participants stage).
Proof.
  induction stages as [| stage rest IH]; intros i schedule Hnd Hfresh result.
  - subst result. simpl. rewrite !app_nil_r.
    repeat split; auto. intros [| k] stage H; discriminate.
  - inversion Hnd as [| ? ? Hnotin Hnd']; subst.
    assert (Hstage : ~ In stage (Py.keys schedule))
      by (apply Hfresh; now left).
    subst result. cbn [schedule_loop].
    set (info0 := {| si_date := _; si_duration_minutes := _;
                     si_type := _; si_participants := _ |}).
    rewrite (set_fresh schedule stage info0 Hstage).
    assert (Hfresh' : forall s, In s rest ->
                      ~ In s (Py.keys (schedule ++ [(stage, info0)])%list)).
    { intros s Hs Hin. unfold Py.keys in Hin. rewrite map_app in Hin.
      apply in_app_or in Hin. destruct Hin as [Hin | [E | []]].
      - apply (Hfresh s); [now right | exact Hin].
      - simpl in E. subst s. contradiction. }
    destruct (IH (i + 1)%Z (schedule ++ [(stage, info0)])%list Hnd' Hfresh')
      as (Hk & Hd & Hold & Hnew).
    split; [|split; [|split]].
    + rewrite Hk. unfold Py.keys. rewrite map_app, <- app_assoc.
      reflexivity.
    + rewrite Hd. unfold Py.values. rewrite !map_app, <- app_assoc.
      reflexivity.
    + intros s Hs. rewrite Hold.
      * rewrite <- (set_fresh schedule stage info0 Hstage).
        apply get_set_other. intros E. subst s. contradiction.
      * unfold Py.keys. rewrite map_app. apply in_or_app. now left.
    + intros [| k] st Hnth.
      * cbn [nth_error] in Hnth. inversion Hnth; subst st.
        exists info0. split.
        -- rewrite Hold.
           ++ rewrite <- (set_fresh schedule stage info0 Hstage).
              apply get_set_same.
           ++ unfold Py.keys. rewrite map_app. apply in_or_app.
              right. now left.
        -- subst info0. cbn [si_date si_duration_minutes si_type
                               si_participants].
           repeat split.
           destruct (Z.eqb_spec i 0) as [E | E].
           ++ subst i. rewrite day_offset. simpl Z.of_nat. ring.
           ++ rewrite day_offset. simpl Z.of_nat. ring.
      * cbn [nth_error] in Hnth.
        destruct (Hnew k st Hnth) as (info & G & D & R).
        exists info. split; [exact G|]. split; [|exact R].
        rewrite D. rewrite Nat2Z.inj_succ. ring.
Qed.

Lemma questions_loop_keys {Q' : Type} (f : string -> Q')
      (stages : list string) :
  forall acc : Py.dict Q',
    NoDup stages ->
    (forall s, In s stages -> ~ In s (Py.keys acc)) ->
    Py.keys (fold_left (fun acc stage => Py.set acc stage (f stage))
                       stages acc)
    = (Py.keys acc ++ stages)%list.
Proof.
  induction stages as [| stage rest IH]; intros acc Hnd Hfresh.
  - simpl. now rewrite app_nil_r.
  - inversion Hnd as [| ? ? Hnotin Hnd']; subst.
    cbn [fold_left]. rewrite IH; auto.
    + rewrite set_fresh by (apply Hfresh; now left).
      unfold Py.keys. rewrite map_app, <- app_assoc. reflexivity.
    + intros s Hs Hin.
      rewrite set_fresh in Hin by (apply Hfresh; now left).
      unfold Py.keys in Hin. rewrite map_app in Hin.
      apply in_app_or in Hin. destruct Hin as [Hin | [E | []]].
      * apply (Hfresh s); [now right | exact Hin].
      * simpl in E. subst s. contradiction.
Qed.

Lemma planned_durations (position department priority : string) :
  let total :=
    Py.sum (map _get_stage_duration
                (_determine_interview_stages position department priority)) in
  95 <= total /\ total <= 245.
Proof.
  unfold _determine_interview_stages.
  destruct (existsb (String.eqb position) technical_positions);
    destruct (Py.contains "Senior" position || Py.contains "Manager" position
              || String.eqb priority "High");
    vm_compute; split; discriminate.
Qed.

End Schedule.

Section SchedulePlan.

Import InterviewCoordinator.

Variable Questions : Type.
Variable _generate_interview_questions :
  string -> string -> string -> Questions.

(** X8. The schedule that [create_interview_schedule] builds has one
    entry and one question set for each planned stage, in the order of the
    stages.  The stage at index k is dated 2 + k * days_between days after
    the day of the call, where days_between is 1, 2 or 3 for priority
    "High", "Medium" or any other.  The total duration is the sum of the
    durations of the stages, between 95 and 245 minutes. *)
Theorem interview_schedule_plan (now : timestamp)
        (candidate_data : CandidateData)
        (job_requirements : JobRequirements) :
  let s :=
    create_interview_schedule Questions _generate_interview_questions now
      candidate_data job_requirements in
  let stages := is_interview_stages Questions s in
  let days_between :=
    if String.eqb (job_priority job_requirements) "High" then 1%Z
    else if String.eqb (job_priority job_requirements) "Medium" then 2%Z
    else 3%Z in
  stages
  = _determine_interview_stages (job_position job_requirements)
      (job_department job_requirements) (job_priority job_requirements)
  /\ Py.keys (is_schedule Questions s) = stages
  /\ Py.keys (is_stage_questions Questions s) = stages
  /\ is_total_duration Questions s
     == Py.sum (map _get_stage_duration stages)
  /\ 95 <= is_total_duration Questions s
  /\ is_total_duration Questions s <= 245
  /\ (forall k stage,
        nth_error stages k = Some stage ->
        exists info,
          Py.get (is_schedule Questions s) stage = Some info
          /\ si_date info
             = (now / DAY + 2 + Z.of_nat k * days_between)%Z
          /\ si_duration_minutes info = _get_stage_duration stage
          /\ si_type info = _get_interview_type stage
          /\ si_participants info = _get_stage_participants stage).
Proof.
  intros s stages days_between.
  subst s stages. unfold create_interview_schedule. cbv zeta.
  cbn [is_interview_stages is_schedule is_stage_questions
         is_total_duration].
  set (stages := _determine_interview_stages
                   (job_position job_requirements)
                   (job_department job_requirements)
                   (job_priority job_requirements)).
  destruct (_determine_interview_stages_nodup
              (job_position job_requirements)
              (job_department job_requirements)
              (job_priority job_requirements)) as [Hnd _].
  fold stages in Hnd.
  unfold _generate_schedule. cbv zeta. fold days_between.
  destruct (schedule_loop_spec now days_between stages 0%Z [] Hnd
              (fun s _ H => H))
    as (Hk & Hd & _ & Hnew).
  cbv zeta in Hk, Hd, Hnew. cbn [Py.keys Py.values map app] in Hk, Hd.
  assert (Htotal :
            _calculate_total_duration
              (schedule_loop now days_between 0 stages [])
            == Py.sum (map _get_stage_duration stages)).
  { unfold _calculate_total_duration. rewrite fold_left_durations.
    fold (Py.values (schedule_loop now days_between 0 stages [])).
    rewrite Hd. ring. }
  split; [reflexivity|].
  split; [exact Hk|].
  split.
  { rewrite questions_loop_keys; auto. }
  split; [exact Htotal|].
  pose proof (planned_durations (job_position job_requirements)
                (job_department job_requirements)
                (job_priority job_requirements)) as [B0 B1].
  fold stages in B0, B1.
  split; [rewrite Htotal; exact B0|].
  split; [rewrite Htotal; exact B1|].
  intros k stage Hnth.
  destruct (Hnew k stage Hnth) as (info & G & D & R).
  exists info. split; [exact G|]. split; [|exact R].
  rewrite D. ring.
Qed.

End SchedulePlan.

(* ================================================================== *)
(** * More of the candidate workflow *)
(* ================================================================== *)

Section Applications.

Import RecruitmentOrchestrator.

Variable screen_candidate : CandidateData -> JobRequirements -> Screening.
Variable Questions : Type.
Variable _generate_interview_questions :
  string -> string -> string -> Questions.

(** X9. [process_candidate_application] changes the state only by storing
    the applicant at the end of the candidate list, dated with the clock
    of the call, and only when the screening completed.  With no opening
    of that position, upper and lower case apart, it returns the
    not-found error; with a failed screening it hands the error of the
    screener on; in both cases the state is as before.  Openings and
    selections are never touched. *)
Theorem application_outcomes (now : timestamp) (self : State Questions)
        (candidate_data : CandidateData) (job_position : string) :
  let result :=
    process_candidate_application screen_candidate
      _generate_interview_questions now self candidate_data job_position in
  job_openings (fst result) = job_openings self
  /\ final_selections (fst result) = final_selections self
  /\ match snd result with
     | ApplicationError message =>
         fst result = self
         /\ message = "Job position '" ++ job_position ++ "' not found"
         /\ forall opening,
             In opening (job_openings self) ->
             Py.lower (opening_position opening) <> Py.lower job_position
     | ApplicationScreeningError candidate_id error_message =>
         fst result = self
         /\ exists job_requirements,
             _find_job_requirements self job_position
             = Some job_requirements
             /\ screen_candidate candidate_data job_requirements
                = ScreeningError candidate_id error_message
     | ApplicationSuccess _ screening_result _ =>
         exists c job_requirements,
           candidates (fst result) = (candidates self ++ [c])%list
           /\ c_data c = candidate_data
           /\ c_application_date c = now
           /\ c_screening_result c = Some screening_result
           /\ _find_job_requirements self job_position
              = Some job_requirements
           /\ Py.lower (opening_position job_requirements)
              = Py.lower job_position
           /\ screen_candidate candidate_data job_requirements
              = ScreeningCompleted screening_result
     end.
Proof.
  intros result. subst result. unfold process_candidate_application.
  destruct (_find_job_requirements self job_position) as [job |] eqn:F.
  - assert (Hjob : Py.lower (opening_position job) = Py.lower job_position).
    { unfold _find_job_requirements in F. apply find_some in F.
      destruct F as [_ F]. now apply String.eqb_eq in F. }
    destruct (screen_candidate candidate_data job) as [r | cid msg] eqn:S.
    + destruct (passes_screening (sr_recommendation r)); cbn [fst snd];
        (split; [reflexivity|]); (split; [reflexivity|]);
        eexists; exists job; (split; [reflexivity|]);
        cbn [c_data c_application_date c_screening_result]; auto 10.
    + cbn [fst snd]. split; [reflexivity|]. split; [reflexivity|].
      split; [reflexivity|]. now exists job.
  - cbn [fst snd]. split; [reflexivity|]. split; [reflexivity|].
    split; [reflexivity|]. split; [reflexivity|].
    intros opening Hin E.
    unfold _find_job_requirements in F.
    apply (find_none _ _ F) in Hin.
    apply String.eqb_neq in Hin. contradiction.
Qed.

End Applications.

Section Selections.

Import RecruitmentOrchestrator.

Variable Questions : Type.

Lemma store_split (cs : list (Candidate Questions)) (candidate_id : string)
      (c : Candidate Questions) :
  find (has_id candidate_id) cs = Some c ->
  exists l1 l2,
    cs = (l1 ++ c :: l2)%list
    /\ (forall c', store cs candidate_id c' = (l1 ++ c' :: l2)%list)
    /\ forall x, In x l1 -> has_id candidate_id x = false.
Proof.
  induction cs as [| x cs IH]; intros Hf; [discriminate|].
  simpl in Hf. simpl. destruct (has_id candidate_id x) eqn:E.
  - inversion Hf; subst. exists [], cs. repeat split. intros y [].
  - destruct (IH Hf) as (l1 & l2 & H1 & H2 & H3).
    exists (x :: l1), l2. subst cs. split; [reflexivity|]. split.
    + intros c'. rewrite H2. reflexivity.
    + intros y [Hy | Hy]; [now subst y | now apply H3].
Qed.

Lemma in_store (cs : list (Candidate Questions)) (candidate_id : string)
      (c c' : Candidate Questions) :
  In c (store cs candidate_id c') -> c = c' \/ In c cs.
Proof.
  induction cs as [| x cs IH]; simpl; [tauto|].
  destruct (has_id candidate_id x); simpl.
  - intros [H | H]; auto.
  - intros [H | H]; auto. destruct (IH H); auto.
Qed.

Lemma length_store (cs : list (Candidate Questions)) (candidate_id : string)
      (c' : Candidate Questions) :
  List.length (store cs candidate_id c') = List.length cs.
Proof.
  induction cs as [| x cs IH]; [reflexivity|].
  simpl. destruct (has_id candidate_id x); simpl; auto.
Qed.

(** X10. [make_final_selection] on an unknown id returns the not-found
    error and leaves the state as it is.  On a known id it stamps the
    candidate with the decision, the notes and the clock, and appends one
    hiring record exactly when the decision is the string "hired": also
    when the candidate was hired before, so that two such calls leave two
    records.  Every other decision leaves the selections as they are. *)
Theorem final_selection_records (now now' : timestamp)
        (self : State Questions) (candidate_id decision notes : string) :
  let result :=
    make_final_selection now self candidate_id decision notes in
  match _find_candidate self candidate_id with
  | None =>
      result
      = (self,
         SelectionError
           ("Candidate with ID " ++ candidate_id ++ " not found"))
  | Some c =>
      snd result
      = SelectionSuccess ("Final selection made: " ++ decision) decision
      /\ (exists c',
             _find_candidate (fst result) candidate_id = Some c'
             /\ c_status c' = decision
             /\ c_selection_notes c' = Some notes
             /\ c_selection_date c' = Some now
             /\ c_data c' = c_data c
             /\ c_screening_result c' = c_screening_result c
             /\ c_interview_schedule c' = c_interview_schedule c
             /\ c_interview_status c' = c_interview_status c
             /\ c_final_evaluation c' = c_final_evaluation c)
      /\ final_selections (fst result)
         = (if String.eqb decision "hired"
            then (final_selections self
                  ++ [{| sel_candidate_id := candidate_id;
                         sel_candidate_name :=
                           cd_candidate_name (c_data c);
                         sel_position := cd_position (c_data c);
                         sel_hiring_date := now;
                         sel_notes := notes |}])%list
            else final_selections self)
      /\ List.length
           (final_selections
              (fst (make_final_selection now' (fst result) candidate_id
                      "hired" notes)))
         = S (List.length (final_selections (fst result)))
  end.
Proof.
  intros result. subst result.
  destruct (_find_candidate self candidate_id) as [c |] eqn:Hf.
  - pose proof (find_has_id _ _ _ _ Hf) as Hid.
    set (c' := set_selection (set_status c decision) notes now).
    assert (Hf' : _find_candidate
                    (fst (make_final_selection now self candidate_id
                            decision notes)) candidate_id = Some c').
    { unfold make_final_selection. rewrite Hf.
      destruct (String.eqb decision "hired"); cbn [fst];
        unfold _find_candidate;
        cbn [candidates set_final_selections set_candidates];
        apply (find_store_same _ _ _ c); auto. }
    split; [|split; [|split]].
    + unfold make_final_selection. rewrite Hf. reflexivity.
    + exists c'. split; [exact Hf'|]. subst c'. simpl. auto 10.
    + unfold make_final_selection. rewrite Hf.
      destruct (String.eqb decision "hired"); reflexivity.
    + unfold make_final_selection at 1. rewrite Hf'.
      cbn [String.eqb Ascii.eqb Bool.eqb andb fst final_selections
             set_final_selections].
      rewrite length_app. simpl. lia.
  - unfold make_final_selection. rewrite Hf. reflexivity.
Qed.

(** X11. Both [conduct_interview] and [make_final_selection] keep the
    number of candidates and change one place of the list at most: the
    first candidate with the id.  Candidates before it do not have the id,
    and candidates after it are left as they are, also those that share
    the id. *)
Theorem operations_touch_first_match (now : timestamp)
        (self : State Questions)
        (candidate_id stage feedback decision notes : string)
        (c : Candidate Questions) :
  _find_candidate self candidate_id = Some c ->
  exists l1 l2 c1 c2,
    candidates self = (l1 ++ c :: l2)%list
    /\ (forall x, In x l1 ->
                  cd_candidate_id (c_data x) <> candidate_id)
    /\ candidates
         (fst (conduct_interview now self candidate_id stage feedback))
       = (l1 ++ c1 :: l2)%list
    /\ c_data c1 = c_data c
    /\ candidates
         (fst (make_final_selection now self candidate_id decision notes))
       = (l1 ++ c2 :: l2)%list
    /\ c_data c2 = c_data c.
Proof.
  intros Hf.
  assert (Hinterview : exists c1,
             candidates
               (fst (conduct_interview now self candidate_id stage
                       feedback))
             = store (candidates self) candidate_id c1
             /\ c_data c1 = c_data c).
  { unfold conduct_interview. rewrite Hf.
    destruct (_all_interviews_completed _);
      [destruct (_evaluate_final_candidate _)|];
      cbn [fst candidates set_candidates]; eexists;
      (split; [reflexivity|]); reflexivity. }
  assert (Hselect : exists c2,
             candidates
               (fst (make_final_selection now self candidate_id decision
                       notes))
             = store (candidates self) candidate_id c2
             /\ c_data c2 = c_data c).
  { unfold make_final_selection. rewrite Hf.
    destruct (String.eqb decision "hired");
      cbn [fst candidates set_candidates set_final_selections]; eexists;
      (split; [reflexivity|]); reflexivity. }
  destruct Hinterview as (c1 & E1 & D1).
  destruct Hselect as (c2 & E2 & D2).
  destruct (store_split _ _ _ Hf) as (l1 & l2 & H & S & Hl1).
  exists l1, l2, c1, c2.
  split; [exact H|]. split.
  { intros x Hx E. apply Hl1 in Hx. unfold has_id in Hx.
    rewrite E, String.eqb_refl in Hx. discriminate. }
  rewrite E1, E2, !S. auto.
Qed.

End Selections.

Section InterviewRecords.

Import RecruitmentOrchestrator.

Variable Questions : Type.

Lemma index_of_absent (stages : list string) (x : string) :
  ~ In x stages -> index_of stages x = None.
Proof.
  induction stages as [| s rest IH]; intros H; [reflexivity|].
  simpl. destruct (String.eqb_spec s x) as [E | E].
  - exfalso. apply H. now left.
  - rewrite IH; [reflexivity|]. intros Hin. apply H. now right.
Qed.

Lemma index_of_first (l1 l2 : list string) (x : string) :
  ~ In x l1 -> index_of (l1 ++ x :: l2) x = Some (List.length l1).
Proof.
  induction l1 as [| s l1 IH]; intros H; simpl.
  - now rewrite String.eqb_refl.
  - destruct (String.eqb_spec s x) as [E | E].
    + exfalso. apply H. now left.
    + rewrite IH; [reflexivity|]. intros Hin. apply H. now right.
Qed.

(** X12. The next-step hint follows the stage list of the schedule: for
    the first occurrence of the current stage it names the stage that
    comes next, or the final evaluation and the hiring decision after the
    last stage; for a stage that is not in the list, and for a candidate
    without a schedule, it asks to review the schedule. *)
Theorem next_steps_follow_schedule (c : Candidate Questions)
        (current_stage : string) :
  (c_interview_schedule c = None ->
   _get_next_steps c current_stage = ["Review interview schedule"])
  /\ (forall sched,
        c_interview_schedule c = Some sched ->
        let stages :=
          InterviewCoordinator.is_interview_stages Questions sched in
        (~ In current_stage stages ->
         _get_next_steps c current_stage = ["Review interview schedule"])
        /\ (forall l1 l2,
              stages = (l1 ++ current_stage :: l2)%list ->
              ~ In current_stage l1 ->
              _get_next_steps c current_stage
              = match l2 with
                | [] => ["Complete final evaluation"; "Make hiring decision"]
                | next_stage :: _ =>
                    ["Schedule " ++ next_stage ++ " interview"]
                end)).
Proof.
  split.
  - intros H. unfold _get_next_steps. rewrite H. reflexivity.
  - intros sched H stages. split.
    + intros Hout. unfold _get_next_steps. rewrite H. fold stages.
      now rewrite index_of_absent.
    + intros l1 l2 E Hfirst. unfold _get_next_steps. rewrite H.
      fold stages. rewrite E, index_of_first by exact Hfirst.
      rewrite nth_error_app2 by lia.
      replace (List.length l1 + 1 - List.length l1)%nat with 1%nat by lia.
      destruct l2; reflexivity.
Qed.

(** X13. For a known candidate, [conduct_interview] always succeeds and
    records the stage as completed with the feedback and the clock of the
    call: a stage recorded before keeps its place and is overwritten, a
    new stage is added at the end, and the entries of the other stages,
    the application, the screening result and the schedule stay as they
    were.  The response reports the status of the candidate after the
    call. *)
Theorem conduct_interview_records (now : timestamp) (self : State Questions)
        (candidate_id stage feedback : string) (c : Candidate Questions) :
  _find_candidate self candidate_id = Some c ->
  exists c',
    _find_candidate
      (fst (conduct_interview now self candidate_id stage feedback))
      candidate_id = Some c'
    /\ snd (conduct_interview now self candidate_id stage feedback)
       = InterviewSuccess ("Interview stage '" ++ stage ++ "' completed")
                          (c_status c') (_get_next_steps c' stage)
    /\ Py.get (interview_status_of c') stage
       = Some {| su_candidate_id := candidate_id;
                 su_stage := stage;
                 su_status := "completed";
                 su_feedback := feedback;
                 su_updated_at := now |}
    /\ (forall other,
          other <> stage ->
          Py.get (interview_status_of c') other
          = Py.get (interview_status_of c) other)
    /\ Py.keys (interview_status_of c')
       = (if existsb (String.eqb stage) (Py.keys (interview_status_of c))
          then Py.keys (interview_status_of c)
          else (Py.keys (interview_status_of c) ++ [stage])%list)
    /\ c_data c' = c_data c
    /\ c_screening_result c' = c_screening_result c
    /\ c_interview_schedule c' = c_interview_schedule c
    /\ c_application_date c' = c_application_date c
    /\ c_selection_date c' = c_selection_date c.
Proof.
  intros Hf.
  pose proof (find_has_id _ _ _ _ Hf) as Hid.
  unfold conduct_interview. rewrite Hf.
  set (d' := Py.set (interview_status_of c) stage
               (InterviewCoordinator.update_interview_status now
                  candidate_id stage "completed" feedback)).
  assert (Hget : Py.get d' stage
                 = Some {| su_candidate_id := candidate_id;
                           su_stage := stage;
                           su_status := "completed";
                           su_feedback := feedback;
                           su_updated_at := now |})
    by apply get_set_same.
  assert (Hother : forall other, other <> stage ->
                     Py.get d' other = Py.get (interview_status_of c) other)
    by (intros other N; now apply get_set_other).
  assert (Hkeys : Py.keys d'
                  = if existsb (String.eqb stage)
                         (Py.keys (interview_status_of c))
                    then Py.keys (interview_status_of c)
                    else (Py.keys (interview_status_of c) ++ [stage])%list)
    by apply keys_set.
  destruct (_all_interviews_completed (set_interview_status c d')).
  - destruct (_evaluate_final_candidate_returns Questions
                (set_status (set_interview_status c d')
                            "all_interviews_completed"))
      as (fe & Rfe & _).
    rewrite Rfe. cbn [fst snd]. eexists.
    split; [apply (find_store_same _ _ _ c); auto|].
    split; [reflexivity|].
    cbn [interview_status_of c_interview_status set_final_evaluation
           set_status set_interview_status c_data c_screening_result
           c_interview_schedule c_application_date c_selection_date].
    auto 10.
  - cbn [fst snd]. eexists.
    split; [apply (find_store_same _ _ _ c); auto|].
    split; [reflexivity|].
    cbn [interview_status_of c_interview_status set_interview_status
           c_data c_screening_result c_interview_schedule
           c_application_date c_selection_date].
    auto 10.
Qed.

End InterviewRecords.

(* ================================================================== *)
(** * More of the summary *)
(* ================================================================== *)

Section Rates.

Import RecruitmentOrchestrator.

Variable Questions : Type.

Lemma filter_length_mono {A : Type} (p q : A -> bool) (l : list A) :
  (forall x, p x = true -> q x = true) ->
  (List.length (filter p l) <= List.length (filter q l))%nat.
Proof.
  intros H. induction l as [| x l IH]; [reflexivity|].
  simpl. destruct (p x) eqn:P.
  - rewrite (H x P). simpl. lia.
  - destruct (q x); simpl; lia.
Qed.

Lemma percentage_mono {A B C : Type} (l1 : list A) (l2 : list B) (x : C)
      (l : list C) :
  (List.length l1 <= List.length l2)%nat ->
  Py.round2 (Py.len l1 / Py.len (x :: l) * 100)
  <= Py.round2 (Py.len l2 / Py.len (x :: l) * 100).
Proof.
  intros H. apply round2_mono. apply ratio_mono.
  - apply len_pos.
  - now apply len_le.
Qed.

Lemma percentage_bounds {A C : Type} (l1 : list A) (x : C) (l : list C) :
  (List.length l1 <= List.length (x :: l))%nat ->
  0 <= Py.round2 (Py.len l1 / Py.len (x :: l) * 100)
  /\ Py.round2 (Py.len l1 / Py.len (x :: l) * 100) <= 100.
Proof.
  intros H. apply round2_percent.
  - pose proof (len_nonneg l1) as H0. pose proof (len_pos x l) as Hp.
    apply Qmult_le_0_compat; [|lra].
    apply Qle_shift_div_l; [exact Hp|]. lra.
  - apply ratio_le_100; [apply len_pos | now apply len_le].
Qed.

(** X14. For every candidate list the two rates are computed without an
    error and are percentages, and the hiring-success rate never exceeds
    the interview-completion rate, a hired candidate counting as one whose
    interviews are done. *)
Theorem rates_are_percentages (self : State Questions) :
  exists completion hiring,
    _calculate_interview_completion_rate self = Py.Return completion
    /\ _calculate_hiring_success_rate self = Py.Return hiring
    /\ 0 <= hiring /\ hiring <= completion /\ completion <= 100.
Proof.
  unfold _calculate_interview_completion_rate,
    _calculate_hiring_success_rate.
  destruct (candidates self) as [| c cs] eqn:E.
  - exists 0, 0. repeat split; discriminate.
  - rewrite !(truediv_nonzero _ _ (len_cons_nonzero c cs)).
    cbn [Py.bind]. do 2 eexists.
    split; [reflexivity|]. split; [reflexivity|].
    assert (Hhd : (List.length (filter is_hired (c :: cs))
                   <= List.length (filter interviews_done (c :: cs)))%nat).
    { apply filter_length_mono. intros x H. unfold interviews_done.
      unfold is_hired in H. rewrite H. apply orb_true_r. }
    assert (Hdone : (List.length (filter interviews_done (c :: cs))
                     <= List.length (c :: cs))%nat)
      by apply filter_length_le.
    assert (Hhired : (List.length (filter is_hired (c :: cs))
                      <= List.length (c :: cs))%nat) by lia.
    split; [apply (percentage_bounds _ c cs Hhired)|].
    split; [apply (percentage_mono _ _ c cs Hhd)|].
    apply (percentage_bounds _ c cs Hdone).
Qed.

End Rates.

Section TimeToHire.

Import RecruitmentOrchestrator.

Variable screen_candidate : CandidateData -> JobRequirements -> Screening.
Variable Questions : Type.
Variable _generate_interview_questions :
  string -> string -> string -> Questions.

(** In a reachable state every candidate with status "hired" carries a
    selection date. *)
Lemma hired_have_selection_dates (self : State Questions) :
  Reachable screen_candidate _generate_interview_questions self ->
  forall c, In c (candidates self) ->
            c_status c = "hired" -> c_selection_date c <> None.
Proof.
  induction 1 as [| self openings _ IH
                  | now self cd pos _ IH
                  | now self id stage fb _ IH
                  | now self id decision notes _ IH
                  | now now' self id decision notes _ IH];
    intros c Hin Hst.
  - destruct Hin.
  - now apply IH.
  - revert Hin. unfold process_candidate_application.
    destruct (_find_job_requirements self pos) as [job |];
      [|cbn [fst]; intros Hin; now apply IH].
    destruct (screen_candidate cd job) as [r | cid msg]; [|cbn [fst]; intros Hin; now apply IH].
    destruct (passes_screening (sr_recommendation r));
      cbn [fst candidates set_candidates]; intros Hin;
      apply in_app_or in Hin; destruct Hin as [Hin | [E | []]];
      try (now apply IH); subst c; discriminate.
  - revert Hin. unfold conduct_interview.
    destruct (_find_candidate self id) as [c0 |] eqn:Hf;
      [|cbn [fst]; intros Hin; now apply IH].
    assert (Hc0 : In c0 (candidates self))
      by (apply find_some in Hf; tauto).
    destruct (_all_interviews_completed _);
      [destruct (_evaluate_final_candidate _)|];
      cbn [fst candidates set_candidates]; intros Hin;
      apply in_store in Hin; destruct Hin as [E | Hin];
      try (now apply IH); subst c;
      cbn [c_status c_selection_date set_status set_final_evaluation
             set_interview_status] in *;
      try discriminate; now apply (IH c0).
  - revert Hin. unfold make_final_selection.
    destruct (_find_candidate self id) as [c0 |] eqn:Hf;
      [|cbn [fst]; intros Hin; now apply IH].
    destruct (String.eqb decision "hired");
      cbn [fst candidates set_candidates set_final_selections];
      intros Hin; apply in_store in Hin; destruct Hin as [E | Hin];
      try (now apply IH); subst c; discriminate.
  - revert Hin. unfold add_candidate_from_scoring.
    cbn [fst candidates set_candidates]. intros Hin.
    apply in_app_or in Hin. destruct Hin as [Hin | [E | []]];
      [now apply IH | subst c; discriminate].
Qed.

Lemma total_days_loop_returns (hired : list (Candidate Questions)) :
  (forall c, In c hired -> c_selection_date c <> None) ->
  forall total_days, exists total,
    total_days_loop hired total_days = Py.Return total.
Proof.
  induction hired as [| c rest IH]; intros H total_days.
  - now exists total_days.
  - cbn [total_days_loop].
    destruct (c_selection_date c) as [d |] eqn:E.
    + cbn [Py.bind]. apply IH. intros x Hx. apply H. now right.
    + exfalso. apply (H c); [now left | exact E].
Qed.

(** X15. In every state reached from the initial one by applications,
    interviews, selections, additions from scoring and new openings,
    [_calculate_average_time_to_hire] returns a text and never raises:
    each hired candidate has both dates.  The text is "N/A" when no
    candidate is hired. *)
Theorem time_to_hire_never_raises (self : State Questions) :
  Reachable screen_candidate _generate_interview_questions self ->
  exists text,
    _calculate_average_time_to_hire self = Py.Return text
    /\ ((forall c, In c (candidates self) -> c_status c <> "hired") ->
        text = "N/A").
Proof.
  intros HR.
  pose proof (hired_have_selection_dates self HR) as Hinv.
  unfold _calculate_average_time_to_hire.
  destruct (filter is_hired (candidates self)) as [| c cs] eqn:E.
  - exists "N/A". split; auto.
  - assert (Hdates : forall x, In x (c :: cs) -> c_selection_date x <> None).
    { intros x Hx. rewrite <- E in Hx. apply filter_In in Hx.
      destruct Hx as [Hin Hh]. apply Hinv; [exact Hin|].
      now apply String.eqb_eq in Hh. }
    destruct (total_days_loop_returns (c :: cs) Hdates 0%Z) as [total Ht].
    rewrite Ht. cbn [Py.bind].
    rewrite (truediv_nonzero _ _ (len_cons_nonzero c cs)).
    cbn [Py.bind]. eexists. split; [reflexivity|].
    intros Hnone. exfalso.
    assert (Hc : In c (filter is_hired (candidates self)))
      by (rewrite E; now left).
    apply filter_In in Hc. destruct Hc as [Hin Hh].
    apply (Hnone c Hin). now apply String.eqb_eq in Hh.
Qed.

End TimeToHire.

Section StatusCounts.

Import RecruitmentOrchestrator.

Variable Questions : Type.

(** A count as the dictionary holds it: no entry for zero. *)
Lemma count_step (d : Py.dict Z) (f : string -> Z) (status s : string) :
  (forall s, (0 <= f s)%Z) ->
  (forall s, Py.get d s = if (f s =? 0)%Z then None else Some (f s)) ->
  Py.get (Py.set d status
            (match Py.get d status with
             | Some n => n
             | None => 0%Z
             end + 1)%Z) s
  = if ((f s + if String.eqb status s then 1 else 0) =? 0)%Z then None
    else Some (f s + if String.eqb status s then 1 else 0)%Z.
Proof.
  intros Hpos Hd.
  destruct (String.eqb_spec status s) as [E | N].
  - subst s. rewrite get_set_same, Hd.
    specialize (Hpos status).
    destruct (Z.eqb_spec (f status) 0) as [Z0 | Z0].
    + rewrite Z0. reflexivity.
    + destruct (Z.eqb_spec (f status + 1) 0); [lia | reflexivity].
  - rewrite get_set_other by congruence.
    rewrite Z.add_0_r. apply Hd.
Qed.

Lemma count_loop (l : list (Candidate Questions)) :
  forall (d : Py.dict Z) (f : string -> Z),
    (forall s, (0 <= f s)%Z) ->
    (forall s, Py.get d s = if (f s =? 0)%Z then None else Some (f s)) ->
    forall s,
      let n :=
        (f s + Z.of_nat
                 (List.length
                    (filter (fun c => String.eqb (c_status c) s) l)))%Z in
      Py.get
        (fold_left
           (fun status_counts candidate =>
              Py.set status_counts (c_status candidate)
                (match Py.get status_counts (c_status candidate) with
                 | Some n => n
                 | None => 0%Z
                 end + 1)%Z) l d) s
      = if (n =? 0)%Z then None else Some n.
Proof.
  induction l as [| c l IH]; intros d f Hpos Hd s n.
  - subst n. simpl. rewrite Z.add_0_r. apply Hd.
  - cbn [fold_left].
    rewrite (IH _ (fun s => (f s + if String.eqb (c_status c) s
                                   then 1 else 0)%Z)).
    + subst n. cbn [filter].
      destruct (String.eqb (c_status c) s); cbn [List.length];
        rewrite ?Nat2Z.inj_succ;
        match goal with
        | |- (if (?a =? 0)%Z then _ else _) = (if (?b =? 0)%Z then _ else _) =>
            replace a with b by lia; reflexivity
        end.
    + intros s'. specialize (Hpos s').
      destruct (String.eqb (c_status c) s'); lia.
    + intros s'. now apply count_step.
Qed.

(** X16. [_count_candidates_by_status] holds, for each status, the number
    of candidates of that status, and no entry for a status that no
    candidate has. *)
Theorem status_counts_exact (self : State Questions) (status : string) :
  let n :=
    Z.of_nat
      (List.length
         (filter (fun c => String.eqb (c_status c) status)
                 (candidates self))) in
  Py.get (_count_candidates_by_status self) status
  = if (n =? 0)%Z then None else Some n.
Proof.
  intros n. unfold _count_candidates_by_status.
  apply (count_loop (candidates self) [] (fun _ => 0%Z)).
  - intros s. lia.
  - intros s. reflexivity.
Qed.

(** X17. [_get_top_performing_candidates] lists the five candidates, or
    all if there are fewer, with the highest screening scores, a candidate
    without screening result counting as 0: the list is in descending
    order of score, every listed candidate scores at least as much as
    every candidate left out, and candidates of equal score keep the
    order of the candidate list. *)
Theorem top_candidates_are_best (self : State Questions) :
  let top := _get_top_performing_candidates self in
  let entries := map top_entry (candidates self) in
  List.length top = Nat.min 5 (List.length (candidates self))
  /\ StronglySorted (fun a b => tc_score b <= tc_score a) top
  /\ exists rest,
      Permutation (top ++ rest) entries
      /\ (forall a b, In a top -> In b rest -> tc_score b <= tc_score a)
      /\ forall q,
          filter (fun x => Qeq_bool (tc_score x) q) (top ++ rest)
          = filter (fun x => Qeq_bool (tc_score x) q) entries.
Proof.
  intros top entries. subst top. unfold _get_top_performing_candidates.
  fold entries.
  pose proof (sort_desc_perm tc_score entries) as Hperm.
  pose proof (sort_desc_sorted tc_score entries) as Hsorted.
  set (sorted := Py.sort_desc tc_score entries) in *.
  split.
  { rewrite length_firstn, (Permutation_length Hperm).
    subst entries. now rewrite length_map. }
  split.
  { clear - Hsorted. revert Hsorted. generalize 5%nat.
    induction sorted as [| x l IH]; intros n Hs.
    - rewrite firstn_nil. constructor.
    - destruct n as [| n]; [constructor|].
      inversion Hs as [| ? ? Hs' Hall]; subst.
      cbn [firstn]. constructor; [now apply IH|].
      rewrite Forall_forall in *. intros y Hy. apply Hall.
      rewrite <- (firstn_skipn n l). apply in_or_app. now left. }
  exists (skipn 5 sorted).
  rewrite firstn_skipn.
  split; [exact Hperm|]. split.
  - apply (sorted_firstn_dominates tc_score 5 sorted Hsorted).
  - intros q. apply sort_desc_stable.
Qed.

End StatusCounts.

(* ================================================================== *)
(** * Resume scoring and the openings of the analyzer *)
(* ================================================================== *)

Section ResumeScoring.

Import CandidateScreener.
Import RecruitmentOrchestrator.

Variable client : option (string -> Py.Exc string).
Variable feedback_prompt :
  CandidateData -> JobRequirements -> string -> string -> string ->
  list string -> list string -> string.
Variable Questions : Type.

Lemma completed_scores_bounds (criteria : Config.EvaluationCriteria)
      (candidate_data : CandidateData) (job_requirements : JobRequirements)
      (r : ScreeningResult) :
  screen_candidate criteria client feedback_prompt candidate_data
    job_requirements = ScreeningCompleted r ->
  sr_skill_match_score r = sa_score (sr_skill_analysis r)
  /\ sr_experience_match_score r = ea_score (sr_experience_analysis r)
  /\ sr_cultural_fit_score r = cf_score (sr_cultural_fit_analysis r).
Proof.
  unfold screen_candidate, screen_candidate_body. cbv zeta.
  destruct (_analyze_skill_match _ _); cbn [Py.bind]; [|discriminate].
  destruct (_evaluate_experience _ _); cbn [Py.bind]; [|discriminate].
  destruct (_assess_cultural_fit _ _ _); cbn [Py.bind]; [|discriminate].
  destruct (_generate_ai_feedback _ _ _ _ _ _ _); cbn [Py.bind];
    [|discriminate].
  intros H; inversion H; subst; simpl; auto.
Qed.

(** X18. [score_candidate_resume] with the screener as shipped scores a
    resume also when the position has no opening, against the default
    requirements.  Its sub-scores are percentages, its overall score is at
    most 65 and its recommendation is never one of the two passing tiers;
    an empty resume gives the all-zero result with "No recommendation". *)
Theorem resume_scores_bounded (self : State Questions)
        (candidate_data : CandidateData) :
  let rs :=
    score_candidate_resume (shipped_screen client feedback_prompt) self
      candidate_data in
  (0 <= rs_overall_score rs /\ rs_overall_score rs <= 65)
  /\ (0 <= rs_skill_match_score rs /\ rs_skill_match_score rs <= 100)
  /\ (0 <= rs_experience_match_score rs
      /\ rs_experience_match_score rs <= 100)
  /\ (0 <= rs_cultural_fit_score rs /\ rs_cultural_fit_score rs <= 100)
  /\ passes_screening (rs_recommendation rs) = false
  /\ (cd_resume_text candidate_data = EmptyString ->
      rs = {| rs_overall_score := 0;
              rs_skill_match_score := 0;
              rs_experience_match_score := 0;
              rs_cultural_fit_score := 0;
              rs_ai_feedback := "No feedback available";
              rs_recommendation := "No recommendation" |}).
Proof.
  intros rs. subst rs. unfold score_candidate_resume.
  set (job := match _find_job_requirements self (cd_position candidate_data)
              with
              | Some job_requirements => job_requirements
              | None => default_job_requirements
              end).
  destruct (shipped_screen client feedback_prompt candidate_data job)
    as [r | cid msg] eqn:S.
  - destruct (shipped_overall_at_most_65 _ _ _ _ _ S) as [O0 O1].
    destruct (shipped_never_passes _ _ _ _ _ S) as [P1 P2].
    unfold shipped_screen in S.
    destruct (screening_completed_inv _ _ _ _ _ _ S)
      as (Hs & He & Hc & _).
    destruct (completed_scores_bounds _ _ _ _ S) as (Es & Ee & Ec).
    cbn [rs_overall_score rs_skill_match_score rs_experience_match_score
           rs_cultural_fit_score rs_recommendation].
    rewrite Es, Ee, Ec.
    repeat split; try tauto.
    + unfold passes_screening. now rewrite P1, P2.
    + intros Hempty. exfalso.
      assert (Herr : cd_resume_text candidate_data = EmptyString
                     \/ job_required_skills job = []) by (now left).
      apply (screening_error_iff Config.EVALUATION_CRITERIA client
               feedback_prompt) in Herr.
      congruence.
  - cbn [rs_overall_score rs_skill_match_score rs_experience_match_score
           rs_cultural_fit_score rs_recommendation].
    repeat split; try discriminate; reflexivity.
Qed.

End ResumeScoring.

Section AnalyzerOpenings.

Import RecruitmentAnalyzer.

(** X19. The experience label that the analyzer gives an opening is read
    back by the screener as intended: five required years for a position
    with "Senior" or "Manager" in its name, one year for a "Junior"
    position, and 3.5 years for any other. *)
Theorem experience_label_read_back (position : string) :
  CandidateScreener.required_years_of
    (_determine_experience_level position)
  = if Py.contains "Senior" position || Py.contains "Manager" position
    then 5
    else if Py.contains "Junior" position then 1
    else 35 # 10.
Proof.
  unfold _determine_experience_level.
  destruct (Py.contains "Senior" position || Py.contains "Manager" position);
    [reflexivity|].
  destruct (Py.contains "Junior" position); reflexivity.
Qed.

(** X20. The priority that the analyzer gives an opening is "High",
    "Medium" or "Normal", and "High" for every position with "Senior" or
    "Manager" in its name.  So for an opening of the analyzer the
    coordinator plans the "Final Round" exactly at priority "High". *)
Theorem final_round_iff_high_priority (department position : string) :
  let priority := _determine_priority department position in
  (priority = "High" \/ priority = "Medium" \/ priority = "Normal")
  /\ (Py.contains "Senior" position || Py.contains "Manager" position = true
      -> priority = "High")
  /\ (In "Final Round"
         (InterviewCoordinator._determine_interview_stages position
            department priority)
      <-> priority = "High").
Proof.
  intros priority. subst priority.
  unfold _determine_priority, InterviewCoordinator._determine_interview_stages.
  cbn [existsb].
  destruct (Py.contains "Manager" position);
    destruct (Py.contains "Senior" position);
    destruct (String.eqb department "Engineering"
              || (String.eqb department "IT"
                  || (String.eqb department "Finance" || false)));
    destruct (Py.contains "Lead" position);
    destruct (Py.contains "Architect" position);
    destruct (String.eqb department "Marketing"
              || (String.eqb department "Sales" || false));
    destruct (existsb (String.eqb position)
                InterviewCoordinator.technical_positions);
    cbn [orb app String.eqb Ascii.eqb Bool.eqb andb];
    repeat split; auto; try discriminate;
    try (simpl; intuition discriminate).
Qed.

End AnalyzerOpenings.

Section SalaryRange.

Import RecruitmentAnalyzer.

Lemma select_band_range (normalized_position : string) :
  let band := select_band normalized_position role_bands_lpa (8, 18)%Z in
  (3 <= fst band)%Z /\ (fst band < snd band)%Z /\ (snd band <= 90)%Z.
Proof.
  unfold role_bands_lpa. cbn [select_band].
  repeat match goal with
         | |- context [if ?b then _ else _] => destruct b
         end; cbn [fst snd]; lia.
Qed.

Lemma influence_range (usd : Q) :
  let influence :=
    Py.min (15 # 100) (Py.max (- (15 # 100)) ((usd - 60000) / 400000)) in
  - (15 # 100) <= influence /\ influence <= 15 # 100.
Proof.
  cbv zeta. set (x := (usd - 60000) / 400000). clearbody x.
  destruct (max_spec (- (15 # 100)) x) as [[A M] | [A M]]; rewrite M;
    [destruct (min_spec (15 # 100) x) as [[B N] | [B N]]
    | destruct (min_spec (15 # 100) (- (15 # 100))) as [[B N] | [B N]]];
    rewrite N; split; lra.
Qed.

(** X21. The salary range of an opening is a band of whole lakhs with
    2 <= min <= max <= 104: the band of the first role keyword found in
    the position (the engineer band when none is), both ends scaled by
    the same factor between 0.85 and 1.15 and rounded.  The minimum never
    exceeds the maximum, so the repair of a crossed range is never
    needed, and without a positive previous salary the band is printed
    as it is. *)
Theorem salary_range_ordered (position : string) (current_salary_usd : Q) :
  let base :=
    select_band (Py.strip position) role_bands_lpa (8, 18)%Z in
  let bounds := salary_bounds position current_salary_usd in
  exists influence,
    - (15 # 100) <= influence /\ influence <= 15 # 100
    /\ (current_salary_usd <= 0 -> influence == 0)
    /\ fst bounds
       = Py.round_half_even (inject_Z (fst base) * (1 + influence))
    /\ snd bounds
       = Py.round_half_even (inject_Z (snd base) * (1 + influence))
    /\ (2 <= fst bounds)%Z /\ (fst bounds <= snd bounds)%Z
    /\ (snd bounds <= 104)%Z
    /\ _calculate_salary_range position current_salary_usd
       = rupee_marker ++ Py.str_int (fst bounds) ++ dash_marker
         ++ Py.str_int (snd bounds) ++ " LPA".
Proof.
  intros base bounds.
  assert (Hprint : _calculate_salary_range position current_salary_usd
                   = rupee_marker ++ Py.str_int (fst bounds) ++ dash_marker
                     ++ Py.str_int (snd bounds) ++ " LPA").
  { unfold _calculate_salary_range. fold bounds.
    destruct bounds; reflexivity. }
  cut (exists influence,
          - (15 # 100) <= influence /\ influence <= 15 # 100
          /\ (current_salary_usd <= 0 -> influence == 0)
          /\ fst bounds
             = Py.round_half_even (inject_Z (fst base) * (1 + influence))
          /\ snd bounds
             = Py.round_half_even (inject_Z (snd base) * (1 + influence))
          /\ (2 <= fst bounds)%Z /\ (fst bounds <= snd bounds)%Z
          /\ (snd bounds <= 104)%Z).
  { intros (influence & H). exists influence. tauto. }
  clear Hprint.
  destruct (select_band_range (Py.strip position)) as (B3 & Blt & B90).
  fold base in B3, Blt, B90.
  subst bounds. unfold salary_bounds. cbv zeta. fold base.
  destruct base as [lo0 hi0] eqn:Ebase. cbn [fst snd] in *.
  assert (Q3 : 3 <= inject_Z lo0)
    by (change 3 with (inject_Z 3); now rewrite <- Zle_Qle).
  assert (Qlt : inject_Z lo0 <= inject_Z hi0)
    by (rewrite <- Zle_Qle; lia).
  assert (Q90 : inject_Z hi0 <= 90)
    by (change 90 with (inject_Z 90); now rewrite <- Zle_Qle).
  assert (Hscale : forall f, 85 # 100 <= f -> f <= 115 # 100 ->
            (2 <= Py.round_half_even (inject_Z lo0 * f))%Z
            /\ (Py.round_half_even (inject_Z lo0 * f)
                <= Py.round_half_even (inject_Z hi0 * f))%Z
            /\ (Py.round_half_even (inject_Z hi0 * f) <= 104)%Z).
  { intros f F0 F1.
    assert (L : 3 * f <= inject_Z lo0 * f)
      by (apply Qmult_le_compat_r; [exact Q3 | lra]).
    assert (M : inject_Z lo0 * f <= inject_Z hi0 * f)
      by (apply Qmult_le_compat_r; [exact Qlt | lra]).
    assert (U : inject_Z hi0 * f <= 90 * f)
      by (apply Qmult_le_compat_r; [exact Q90 | lra]).
    split; [|split].
    - rewrite <- (round_half_even_Z 2). apply round_half_even_mono.
      change (inject_Z 2) with 2.
      set (a := inject_Z lo0 * f) in *. clearbody a. lra.
    - now apply round_half_even_mono.
    - rewrite <- (round_half_even_Z 104). apply round_half_even_mono.
      change (inject_Z 104) with 104.
      set (b := inject_Z hi0 * f) in *. clearbody b. lra. }
  destruct (Qlt_le_dec 0 current_salary_usd) as [Hpos | Hnon].
  - destruct (influence_range current_salary_usd) as [I0 I1].
    cbv zeta in I0, I1.
    remember (Py.min (15 # 100)
                (Py.max (- (15 # 100))
                   ((current_salary_usd - 60000) / 400000)))
      as influence eqn:Einf.
    destruct (Hscale (1 + influence)) as (H2 & Hle & H104);
      [clear - I0; lra | clear - I1; lra |].
    assert (Hswap : (Py.round_half_even (inject_Z hi0 * (1 + influence))
                     <? Py.round_half_even (inject_Z lo0 * (1 + influence)))%Z
                    = false) by (apply Z.ltb_ge; exact Hle).
    rewrite Hswap. cbn [fst snd].
    exists influence.
    split; [exact I0|]. split; [exact I1|].
    split; [intros H; exfalso; lra|].
    split; [reflexivity|]. split; [reflexivity|].
    split; [exact H2|]. split; [exact Hle|]. exact H104.
  - cbn [fst snd]. exists 0.
    assert (E1 : Py.round_half_even (inject_Z lo0 * (1 + 0)) = lo0).
    { rewrite (round_half_even_comp _ (inject_Z lo0)) by ring.
      apply round_half_even_Z. }
    assert (E2 : Py.round_half_even (inject_Z hi0 * (1 + 0)) = hi0).
    { rewrite (round_half_even_comp _ (inject_Z hi0)) by ring.
      apply round_half_even_Z. }
    rewrite E1, E2.
    split; [discriminate|]. split; [discriminate|].
    split; [intros _; reflexivity|].
    split; [reflexivity|]. split; [reflexivity|].
    split; [lia|]. split; [lia|]. lia.
Qed.

End SalaryRange.

(* ================================================================== *)
(** * The workflow under the shipped weights *)
(* ================================================================== *)

Section ShippedWorkflow.

Import CandidateScreener.
Import RecruitmentOrchestrator.

Variable client : option (string -> Py.Exc string).
Variable feedback_prompt :
  CandidateData -> JobRequirements -> string -> string -> string ->
  list string -> list string -> string.
Variable Questions : Type.
Variable _generate_interview_questions :
  string -> string -> string -> Questions.

(** X22. With the screener as shipped, no state that the operations reach
    holds a candidate with an interview schedule or a final evaluation:
    no application is ever scheduled, and [conduct_interview] never
    declares the interviews of a candidate complete. *)
Theorem shipped_workflow_never_schedules (self : State Questions) :
  Reachable (shipped_screen client feedback_prompt)
            _generate_interview_questions self ->
  forall c, In c (candidates self) ->
            c_interview_schedule c = None /\ c_final_evaluation c = None.
Proof.
  induction 1 as [| self openings _ IH
                  | now self cd pos _ IH
                  | now self id stage fb _ IH
                  | now self id decision notes _ IH
                  | now now' self id decision notes _ IH];
    intros c Hin.
  - destruct Hin.
  - now apply IH.
  - revert Hin. unfold process_candidate_application.
    destruct (_find_job_requirements self pos) as [job |];
      [|cbn [fst]; intros Hin; now apply IH].
    destruct (shipped_screen client feedback_prompt cd job)
      as [r | cid msg] eqn:S; [|cbn [fst]; intros Hin; now apply IH].
    destruct (shipped_never_passes _ _ _ _ _ S) as [P1 P2].
    unfold passes_screening. rewrite P1, P2.
    cbn [orb fst candidates set_candidates]. intros Hin.
    apply in_app_or in Hin. destruct Hin as [Hin | [E | []]];
      [now apply IH | subst c; split; reflexivity].
  - revert Hin. unfold conduct_interview.
    destruct (_find_candidate self id) as [c0 |] eqn:Hf;
      [|cbn [fst]; intros Hin; now apply IH].
    assert (Hc0 : In c0 (candidates self))
      by (apply find_some in Hf; tauto).
    destruct (IH c0 Hc0) as [Hs0 He0].
    unfold _all_interviews_completed.
    cbn [c_interview_schedule set_interview_status]. rewrite Hs0.
    cbn [fst candidates set_candidates]. intros Hin.
    apply in_store in Hin. destruct Hin as [E | Hin];
      [subst c; simpl; split; assumption | now apply IH].
  - revert Hin. unfold make_final_selection.
    destruct (_find_candidate self id) as [c0 |] eqn:Hf;
      [|cbn [fst]; intros Hin; now apply IH].
    assert (Hc0 : In c0 (candidates self))
      by (apply find_some in Hf; tauto).
    destruct (IH c0 Hc0) as [Hs0 He0].
    destruct (String.eqb decision "hired");
      cbn [fst candidates set_candidates set_final_selections];
      intros Hin; apply in_store in Hin; destruct Hin as [E | Hin];
      try (now apply IH); subst c; simpl; split; assumption.
  - revert Hin. unfold add_candidate_from_scoring.
    cbn [fst candidates set_candidates]. intros Hin.
    apply in_app_or in Hin. destruct Hin as [Hin | [E | []]];
      [now apply IH | subst c; split; reflexivity].
Qed.

(** X23. With the weights as shipped the overall score of a completed
    screening is at most 63.8: the cultural-fit score cannot pass 92. *)
Theorem shipped_overall_at_most_63_8 (candidate_data : CandidateData)
        (job_requirements : JobRequirements) (r : ScreeningResult) :
  shipped_screen client feedback_prompt candidate_data job_requirements
  = ScreeningCompleted r ->
  sr_cultural_fit_score r <= 92 /\ sr_overall_score r <= 638 # 10.
Proof.
  unfold shipped_screen, screen_candidate, screen_candidate_body. cbv zeta.
  destruct (skill_score_bounds (cd_resume_text candidate_data)
              (job_required_skills job_requirements))
    as (sa & Rs & S0 & S1 & _).
  destruct (experience_score_bounds (cd_experience_years candidate_data)
              (job_experience_level job_requirements))
    as (ea & Re & E0 & E1).
  destruct (cultural_fit_at_most_92 (cd_cover_letter candidate_data)
              (cd_resume_text candidate_data)
              (job_department job_requirements))
    as (cf & Rc & C0 & C92).
  rewrite Rs, Re, Rc. cbn [Py.bind].
  destruct (_generate_ai_feedback _ _ _ _ _ _ _); cbn [Py.bind];
    [|discriminate].
  intros H; inversion H; subst; clear H.
  cbn [sr_cultural_fit_score sr_overall_score].
  split; [exact C92|].
  unfold _calculate_overall_score. cbv zeta.
  cbn [Config.technical_skills Config.experience Config.cultural_fit
         Config.EVALUATION_CRITERIA].
  apply Qle_trans with (Py.round2 (inject_Z 6380 / 100)).
  - apply round2_mono.
    set (s := sa_score sa) in *. set (e := ea_score ea) in *.
    set (c := cf_score cf) in *. clearbody s e c. clear - S1 E1 C92.
    apply Qle_trans with (638 # 10); [lra | vm_compute; discriminate].
  - rewrite round2_hundredths. discriminate.
Qed.

End ShippedWorkflow.

(* ================================================================== *)
(** * The further properties at the sample data *)
(* ================================================================== *)


Lemma recommendation_passes_iff_witness :
  RecruitmentOrchestrator.passes_screening
    (CandidateScreener._determine_recommendation 70) = true.
Proof.
  apply (proj2 (recommendation_passes_iff 70)). discriminate.
Defined.

Lemma cultural_fit_score_steps_witness :
  exists cf,
    CandidateScreener._assess_cultural_fit "I lead a team and love to learn"
      "Mentor and guide" "Engineering" = Py.Return cf
    /\ cf_score cf <= 92
    /\ ~ In "leadership" (cf_areas_for_growth cf).
Proof.
  destruct (cultural_fit_score_steps "I lead a team and love to learn"
              "Mentor and guide" "Engineering")
    as (cf & n & R & _ & _ & _ & B & _ & _ & _ & D).
  exists cf. split; [exact R|]. split; [exact B|].
  apply D.
  assert (E : cf_strengths cf = ["leadership"]).
  { vm_compute in R. injection R as R. rewrite <- R. reflexivity. }
  rewrite E. now left.
Defined.

Lemma interview_stages_structure_witness :
  List.length
    (InterviewCoordinator._determine_interview_stages "Data Analyst"
       "Analytics" "High") = 5%nat
  /\ In "Data Analyst" InterviewCoordinator.technical_positions.
Proof.
  assert (H : List.length
                (InterviewCoordinator._determine_interview_stages
                   "Data Analyst" "Analytics" "High") = 5%nat)
    by reflexivity.
  split; [exact H|].
  destruct (interview_stages_structure "Data Analyst" "Analytics" "High")
    as (_ & _ & _ & _ & _ & _ & _ & F).
  exact (proj2 (F H)).
Defined.

Lemma interview_schedule_plan_witness :
  exists info,
    Py.get (InterviewCoordinator.is_schedule unit Sample.ann_schedule)
           "HR Interview" = Some info
    /\ si_date info = 5%Z
    /\ si_duration_minutes info = 45.
Proof.
  destruct (interview_schedule_plan unit Sample.no_questions 0%Z Sample.ann
              Sample.clerk_job)
    as (_ & _ & _ & _ & _ & _ & H).
  destruct (H 1%nat "HR Interview" eq_refl) as (info & G & D & M & _).
  exists info. split; [exact G|]. split; [exact D | exact M].
Defined.

Lemma application_outcomes_witness :
  fst (RecruitmentOrchestrator.process_candidate_application
         Sample.keen_screen Sample.no_questions 0%Z Sample.office
         Sample.ann "Plumber") = Sample.office.
Proof.
  destruct (application_outcomes Sample.keen_screen unit
              Sample.no_questions 0%Z Sample.office Sample.ann "Plumber")
    as (_ & _ & H).
  exact (proj1 H).
Defined.

Lemma operations_touch_first_match_witness :
  exists l1 l2 c1,
    RecruitmentOrchestrator.candidates Sample.office_scheduled
    = (l1 ++ Sample.ann_scheduled :: l2)%list
    /\ RecruitmentOrchestrator.candidates
         (fst (RecruitmentOrchestrator.conduct_interview 1%Z
                 Sample.office_scheduled "candidate_1" "HR Interview"
                 "Good"))
       = (l1 ++ c1 :: l2)%list.
Proof.
  destruct (operations_touch_first_match unit 1%Z Sample.office_scheduled
              "candidate_1" "HR Interview" "Good" "hired" EmptyString
              Sample.ann_scheduled eq_refl)
    as (l1 & l2 & c1 & c2 & H & _ & H1 & _).
  exists l1, l2, c1. split; [exact H | exact H1].
Defined.

Lemma next_steps_follow_schedule_witness :
  RecruitmentOrchestrator._get_next_steps Sample.ann_scheduled
    "Initial Screening" = ["Schedule HR Interview interview"]
  /\ RecruitmentOrchestrator._get_next_steps Sample.ann_scheduled
       "technical" = ["Review interview schedule"].
Proof.
  destruct (next_steps_follow_schedule unit Sample.ann_scheduled
              "Initial Screening") as [_ H].
  destruct (H Sample.ann_schedule eq_refl) as [_ Hnext].
  destruct (next_steps_follow_schedule unit Sample.ann_scheduled
              "technical") as [_ H'].
  destruct (H' Sample.ann_schedule eq_refl) as [Hout _].
  split.
  - apply (Hnext [] ["HR Interview"; "Reference Check"]);
      [reflexivity | intros []].
  - apply Hout. simpl. intuition discriminate.
Defined.

Lemma conduct_interview_records_witness :
  exists c',
    RecruitmentOrchestrator._find_candidate
      (fst (RecruitmentOrchestrator.conduct_interview 1%Z
              Sample.office_scheduled "candidate_1" "HR Interview" "Good"))
      "candidate_1" = Some c'
    /\ Py.keys (RecruitmentOrchestrator.interview_status_of c')
       = ["HR Interview"].
Proof.
  destruct (conduct_interview_records unit 1%Z Sample.office_scheduled
              "candidate_1" "HR Interview" "Good" Sample.ann_scheduled
              eq_refl)
    as (c' & F & _ & _ & _ & K & _).
  exists c'. split; [exact F | exact K].
Defined.

Lemma sample_office_reachable :
  RecruitmentOrchestrator.Reachable
    (CandidateScreener.shipped_screen None Sample.no_prompt)
    Sample.no_questions Sample.office_with_hire.
Proof.
  apply RecruitmentOrchestrator.reach_selection.
  apply RecruitmentOrchestrator.reach_application.
  change (RecruitmentOrchestrator.Reachable
            (CandidateScreener.shipped_screen None Sample.no_prompt)
            Sample.no_questions
            (RecruitmentOrchestrator.set_job_openings
               RecruitmentOrchestrator.initial_state
               [Sample.analyst_job; Sample.clerk_job])).
  apply RecruitmentOrchestrator.reach_openings.
  apply RecruitmentOrchestrator.reach_init.
Defined.

Lemma time_to_hire_never_raises_witness :
  exists text,
    RecruitmentOrchestrator._calculate_average_time_to_hire
      Sample.office_with_hire = Py.Return text.
Proof.
  destruct (time_to_hire_never_raises
              (CandidateScreener.shipped_screen None Sample.no_prompt)
              unit Sample.no_questions Sample.office_with_hire
              sample_office_reachable) as (text & H & _).
  exists text. exact H.
Defined.

Lemma top_candidates_are_best_witness :
  List.length
    (RecruitmentOrchestrator._get_top_performing_candidates
       Sample.office_with_hire) = 1%nat.
Proof.
  exact (proj1 (top_candidates_are_best unit Sample.office_with_hire)).
Defined.

Lemma resume_scores_bounded_witness :
  RecruitmentOrchestrator.rs_recommendation
    (RecruitmentOrchestrator.score_candidate_resume
       (CandidateScreener.shipped_screen None Sample.no_prompt)
       Sample.office Sample.bob)
  = "No recommendation".
Proof.
  destruct (resume_scores_bounded None Sample.no_prompt unit Sample.office
              Sample.bob) as (_ & _ & _ & _ & _ & H).
  rewrite (H eq_refl). reflexivity.
Defined.

Lemma final_round_iff_high_priority_witness :
  In "Final Round"
     (InterviewCoordinator._determine_interview_stages
        "Senior Software Engineer" "Engineering"
        (RecruitmentAnalyzer._determine_priority "Engineering"
           "Senior Software Engineer")).
Proof.
  destruct (final_round_iff_high_priority "Engineering"
              "Senior Software Engineer") as (_ & H & F).
  apply (proj2 F). apply H. reflexivity.
Defined.

Lemma salary_range_ordered_witness :
  (2 <= fst (RecruitmentAnalyzer.salary_bounds "Senior Software Engineer"
               90000)
   <= snd (RecruitmentAnalyzer.salary_bounds "Senior Software Engineer"
             90000))%Z.
Proof.
  destruct (salary_range_ordered "Senior Software Engineer" 90000)
    as (influence & _ & _ & _ & _ & _ & H2 & Hle & _).
  split; [exact H2 | exact Hle].
Defined.

(** "Engineer" stands before "Senior" in the list of bands: a senior
    engineer gets the engineer band, here raised by 7.5 percent. *)
Example senior_engineer_band :
  RecruitmentAnalyzer.salary_bounds "Senior Software Engineer" 0
  = (8, 18)%Z
  /\ RecruitmentAnalyzer.salary_bounds "Senior Software Engineer" 90000
     = (9, 19)%Z.
Proof. split; vm_compute; reflexivity. Qed.

Lemma shipped_workflow_never_schedules_witness :
  Forall (fun c => RecruitmentOrchestrator.c_interview_schedule c = None)
         (RecruitmentOrchestrator.candidates Sample.office_with_hire).
Proof.
  apply Forall_forall. intros c Hin.
  exact (proj1 (shipped_workflow_never_schedules None Sample.no_prompt unit
                  Sample.no_questions Sample.office_with_hire
                  sample_office_reachable c Hin)).
Defined.

Lemma shipped_overall_at_most_63_8_witness :
  exists r,
    CandidateScreener.shipped_screen None Sample.no_prompt Sample.ann
      Sample.analyst_job = ScreeningCompleted r
    /\ sr_overall_score r <= 638 # 10.
Proof.
  destruct (CandidateScreener.shipped_screen None Sample.no_prompt
              Sample.ann Sample.analyst_job) as [r | cid msg] eqn:E;
    [|vm_compute in E; discriminate E].
  exists r. split; [reflexivity|].
  exact (proj2 (shipped_overall_at_most_63_8 None Sample.no_prompt
                  Sample.ann Sample.analyst_job r E)).
Defined.
